(** * GenerativeRegressorFull: record encoding, conditional weights, sampling

    A shallow embedding of [rampwf/workflows/generative_regressor_full.py].

    Arrays are 2-D numpy arrays: a column count and a list of rows.  The
    float64 arithmetic of numpy and scipy is taken through the interface
    [Float64]; the structural results hold for every carrier, the numeric
    ones for the carrier [xreal] (a real number or NaN: exact arithmetic,
    no rounding, no overflow).  Exceptions are the constructors of [exn],
    raised in the order in which the Python statements run. *)

From Stdlib Require Import String Ascii.
From Stdlib Require Import List Arith ZArith Bool Lia Reals Lra.
Import ListNotations.

Set Implicit Arguments.

(** ** Exceptions and the error monad *)

Inductive exn : Set :=
| AssertionError      (* [assert nb_dists_curr <= self.max_dists] *)
| ZeroDivisionError   (* [nb_dists_curr // n_targets] with no target *)
| UnboundLocalError   (* [y] read before it was ever assigned *)
| IndexError          (* column index out of bounds, string index on an ndarray *)
| KeyError            (* a column label that the frame does not have *)
| ValueError.         (* numpy: shapes that do not broadcast, bad reshape *)

Inductive result (A : Type) : Type :=
| Ok (a : A)
| Raise (e : exn).

Arguments Ok {A} a.
Arguments Raise {A} e.

Definition bind {A B : Type} (m : result A) (f : A -> result B) : result B :=
  match m with
  | Ok a => f a
  | Raise e => Raise e
  end.

Notation "x <- m ;; k" := (bind m (fun x => k))
  (at level 61, m at next level, right associativity).

Definition raises {A : Type} (m : result A) : Prop := exists e, m = Raise e.

(** ** Two-dimensional arrays *)

Record ndarray (A : Type) : Type := mk_ndarray {
  ncols : nat;               (* [a.shape[1]] *)
  rows : list (list A)       (* [len(a)] rows of [ncols] cells *)
}.

Definition nrows {A : Type} (a : ndarray A) : nat := length (rows a).

(** Every row has the declared width, and there are [n] of them. *)
Definition wf_ndarray {A : Type} (n : nat) (a : ndarray A) : bool :=
  (nrows a =? n) && forallb (fun r => length r =? ncols a) (rows a).

(** [a[s, c]], [None] outside the array. *)
Definition cell {A : Type} (a : ndarray A) (s c : nat) : option A :=
  match nth_error (rows a) s with
  | Some r => nth_error r c
  | None => None
  end.

Fixpoint map2 {A B C : Type} (f : A -> B -> C) (l : list A) (m : list B) : list C :=
  match l, m with
  | a :: l', b :: m' => f a b :: map2 f l' m'
  | _, _ => []
  end.

(** [imap_from f i l]: [f] applied to every element with its index, counted from [i]. *)
Fixpoint imap_from {A B : Type} (f : nat -> A -> B) (i : nat) (l : list A) : list B :=
  match l with
  | [] => []
  | x :: l' => f i x :: imap_from f (S i) l'
  end.

(** *** Python slices with a positive step *)

(** Number of positions of [start::step] in a sequence of [n] elements. *)
Definition slice_len (n start step : nat) : nat :=
  if start <? n then (n - start + step - 1) / step else 0.

(** Position [p] belongs to [start::step]. *)
Definition in_slice (start step p : nat) : bool :=
  (start <=? p) && ((p - start) mod step =? 0).

(** [row[start::step]] *)
Definition slice_step {A : Type} (start step : nat) (row : list A) : list A :=
  flat_map (fun m => match nth_error row (start + m * step) with
                     | Some x => [x]
                     | None => []
                     end)
           (seq 0 (slice_len (length row) start step)).

(** [a[:, start::step]] *)
Definition cols_step {A : Type} (start step : nat) (a : ndarray A) : ndarray A :=
  {| ncols := slice_len (ncols a) start step;
     rows := map (slice_step start step) (rows a) |}.

(** [row[:stop]] for a Python integer [stop], negative values counting from the end. *)
Definition slice_to {A : Type} (stop : Z) (row : list A) : list A :=
  if (0 <=? stop)%Z then firstn (Z.to_nat stop) row
  else firstn (Z.to_nat (Z.of_nat (length row) + stop)) row.

Definition slice_to_len (stop : Z) (n : nat) : nat :=
  if (0 <=? stop)%Z then Nat.min (Z.to_nat stop) n
  else Z.to_nat (Z.of_nat n + stop).

(** [a[:, :stop]] *)
Definition cols_to {A : Type} (stop : Z) (a : ndarray A) : ndarray A :=
  {| ncols := slice_to_len stop (ncols a);
     rows := map (slice_to stop) (rows a) |}.

(** *** Strided assignment [res[:, start::step] = src[:, s_start::s_step]] *)

(** numpy broadcasts the right-hand side to the left-hand side: along an
    axis a source of length [m] fits a target of length [l] when [m = l],
    or when [m = 1] (the single column, or the single row, is repeated). *)
Definition broadcastable (m l : nat) : bool := (m =? l) || (m =? 1).

(** One row of the assignment.  The cells of the target are [option]s:
    [None] is a cell of [np.empty] that nothing has written yet. *)
Definition assign_row {A F : Type} (cast : A -> F)
    (start step s_start s_step : nat) (res : list (option F)) (src : list A)
  : list (option F) :=
  imap_from
    (fun p old =>
       if in_slice start step p then
         let m := if slice_len (length src) s_start s_step =? 1
                  then 0 else (p - start) / step in
         match nth_error src (s_start + m * s_step) with
         | Some v => Some (cast v)
         | None => old
         end
       else old)
    0 res.

(** The assignment on the arrays: the columns and the rows of the source
    have to fit those of the target, else numpy raises a [ValueError]; a
    source of one row is written into every row of the target. *)
Definition assign_cols {A F : Type} (cast : A -> F)
    (start step s_start s_step : nat) (res : ndarray (option F)) (src : ndarray A)
  : result (ndarray (option F)) :=
  if broadcastable (slice_len (ncols src) s_start s_step)
                   (slice_len (ncols res) start step)
     && broadcastable (nrows src) (nrows res)
  then Ok {| ncols := ncols res;
             rows := if nrows src =? nrows res
                     then map2 (assign_row cast start step s_start s_step)
                               (rows res) (rows src)
                     else map (fun r => assign_row cast start step s_start s_step
                                                   r (nth 0 (rows src) []))
                              (rows res) |}
  else Raise ValueError.

(** [for i in range(offset, count + offset):
        res[:, i::step] = src[:, i-offset::stride]] *)
Fixpoint assign_loop {A F : Type} (cast : A -> F) (offset step stride : nat)
    (idx : list nat) (res : ndarray (option F)) (src : ndarray A)
  : result (ndarray (option F)) :=
  match idx with
  | [] => Ok res
  | i :: idx' =>
      res' <- assign_cols cast i step (i - offset) stride res src ;;
      assign_loop cast offset step stride idx' res' src
  end.

(** [np.empty((n, width))] and [np.full((n, width), v)] *)
Definition np_empty {F : Type} (n width : nat) : ndarray (option F) :=
  {| ncols := width; rows := repeat (repeat None width) n |}.

Definition np_full {A : Type} (n width : nat) (v : A) : ndarray A :=
  {| ncols := width; rows := repeat (repeat v width) n |}.

(** [a.any()] on an integer array *)
Definition any (a : ndarray Z) : bool :=
  existsb (existsb (fun t => negb (t =? 0)%Z)) (rows a).

(** ** float64 arithmetic *)

(** The operations of numpy and scipy that the workflow applies to cells. *)
Class Float64 (F : Type) : Type := {
  of_Z : Z -> F;                     (* an integer stored into a float array *)
  fadd : F -> F -> F;
  fsub : F -> F -> F;
  fmul : F -> F -> F;
  fdiv : F -> F -> F;
  fexp : F -> F;                     (* [np.exp] *)
  norm_logpdf : F -> F -> F -> F     (* [scipy.stats.norm.logpdf(x, loc, scale)] *)
}.

(** [np.sum] of a list of cells *)
Definition fsum {F : Type} `{Float64 F} (l : list F) : F :=
  fold_left fadd l (of_Z 0).

(** ** pandas frames *)

Record DataFrame (F : Type) : Type := mk_frame {
  columns : list string;
  frame_rows : list (list F)
}.

(** [df.values] *)
Definition values {F : Type} (df : DataFrame F) : ndarray F :=
  {| ncols := length (columns df); rows := frame_rows df |}.

(** The positions of the columns labelled [label], counted from [i]. *)
Fixpoint positions (label : string) (cols : list string) (i : nat) : list nat :=
  match cols with
  | [] => []
  | c :: cols' =>
      if String.eqb label c then i :: positions label cols' (S i)
      else positions label cols' (S i)
  end.

Definition has_label (cols : list string) (label : string) : bool :=
  existsb (String.eqb label) cols.

Definition pick {A : Type} (ps : list nat) (l : list A) : list A :=
  flat_map (fun p => match nth_error l p with Some x => [x] | None => [] end) ps.

(** [df[labels]]: the columns with these labels, in the order of [labels];
    a label that the frame does not have is a [KeyError]. *)
Definition getitem {F : Type} (df : DataFrame F) (labels : list string)
  : result (DataFrame F) :=
  if forallb (has_label (columns df)) labels then
    let ps := flat_map (fun l => positions l (columns df) 0) labels in
    Ok {| columns := pick ps (columns df);
          frame_rows := map (pick ps) (frame_rows df) |}
  else Raise KeyError.

Definition kept (cols labels : list string) : list nat :=
  filter (fun p => match nth_error cols p with
                   | Some c => negb (has_label labels c)
                   | None => false
                   end)
         (seq 0 (length cols)).

(** [df.drop(columns=labels)] *)
Definition drop {F : Type} (df : DataFrame F) (labels : list string)
  : result (DataFrame F) :=
  if forallb (has_label (columns df)) labels then
    let ps := kept (columns df) labels in
    Ok {| columns := pick ps (columns df);
          frame_rows := map (pick ps) (frame_rows df) |}
  else Raise KeyError.

(** [np.hstack([a, b])] *)
Definition hstack {A : Type} (a b : ndarray A) : ndarray A :=
  {| ncols := ncols a + ncols b;
     rows := map2 (@app A) (rows a) (rows b) |}.

(** The argument [X_array] is a pandas frame or a numpy array. *)
Inductive X_input (F : Type) : Type :=
| Frame (df : DataFrame F)
| Array (a : ndarray F).

Arguments Frame {F} df.
Arguments Array {F} a.

(** [X_array.shape] *)
Definition shape0 {F : Type} (X : X_input F) : nat :=
  match X with
  | Frame df => length (frame_rows df)
  | Array a => nrows a
  end.

Definition shape1 {F : Type} (X : X_input F) : nat :=
  match X with
  | Frame df => length (columns df)
  | Array a => ncols a
  end.

(** ** The workflow object and the trained model *)

(** The fields of [self] that prediction and sampling read. *)
Record GenerativeRegressorFull : Type := mk_workflow {
  target_column_name : list string;
  max_dists : nat;
  restart_name : option string
}.

(** [weights, types, params], as the regressor returns them. *)
Definition dists (F : Type) : Type := (ndarray F * ndarray Z * ndarray F)%type.

(** The user's regressor: [predict(X)] or [predict(X, restart)]. *)
Record regressor (F : Type) : Type := mk_regressor {
  predict : X_input F -> option (ndarray F) -> dists F
}.

Section Workflow.

Context {F : Type} `{Float64 F}.

(** [_check_restart], with [train_is] the full slice. *)
Definition _check_restart (self : GenerativeRegressorFull) (X_array : X_input F)
  : result (X_input F * option (ndarray F)) :=
  match restart_name self with
  | None => Ok (X_array, None)
  | Some name =>
      match X_array with
      | Array _ => Raise IndexError          (* a string index on an ndarray *)
      | Frame df =>
          match getitem df [name] with
          | Raise _ => Ok (X_array, None)    (* [except KeyError] *)
          | Ok r =>
              match drop df [name] with
              | Raise _ => Ok (X_array, None)
              | Ok df' => Ok (Frame df', Some (values r))
              end
          end
      end
  end.

(** *** Conditional weights (lines 148-176), one row *)

Definition l_probs_row (n_targets nb_dists_per_dim : nat) (y mus sigmas : list F)
  : list (list F) :=
  map (fun j : nat =>
         map (fun i => norm_logpdf (nth i y (of_Z 0)) (nth i mus (of_Z 0))
                                   (nth i sigmas (of_Z 0)))
             (seq 0 n_targets))
      (seq 0 nb_dists_per_dim).

(** [p_excluded[j][i]]: the sum of [l_probs[j]] over the dimensions before [i]. *)
Definition p_excluded_row (n_targets : nat) (l_probs : list (list F)) : list (list F) :=
  map (fun lj => map (fun i => fsum (firstn i lj)) (seq 0 n_targets)) l_probs.

Definition at2 (a : list (list F)) (j i : nat) : F :=
  nth i (nth j a []) (of_Z 0).

Definition diffs_row (n_targets nb_dists_per_dim : nat) (weights_s : list F)
    (p_excluded : list (list F)) : list (list F) :=
  map (fun i =>
         map (fun d =>
                fsum (map (fun j =>
                             fmul (nth j weights_s (of_Z 0))
                                  (fexp (fsub (at2 p_excluded i d)
                                              (at2 p_excluded j d))))
                          (seq 0 nb_dists_per_dim)))
             (seq 0 n_targets))
      (seq 0 nb_dists_per_dim).

Definition final_w_row (n_targets nb_dists_per_dim : nat) (weights_s : list F)
    (diffs : list (list F)) : list (list F) :=
  map (fun c =>
         map (fun d => fdiv (nth c weights_s (of_Z 0)) (at2 diffs c d))
             (seq 0 n_targets))
      (seq 0 nb_dists_per_dim).

(** [final_w.reshape(n, -1, order='F')]: dimension by dimension, the
    components of one dimension side by side. *)
Definition norm_w_row (n_targets nb_dists_per_dim : nat) (final_w : list (list F))
  : list F :=
  flat_map (fun d => map (fun c => at2 final_w c d) (seq 0 nb_dists_per_dim))
           (seq 0 n_targets).

Definition reconstruct_row (n_targets nb_dists_per_dim : nat)
    (weights params y : list F) : list F :=
  let mus := slice_step 0 2 params in
  let sigmas := slice_step 1 2 params in
  let weights_s := firstn nb_dists_per_dim weights in
  let l_probs := l_probs_row n_targets nb_dists_per_dim y mus sigmas in
  let p_excluded := p_excluded_row n_targets l_probs in
  let diffs := diffs_row n_targets nb_dists_per_dim weights_s p_excluded in
  let final_w := final_w_row n_targets nb_dists_per_dim weights_s diffs in
  norm_w_row n_targets nb_dists_per_dim final_w.

(** *** Conditional weights, the batch *)

(** The rows of the weights, of the parameters and of the truths are paired
    sample by sample: the arrays of a prediction have one row per sample. *)

Definition reconstruct_weights (n_targets nb_dists_per_dim : nat)
    (weights : ndarray F) (types : ndarray Z) (params : ndarray F)
    (y : option (DataFrame F)) : result (ndarray F) :=
  let mus := cols_step 0 2 params in
  let sigmas := cols_step 1 2 params in
  match y with
  | None => Raise UnboundLocalError                 (* [y = y.values] *)
  | Some y =>
      let y := values y in
      let weights_s := cols_to (Z.of_nat nb_dists_per_dim) weights in
      (* [y[:, i]], [mus[:, i]], [sigmas[:, i]] for every [i < n_targets] *)
      if (0 <? nb_dists_per_dim)
         && (Nat.min (ncols y) (Nat.min (ncols mus) (ncols sigmas)) <? n_targets)
      then Raise IndexError
      (* [weights_s[:, j:j+1]] is empty for [j] past the columns of
         [weights]: the products of [inner_diff] then have no common shape
         that fits [diffs[:, i:i+1, :]] *)
      else if ncols weights_s <? nb_dists_per_dim then Raise ValueError
      (* [reshape(len(types), -1)] of an array without rows *)
      else if nrows types =? 0 then Raise ValueError
      else Ok {| ncols := nb_dists_per_dim * n_targets;
                 rows := map2 (fun w py =>
                                 reconstruct_row n_targets nb_dists_per_dim
                                                 w (fst py) (snd py))
                              (rows weights)
                              (combine (rows params) (rows y)) |}
  end.

(** *** The record (lines 179-202) *)

Definition encode (n_targets nb_dists_per_dim : nat)
    (weights : ndarray F) (types : ndarray Z) (params : ndarray F)
  : result (ndarray (option F)) :=
  let nb_dists_curr := ncols types in
  let sizes := np_full (nrows types) n_targets (Z.of_nat nb_dists_per_dim) in
  let size_concatenated := ncols weights + nb_dists_curr + ncols params in
  let step := (size_concatenated + n_targets) / n_targets in
  let result := np_empty (nrows types) (n_targets + size_concatenated) in
  result <- assign_cols of_Z 0 step 0 1 result sizes ;;
  let offset := 1 in
  result <- assign_loop (fun v => v) offset step nb_dists_per_dim
                        (seq offset nb_dists_per_dim) result weights ;;
  let offset := offset + nb_dists_per_dim in
  result <- assign_loop of_Z offset step nb_dists_per_dim
                        (seq offset nb_dists_per_dim) result types ;;
  let offset := offset + nb_dists_per_dim in
  result <- assign_loop (fun v => v) offset step (ncols params / n_targets)
                        (seq offset (ncols params / n_targets)) result params ;;
  Ok result.

(** *** [predict_submission] *)

(** Lines 117-134: the features handed to the regressor, the restart
    column and, for a frame, the truth columns [y]. *)
Definition split_input (self : GenerativeRegressorFull) (X_array : X_input F)
  : result (ndarray F * option (ndarray F) * option (DataFrame F)) :=
  let n_columns := Z.of_nat (shape1 X_array) in
  let n_targets := length (target_column_name self) in
  xr <- _check_restart self X_array ;;
  let X_array := fst xr in
  let restart := snd xr in
  let n_columns :=
    match restart, restart_name self with
    | Some _, Some name => (n_columns - Z.of_nat (String.length name))%Z
    | _, _ => n_columns
    end in
  let truths := map (String.append "y_") (target_column_name self) in
  xy <- match X_array with
        | Frame df =>
            y <- getitem df truths ;;
            df' <- drop df truths ;;
            Ok (hstack (values df') (values y), Some y)
        | Array a => Ok (a, None)
        end ;;
  let X := cols_to (n_columns - Z.of_nat n_targets) (fst xy) in
  Ok (X, restart, snd xy).

(** Lines 140-202, from the regressor's answer to the record. *)
Definition encode_dists (self : GenerativeRegressorFull) (d : dists F)
    (y : option (DataFrame F)) : result (ndarray (option F)) :=
  let '(weights, types, params) := d in
  let n_targets := length (target_column_name self) in
  let nb_dists_curr := ncols types in
  if negb (nb_dists_curr <=? max_dists self) then Raise AssertionError
  else if n_targets =? 0 then Raise ZeroDivisionError
  else
    let nb_dists_per_dim := nb_dists_curr / n_targets in
    weights <- (if negb (any types)
                then reconstruct_weights n_targets nb_dists_per_dim
                                         weights types params y
                else Ok weights) ;;
    encode n_targets nb_dists_per_dim weights types params.

Definition predict_submission (self : GenerativeRegressorFull)
    (trained_model : regressor F) (X_array : X_input F)
  : result (ndarray (option F)) :=
  inp <- split_input self X_array ;;
  let '(X, restart, y) := inp in
  encode_dists self (predict trained_model (Array X) restart) y.

(** [test_submission] *)
Definition test_submission (self : GenerativeRegressorFull)
    (trained_model : regressor F) (X_array : X_input F)
  : result (ndarray (option F)) :=
  predict_submission self trained_model X_array.

End Workflow.

(** ** Sampling: [step] *)

(** The two draws that [step] asks of a [numpy.random.RandomState] in state
    [G].  Each returns its outcome with the generator's next state; numpy
    rejects some arguments (probabilities that do not sum to 1, say). *)
Class RandomState (F G : Type) : Type := {
  choice : G -> nat -> list F -> result (nat * G);   (* [rng.choice(a, p=p)] *)
  multivariate_normal : G -> list F -> ndarray F -> result (list F * G)
}.

(** [a.reshape(d0, .., -1)]: the length of the last axis, when [known] is
    the product of the axes that are given. *)
Definition reshape_last (size known : nat) : result nat :=
  if (known =? 0) || negb (size mod known =? 0) then Raise ValueError
  else Ok (size / known).

(** The cells of an array in C order. *)
Definition flatten {A : Type} (a : ndarray A) : list A := concat (rows a).

Definition size {A : Type} (a : ndarray A) : nat := nrows a * ncols a.

(** [np.diag(v)] *)
Definition np_diag {F : Type} `{Float64 F} (v : list F) : ndarray F :=
  {| ncols := length v;
     rows := imap_from (fun i x =>
                          imap_from (fun j (_ : F) => if i =? j then x else of_Z 0) 0 v)
                       0 v |}.

Section Sampling.

Context {F G : Type} `{Float64 F} `{RandomState F G}.

(** [a3[0, :, c]] where [a3 = a.reshape(n_samples, n_targets, -1)] has a
    last axis of length [m]. *)
Definition component_of_first_row (n_targets m c : nat) (a : ndarray F)
  : result (list F) :=
  if c <? m
  then Ok (map (fun d => nth (d * m + c) (flatten a) (of_Z 0)) (seq 0 n_targets))
  else Raise IndexError.

(** [step], with [rng] the generator that [check_random_state] returns. *)
Definition step (self : GenerativeRegressorFull) (trained_model : regressor F)
    (X_array : X_input F) (rng : G) : result (ndarray F * G) :=
  xr <- _check_restart self X_array ;;
  let X_array := fst xr in
  let restart := snd xr in
  let n_samples := shape0 X_array in
  let n_targets := length (target_column_name self) in
  let '(weights, types, params) := predict trained_model X_array restart in
  n_w <- reshape_last (size weights) n_targets ;;
  let w_components := firstn n_w (flatten weights) in
  let all_mus := cols_step 0 2 params in
  m_mus <- reshape_last (size all_mus) (n_samples * n_targets) ;;
  let all_sigmas := cols_step 1 2 params in
  m_sigmas <- reshape_last (size all_sigmas) (n_samples * n_targets) ;;
  let n_components := length w_components in
  sel <- choice rng n_components w_components ;;
  let selected_component := fst sel in
  mus <- component_of_first_row n_targets m_mus selected_component all_mus ;;
  sigmas <- component_of_first_row n_targets m_sigmas selected_component all_sigmas ;;
  drawn <- multivariate_normal (snd sel) mus
             (np_diag (map (fun s => fmul s s) sigmas)) ;;
  Ok ({| ncols := length (fst drawn); rows := [fst drawn] |}, snd drawn).

End Sampling.

(** A generator that replays outcomes fixed in advance, the indices that
    [choice] returns and the vectors that [multivariate_normal] returns,
    and keeps the arguments of every [choice] it was asked for. *)
Record replay (F : Type) : Type := mk_replay {
  indices : list nat;
  vectors : list (list F);
  asked : list (nat * list F)
}.

#[global] Instance replay_state (F : Type) : RandomState F (replay F) := {|
  choice := fun g a p =>
    match indices g with
    | c :: cs =>
        if c <? a
        then Ok (c, {| indices := cs; vectors := vectors g;
                       asked := asked g ++ [(a, p)] |})
        else Raise ValueError
    | [] => Raise ValueError
    end;
  multivariate_normal := fun g _ _ =>
    match vectors g with
    | v :: vs => Ok (v, {| indices := indices g; vectors := vs; asked := asked g |})
    | [] => Raise ValueError
    end
|}.

(** The mean and the std of component [c] in every dimension, in a row of
    parameters that holds one (mean, std) pair per component, dimension
    after dimension. *)
Definition component_means {F : Type} `{Float64 F} (n_targets k : nat) (params : list F)
    (c : nat) : list F :=
  map (fun d => nth (2 * (d * k + c)) params (of_Z 0)) (seq 0 n_targets).

Definition component_stds {F : Type} `{Float64 F} (n_targets k : nat) (params : list F)
    (c : nat) : list F :=
  map (fun d => nth (2 * (d * k + c) + 1) params (of_Z 0)) (seq 0 n_targets).

(** One joint vector from the Gaussian with the means of the selected
    component and the squares of its stds on the diagonal, as a single row. *)
Definition draw_vector {F G : Type} `{Float64 F} `{RandomState F G}
    (n_targets k : nat) (params : list F) (sel : nat * G) : result (ndarray F * G) :=
  drawn <- multivariate_normal (snd sel)
             (component_means n_targets k params (fst sel))
             (np_diag (map (fun s => fmul s s)
                           (component_stds n_targets k params (fst sel)))) ;;
  Ok ({| ncols := length (fst drawn); rows := [fst drawn] |}, snd drawn).

(** The sampler of §4.3, read from the specification: one component index
    drawn from the categorical distribution of the first dimension's
    marginal weights, then one joint vector for that component. *)
Definition sample_spec {F G : Type} `{Float64 F} `{RandomState F G}
    (n_targets k : nat) (weights params : list F) (rng : G)
  : result (ndarray F * G) :=
  sel <- choice rng k (firstn k weights) ;;
  draw_vector n_targets k params sel.

(** ** float64 as a real number or NaN *)

(** [Fin r] is the finite value [r]; [NaN] is a value that is not a finite
    number (nan, inf or -inf, which nothing here tells apart).  Arithmetic
    on [NaN] gives [NaN] and a division by zero gives [NaN].  Sums,
    differences, products, quotients and exponentials of finite values, and
    the conversion of an integer, are taken exactly: float64 rounds them
    (integers from [2**53] on), and overflows past [float_max].  The
    log-density does overflow here as it does in float64. *)
Inductive xreal : Type :=
| Fin (r : R)
| NaN.

(** The largest finite float64, [(2 - 2**-52) * 2**1023]. *)
Definition float_max : R := IZR (2 ^ 1024 - 2 ^ 971).

Definition xlift2 (op : R -> R -> R) (a b : xreal) : xreal :=
  match a, b with
  | Fin x, Fin y => Fin (op x y)
  | _, _ => NaN
  end.

Definition xdiv (a b : xreal) : xreal :=
  match a, b with
  | Fin x, Fin y => if Req_dec_T y 0 then NaN else Fin (x / y)
  | _, _ => NaN
  end.

Definition xexp (a : xreal) : xreal :=
  match a with
  | Fin x => Fin (exp x)
  | NaN => NaN
  end.

(** [_norm_logpdf((x - loc) / scale) - log(scale)], with
    [_norm_logpdf(z) = -z**2 / 2 - log(sqrt(2 * pi))]. *)
Definition gauss_logpdf (x loc scale : R) : R :=
  (- ((x - loc) / scale) ^ 2 / 2 - ln (sqrt (2 * PI)) - ln scale)%R.

(** float64 evaluates [x - loc] and the square of [(x - loc) / scale] to
    finite values. *)
Definition logpdf_in_range (x loc scale : R) : Prop :=
  (Rabs (x - loc) <= float_max)%R /\ (((x - loc) / scale) ^ 2 <= float_max)%R.

(** [scipy.stats.norm.logpdf(x, loc, scale)]: nan (scipy's [badvalue]) at a
    scale that is not positive, and not finite either (-inf) once [x - loc]
    or the square of [(x - loc) / scale] overflows. *)
Definition xlogpdf (x loc scale : xreal) : xreal :=
  match x, loc, scale with
  | Fin x, Fin m, Fin s =>
      if Rlt_dec 0 s then
        if Rle_dec (Rabs (x - m)) float_max then
          if Rle_dec (((x - m) / s) ^ 2) float_max then Fin (gauss_logpdf x m s)
          else NaN
        else NaN
      else NaN
  | _, _, _ => NaN
  end.

Arguments xlogpdf : simpl never.

#[global] Instance xreal_float64 : Float64 xreal := {|
  of_Z := fun z => Fin (IZR z);
  fadd := xlift2 Rplus;
  fsub := xlift2 Rminus;
  fmul := xlift2 Rmult;
  fdiv := xdiv;
  fexp := xexp;
  norm_logpdf := xlogpdf
|}.

Definition is_fin (a : xreal) : Prop := exists r, a = Fin r.

(** A finite cell with a positive value. *)
Definition positive (a : xreal) : Prop := exists r, a = Fin r /\ (0 < r)%R.

(** ** Notions that the properties are stated with *)

Fixpoint map3 {A B C D : Type} (f : A -> B -> C -> D)
    (l : list A) (m : list B) (q : list C) : list D :=
  match l, m, q with
  | a :: l', b :: m', c :: q' => f a b c :: map3 f l' m' q'
  | _, _, _ => []
  end.

(** One row of [assign_loop]. *)
Definition loop_row {A F : Type} (cast : A -> F) (offset step stride : nat)
    (idx : list nat) (res : list (option F)) (src : list A) : list (option F) :=
  fold_left (fun r i => assign_row cast i step (i - offset) stride r src) idx res.

(** A prediction of [n] samples with [n_targets] dimensions and [k]
    components per dimension: [k * n_targets] weights and type codes and
    twice as many parameters in every row. *)
Definition shaped {F : Type} (n n_targets k : nat) (d : dists F) : bool :=
  let '(weights, types, params) := d in
  wf_ndarray n weights && wf_ndarray n types && wf_ndarray n params
  && (ncols weights =? k * n_targets) && (ncols types =? k * n_targets)
  && (ncols params =? 2 * k * n_targets).

(** Cell [(s, col)] of the record holds the cell [src], written through [cast]. *)
Definition copied {A F : Type} (cast : A -> F) (res : ndarray (option F))
    (s col : nat) (src : option A) : Prop :=
  exists v, src = Some v /\ cell res s col = Some (Some (cast v)).

(** What §4.1 says of a record of [n] rows, for block width [step]. *)
Definition record_layout {F : Type} `{Float64 F} (n n_targets k step : nat)
    (weights : ndarray F) (types : ndarray Z) (params : ndarray F)
    (res : ndarray (option F)) : Prop :=
  wf_ndarray n res = true /\
  ncols res = n_targets * step /\
  forall s d, s < n -> d < n_targets ->
    cell res s (d * step) = Some (Some (of_Z (Z.of_nat k))) /\
    (forall c, c < k ->
       copied (fun v => v) res s (d * step + 1 + c) (cell weights s (d * k + c))) /\
    (forall c, c < k ->
       copied of_Z res s (d * step + 1 + k + c) (cell types s (d * k + c))) /\
    (forall c, c < k ->
       copied (fun v => v) res s (d * step + 1 + 2 * k + 2 * c)
              (cell params s (2 * (d * k + c))) /\
       copied (fun v => v) res s (d * step + 1 + 2 * k + 2 * c + 1)
              (cell params s (2 * (d * k + c) + 1))).

Section Models.

Context {F : Type} `{Float64 F}.

(** The record as four nested assignments, row by row. *)
Definition encode_row (n_targets k : nat) (w : list F) (t : list Z) (p : list F)
  : list (option F) :=
  let step := 4 * k + 1 in
  loop_row (fun v => v) (1 + k + k) step (2 * k) (seq (1 + k + k) (2 * k))
    (loop_row of_Z (1 + k) step k (seq (1 + k) k)
       (loop_row (fun v => v) 1 step k (seq 1 k)
          (assign_row of_Z 0 step 0 1 (repeat None (n_targets * step))
                      (repeat (Z.of_nat k) n_targets))
          w)
       t)
    p.

(** The truth columns that a frame hands over for a prediction of [n]
    samples in [n_targets] dimensions. *)
Definition truths_for (n n_targets : nat) (y : DataFrame F) : bool :=
  (n_targets <=? length (columns y)) && (length (frame_rows y) =? n).

(** The weights that the record is built from: the regressor's, or the
    conditional ones when every component is Gaussian. *)
Definition written_weights (n_targets k : nat)
    (weights : ndarray F) (types : ndarray Z) (params : ndarray F)
    (y : option (DataFrame F)) : result (ndarray F) :=
  if any types then Ok weights
  else reconstruct_weights n_targets k weights types params y.

(** The log-densities that every component receives: column [i] of the
    means and of the stds, whatever the component. *)
Definition log_density_row (n_targets : nat) (y mus sigmas : list F) : list F :=
  map (fun i => norm_logpdf (nth i y (of_Z 0)) (nth i mus (of_Z 0))
                            (nth i sigmas (of_Z 0)))
      (seq 0 n_targets).

End Models.

(** *** Finite cells *)

Fixpoint rsum (l : list R) : R :=
  match l with
  | [] => 0%R
  | x :: l' => (x + rsum l')%R
  end.

(** The real number in a cell. *)
Definition real_of (a : xreal) : R :=
  match a with
  | Fin r => r
  | NaN => 0%R
  end.

(** The row [p] of parameters scores the realized targets [y] within range:
    in every dimension [i] the std in column [2 * i + 1] is at most 1e200
    and the target lies within 1e100 stds of the mean in column [2 * i].
    Then float64 evaluates every log-density of the row, and every sum of
    them, to a finite value. *)
Definition scored_in_range (n_targets : nat) (p y : list xreal) : Prop :=
  forall i, i < n_targets ->
    (real_of (nth (2 * i + 1) p (Fin 0)) <= 1e200)%R /\
    (Rabs (real_of (nth i y (Fin 0)) - real_of (nth (2 * i) p (Fin 0)))
     <= 1e100 * real_of (nth (2 * i + 1) p (Fin 0)))%R.

(** A row of finite cells with positive stds that score the targets within
    range, as lists of real numbers. *)
Record finite_row (n_targets k : nat) (w p y : list xreal) : Prop := {
  fin_weights : Forall is_fin w;
  fin_params : Forall is_fin p;
  fin_truths : Forall is_fin y;
  pos_stds : Forall positive (slice_step 1 2 p);
  in_range : scored_in_range n_targets p y;
  len_weights : length w = k * n_targets;
  len_params : length p = 2 * k * n_targets
}.

(** The sum of the marginal weights of a row, those of the first dimension. *)
Definition marginal_sum (k : nat) (w : list xreal) : R :=
  rsum (map real_of (firstn k w)).

Definition finite_cells (a : ndarray xreal) : Prop :=
  Forall (Forall is_fin) (rows a).

Definition positive_stds (params : ndarray xreal) : Prop :=
  Forall (fun p => Forall positive (slice_step 1 2 p)) (rows params).

(** In every row the marginal weights do not sum to zero (the data model
    has them sum to 1). *)
Definition nonzero_marginals (k : nat) (weights : ndarray xreal) : Prop :=
  Forall (fun w => marginal_sum k w <> 0%R) (rows weights).

(** In every row the marginal weights lie between 0 and 1. *)
Definition unit_marginals (k : nat) (weights : ndarray xreal) : Prop :=
  Forall (fun w => Forall (fun a => exists r, a = Fin r /\ (0 <= r <= 1)%R)
                          (firstn k w))
         (rows weights).

(** Every sample is scored within range: the parameters of its row against
    its realized targets. *)
Definition targets_in_range (n_targets : nat) (params : ndarray xreal)
    (y : DataFrame xreal) : Prop :=
  forall s p yr,
    nth_error (rows params) s = Some p -> nth_error (frame_rows y) s = Some yr ->
    scored_in_range n_targets p yr.

(** The [k] weights of dimension [d] in row [s]. *)
Definition dimension_weights {A : Type} (k : nat) (a : ndarray A) (s d : nat) : list A :=
  firstn k (skipn (d * k) (nth s (rows a) [])).

(** The marginal weights are the same one-hot vector in every dimension. *)
Definition one_hot (n_targets k : nat) (weights : ndarray xreal) : Prop :=
  forall s w, nth_error (rows weights) s = Some w ->
    exists m, m < k /\
      forall d c, d < n_targets -> c < k ->
        nth_error w (d * k + c) = Some (Fin (if c =? m then 1 else 0)).

(** The formula of §4.2, read from the specification: the exclusion
    likelihood of component [c] before dimension [d] sums the log-densities
    of the realized targets at the (mean, std) of component [c] in each
    earlier dimension, and the conditional weight is the softmax of the
    marginal weights under these likelihoods. *)
Definition spec_exclusion {F : Type} `{Float64 F} (k : nat) (params y : list F)
    (c d : nat) : F :=
  fsum (map (fun i => norm_logpdf (nth i y (of_Z 0))
                                  (nth (2 * (i * k + c)) params (of_Z 0))
                                  (nth (2 * (i * k + c) + 1) params (of_Z 0)))
            (seq 0 d)).

Definition spec_conditional_weight {F : Type} `{Float64 F} (k : nat)
    (weights params y : list F) (c d : nat) : F :=
  fdiv (fmul (nth c weights (of_Z 0)) (fexp (spec_exclusion k params y c d)))
       (fsum (map (fun j => fmul (nth j weights (of_Z 0))
                                 (fexp (spec_exclusion k params y j d)))
                  (seq 0 k))).

(** ** Example inputs *)

Module Examples.

Local Open Scope R_scope.
Local Open Scope string_scope.

Definition row (l : list R) : list xreal := map Fin l.

(** Two targets, at most four component slots, no restart column. *)
Definition workflow2 : GenerativeRegressorFull :=
  {| target_column_name := ["a"; "b"]; max_dists := 4; restart_name := None |}.

(** One target. *)
Definition workflow1 : GenerativeRegressorFull :=
  {| target_column_name := ["a"]; max_dists := 4; restart_name := None |}.

(** One sample: a feature and the two realized targets. *)
Definition frame1 : X_input xreal :=
  Frame {| columns := ["f"; "y_a"; "y_b"]; frame_rows := [row [3; 0; 0]] |}.

Definition array1 : X_input xreal :=
  Array {| ncols := 3; rows := [row [3; 0; 0]] |}.

(** The truths of [frame1]. *)
Definition truths1 : DataFrame xreal :=
  {| columns := ["y_a"; "y_b"]; frame_rows := [row [0; 0]] |}.

(** Two samples of one feature. *)
Definition batch2 : X_input xreal :=
  Array {| ncols := 1; rows := [row [3]; row [4]] |}.

Definition constant (d : dists xreal) : regressor xreal :=
  {| predict := fun _ _ => d |}.

Definition zero_types : ndarray Z := {| ncols := 4; rows := [[0; 0; 0; 0]%Z] |}.

(** Two components per dimension; in dimension 0 the components have
    means 0 and 1, in dimension 1 both have mean 0; every std is 1. *)
Definition params2x2 : ndarray xreal :=
  {| ncols := 8; rows := [row [0; 1; 1; 1; 0; 1; 0; 1]] |}.

Definition halves2x2 : ndarray xreal :=
  {| ncols := 4; rows := [row [1/2; 1/2; 1/2; 1/2]] |}.

Definition gaussian2x2 : dists xreal := (halves2x2, zero_types, params2x2).

(** The same mixture with one type code that is not Gaussian. *)
Definition mixed_types : ndarray Z := {| ncols := 4; rows := [[0; 1; 0; 0]%Z] |}.

Definition mixed2x2 : dists xreal := (halves2x2, mixed_types, params2x2).

(** The same mixture with all the weight on the first component. *)
Definition first_only : ndarray xreal :=
  {| ncols := 4; rows := [row [1; 0; 1; 0]] |}.

Definition onehot2x2 : dists xreal := (first_only, zero_types, params2x2).

(** One component per dimension, the std of dimension 0 being 0. *)
Definition degenerate_params : ndarray xreal :=
  {| ncols := 4; rows := [row [0; 0; 0; 1]] |}.

Definition degenerate2x1 : dists xreal :=
  ({| ncols := 2; rows := [row [1; 1]] |},
   {| ncols := 2; rows := [[0; 0]%Z] |},
   degenerate_params).

(** A single component slot for two targets. *)
Definition lone_types : ndarray Z := {| ncols := 1; rows := [[1]%Z] |}.

Definition lone_slot : dists xreal :=
  ({| ncols := 1; rows := [row [1]] |}, lone_types,
   {| ncols := 2; rows := [row [0; 1]] |}).

(** Three component slots for two targets. *)
Definition three_types : ndarray Z := {| ncols := 3; rows := [[1; 0; 0]%Z] |}.

Definition three_slots : dists xreal :=
  ({| ncols := 3; rows := [row [1; 1; 1]] |}, three_types,
   {| ncols := 6; rows := [row [0; 1; 0; 1; 0; 1]] |}).

(** One target and one component, for a batch of two samples; the sample
    with mean 0 comes first. *)
Definition two_samples : dists xreal :=
  ({| ncols := 1; rows := [row [1/2]; row [1/2]] |},
   {| ncols := 1; rows := [[0]%Z; [0]%Z] |},
   {| ncols := 2; rows := [row [0; 1]; row [5; 1]] |}).

(** A generator that will return index 0 and then the vector [v]. *)
Definition scripted (v : list R) : replay xreal :=
  {| indices := [0%nat]; vectors := [row v]; asked := [] |}.

(** A realized target far from every mean. *)
Definition far : R := 1e200.

(** The sample of [frame1] with that target in dimension 0, and its truths. *)
Definition far_frame : X_input xreal :=
  Frame {| columns := ["f"; "y_a"; "y_b"]; frame_rows := [row [3; far; 0]] |}.

Definition far_truths : DataFrame xreal :=
  {| columns := ["y_a"; "y_b"]; frame_rows := [row [far; 0]] |}.

(** Two targets, at most three component slots, no restart column. *)
Definition workflow_tight : GenerativeRegressorFull :=
  {| target_column_name := ["a"; "b"]; max_dists := 3; restart_name := None |}.

End Examples.

(** ** Training: [train_submission] *)

(** [train_is]: the full slice (the default), or an array of row indices. *)
Inductive row_selection : Type :=
| All_rows
| Rows (idx : list nat).

(** [a[train_is,]] on the rows of an array: an index past the last row is
    an [IndexError]. *)
Definition take_rows {A : Type} (train_is : row_selection) (l : list A)
  : result (list A) :=
  match train_is with
  | All_rows => Ok l
  | Rows idx =>
      if forallb (fun i => i <? length l) idx then Ok (pick idx l)
      else Raise IndexError
  end.

(** [y_array], by its number of dimensions. *)
Inductive y_input (F : Type) : Type :=
| Vector (v : list F)        (* one dimension *)
| Matrix (a : ndarray F)     (* two dimensions *)
| Tensor (len : nat).        (* three or more, [len] entries along the first *)

Arguments Vector {F} v.
Arguments Matrix {F} a.
Arguments Tensor {F} len.

(** The submitted module: [GenerativeRegressorFull(max_dists, **kwargs)]
    followed by [fit(X, y)] or [fit(X, y, restart)], as the regressor that
    this leaves trained. *)
Record submission (F : Type) : Type := mk_submission {
  fit : nat -> ndarray F -> ndarray F -> option (ndarray F) -> regressor F
}.

Section Training.

Context {F : Type} `{Float64 F}.

(** [_check_restart] with any [train_is]: the rows of the restart column
    are selected inside the [try], where only a [KeyError] is caught. *)
Definition _check_restart_rows (self : GenerativeRegressorFull) (X_array : X_input F)
    (train_is : row_selection) : result (X_input F * option (ndarray F)) :=
  match restart_name self with
  | None => Ok (X_array, None)
  | Some name =>
      match X_array with
      | Array _ => Raise IndexError
      | Frame df =>
          match getitem df [name] with
          | Raise _ => Ok (X_array, None)
          | Ok r =>
              match drop df [name] with
              | Raise _ => Ok (X_array, None)
              | Ok df' =>
                  rs <- take_rows train_is (frame_rows r) ;;
                  Ok (Frame df', Some {| ncols := length (columns r); rows := rs |})
              end
          end
      end
  end.

(** Lines 67-79: the features and the restart column handed to [fit].  The
    truths are dropped from a frame inside a [try] that passes over a
    [KeyError], and [drop] raises it before it removes anything. *)
Definition train_features (self : GenerativeRegressorFull) (X_array : X_input F)
    (train_is : row_selection) : result (ndarray F * option (ndarray F)) :=
  let truths := map (String.append "y_") (target_column_name self) in
  xr <- _check_restart_rows self X_array train_is ;;
  let X := match fst xr with
           | Frame df =>
               match drop df truths with
               | Ok df' => values df'
               | Raise _ => values df
               end
           | Array a => a
           end in
  rs <- take_rows train_is (rows X) ;;
  Ok ({| ncols := ncols X; rows := rs |}, snd xr).

(** Lines 84-95: the targets handed to [fit].  [y_array.shape[1]] does not
    exist for one dimension; with three or more the selected rows still
    have more than two. *)
Definition train_targets (y_array : y_input F) (train_is : row_selection)
  : result (ndarray F) :=
  match y_array with
  | Vector _ => Raise IndexError
  | Matrix a =>
      rs <- take_rows train_is (rows a) ;;
      Ok {| ncols := ncols a; rows := rs |}
  | Tensor len =>
      _ <- take_rows train_is (repeat tt len) ;;
      Raise ValueError
  end.

Definition train_submission (self : GenerativeRegressorFull) (module : submission F)
    (X_array : X_input F) (y_array : y_input F) (train_is : row_selection)
  : result (regressor F) :=
  xr <- train_features self X_array train_is ;;
  y <- train_targets y_array train_is ;;
  Ok (fit module (max_dists self) (fst xr) y (snd xr)).

End Training.

(** ** The workflow without its restart column *)

(** [self] with [restart_name=None]. *)
Definition without_restart (self : GenerativeRegressorFull) : GenerativeRegressorFull :=
  {| target_column_name := target_column_name self;
     max_dists := max_dists self;
     restart_name := None |}.

(** ** Further example inputs *)

Module Cases.

Local Open Scope R_scope.
Local Open Scope string_scope.

(** The frame of [Examples.frame1]. *)
Definition table1 : DataFrame xreal :=
  {| columns := ["f"; "y_a"; "y_b"]; frame_rows := [Examples.row [3; 0; 0]] |}.

(** The same sample without the truth of target "b". *)
Definition table_a : DataFrame xreal :=
  {| columns := ["f"; "y_a"]; frame_rows := [Examples.row [3; 0]] |}.

(** The same frame without rows, and a prediction for no sample. *)
Definition no_rows : DataFrame xreal :=
  {| columns := ["f"; "y_a"; "y_b"]; frame_rows := [] |}.

Definition no_dists : dists xreal :=
  ({| ncols := 4; rows := [] |}, {| ncols := 4; rows := [] |},
   {| ncols := 8; rows := [] |}).

(** Two targets and a restart column "r". *)
Definition workflow_r : GenerativeRegressorFull :=
  {| target_column_name := ["a"; "b"]; max_dists := 4; restart_name := Some "r" |}.

Definition table_r : DataFrame xreal :=
  {| columns := ["f"; "r"; "y_a"; "y_b"];
     frame_rows := [Examples.row [3; 1; 0; 0]] |}.

(** No target. *)
Definition workflow0 : GenerativeRegressorFull :=
  {| target_column_name := []; max_dists := 4; restart_name := None |}.

(** The weights of [Examples.halves2x2] in dimension 0, others in dimension 1. *)
Definition uneven2x2 : ndarray xreal :=
  {| ncols := 4; rows := [Examples.row [1/2; 1/2; 1/4; 3/4]] |}.

(** The weights of [Examples.degenerate2x1]. *)
Definition ones2x1 : ndarray xreal :=
  {| ncols := 2; rows := [Examples.row [1; 1]] |}.

Definition zeros2x1 : ndarray Z := {| ncols := 2; rows := [[0; 0]%Z] |}.

(** A generator that will return index 1 and then the vector [v]. *)
Definition scripted_second (v : list R) : replay xreal :=
  {| indices := [1%nat]; vectors := [Examples.row v]; asked := [] |}.

(** Two samples as a numpy array, the truths in the last two columns, and
    their targets. *)
Definition array2 : ndarray xreal :=
  {| ncols := 3; rows := [Examples.row [3; 0; 0]; Examples.row [4; 1; 1]] |}.

Definition targets2 : ndarray xreal :=
  {| ncols := 2; rows := [Examples.row [0; 0]; Examples.row [1; 1]] |}.

Definition targets1 : ndarray xreal :=
  {| ncols := 2; rows := [Examples.row [0; 0]] |}.

(** A submission whose regressor answers every call with the features it
    was fit on as parameters and the targets as weights. *)
Definition memorise : submission xreal :=
  {| fit := fun _ X y _ =>
       {| predict := fun _ _ =>
            (y, {| ncols := ncols y; rows := map (map (fun _ => 0%Z)) (rows y) |}, X) |} |}.

End Cases.

(** ** Proof steps *)

(** Write the position of the goal's cell as offset [r] of block [d]. *)
Ltac block_pos d step r :=
  match goal with
  | |- context [nth_error _ ?pos] =>
      replace pos with (d * step + r) by lia
  end.

(** No index of the loop is the offset of the cell; [block] tells when an
    index hits a block offset. *)
Ltac outside_slices block :=
  let i := fresh "i" in
  let Hi := fresh "Hi" in
  intros i Hi; apply in_seq in Hi;
  rewrite block by lia; apply Nat.eqb_neq; lia.

(** Explicit rows of finite cells, and of positive ones. *)
Ltac fin_cells := repeat constructor; eexists; reflexivity.
Ltac pos_cells := repeat constructor; eexists; (split; [reflexivity | lra]).

(** One explicit row of parameters that scores its targets within range;
    [one100] and [one200] bound 1 by the two powers of ten. *)
Ltac near_row one100 one200 :=
  let i := fresh "i" in
  let Hi := fresh "Hi" in
  let A := fresh "A" in
  let B := fresh "B" in
  let HA := fresh "HA" in
  let HB := fresh "HB" in
  unfold scored_in_range;
  generalize one100 one200; generalize 1e100%R 1e200%R;
  intros A B HA HB i Hi;
  repeat (destruct i as [|i];
          [ simpl; split;
            [ lra | unfold Rabs; destruct (Rcase_abs _); lra ]
          | try (simpl in Hi; lia) ]).

(** The same for the single sample of an example. *)
Ltac near_cells one100 one200 :=
  let s := fresh "s" in
  let p := fresh "p" in
  let yr := fresh "yr" in
  let Hp := fresh "Hp" in
  let Hy := fresh "Hy" in
  intros s p yr Hp Hy;
  destruct s as [|s]; [|destruct s; discriminate Hp];
  injection Hp as <-; injection Hy as <-;
  near_row one100 one200.

(** * Properties *)

(** ** Lists, slices and strided assignment *)

Lemma length_imap_from (A B : Type) (f : nat -> A -> B) (l : list A) (i : nat) :
  length (imap_from f i l) = length l.
Proof.
  revert i; induction l as [|x l IH]; intros i; simpl; [reflexivity|].
  now rewrite IH.
Qed.

Lemma nth_error_imap_from (A B : Type) (f : nat -> A -> B) (l : list A) (i p : nat) :
  nth_error (imap_from f i l) p = option_map (f (i + p)) (nth_error l p).
Proof.
  revert i p; induction l as [|x l IH]; intros i p.
  - now destruct p.
  - destruct p as [|p]; simpl.
    + now rewrite Nat.add_0_r.
    + rewrite IH. now replace (S i + p) with (i + S p) by lia.
Qed.

Lemma nth_error_map2 (A B C : Type) (f : A -> B -> C) (l : list A) (m : list B)
    (s : nat) (a : A) (b : B) :
  nth_error l s = Some a -> nth_error m s = Some b ->
  nth_error (map2 f l m) s = Some (f a b).
Proof.
  revert m s; induction l as [|x l IH]; intros m s Ha Hb.
  - now destruct s.
  - destruct m as [|y m]; [now destruct s|].
    destruct s as [|s]; simpl in *.
    + now inversion Ha; inversion Hb.
    + now apply IH.
Qed.

Lemma length_map2 (A B C : Type) (f : A -> B -> C) (l : list A) (m : list B) :
  length (map2 f l m) = Nat.min (length l) (length m).
Proof.
  revert m; induction l as [|x l IH]; intros [|y m]; simpl; auto.
Qed.

Lemma map2_map2_l (A B C : Type) (f g : A -> B -> A) (l : list A) (m : list B) :
  map2 f (map2 g l m) m = map2 (fun a b => f (g a b) b) l m.
Proof.
  revert m; induction l as [|x l IH]; intros [|y m]; simpl; auto.
  now rewrite IH.
Qed.

Lemma nth_error_repeat_lt (A : Type) (x : A) (n p : nat) :
  p < n -> nth_error (repeat x n) p = Some x.
Proof.
  revert p; induction n as [|n IH]; intros p Hp; [lia|].
  destruct p as [|p]; simpl; [reflexivity|]. apply IH; lia.
Qed.

(** A block of [s] columns repeated [t] times: every start below [s] hits
    each block once. *)
Lemma slice_len_blocks (t s i : nat) : i < s -> slice_len (t * s) i s = t.
Proof.
  intros Hi. unfold slice_len.
  destruct (i <? t * s) eqn:E.
  - apply Nat.ltb_lt in E.
    symmetry. apply Nat.div_unique with (r := s - 1 - i); nia.
  - apply Nat.ltb_ge in E. destruct t; [reflexivity | nia].
Qed.

Lemma slice_len_all (n : nat) : slice_len n 0 1 = n.
Proof.
  unfold slice_len. destruct (0 <? n) eqn:E.
  - rewrite Nat.sub_0_r, Nat.add_sub, Nat.div_1_r. reflexivity.
  - apply Nat.ltb_ge in E. lia.
Qed.

Lemma in_slice_block (i s d r : nat) :
  i < s -> r < s -> in_slice i s (d * s + r) = (i =? r).
Proof.
  intros Hi Hr. unfold in_slice.
  destruct (Nat.eqb_spec i r) as [->|Hne].
  - replace (d * s + r - r) with (d * s) by lia.
    rewrite Nat.Div0.mod_mul.
    replace (r <=? d * s + r) with true by (symmetry; apply Nat.leb_le; lia).
    reflexivity.
  - destruct (i <=? d * s + r) eqn:E; [|reflexivity]. simpl.
    apply Nat.leb_le in E. apply Nat.eqb_neq. intros Hm.
    destruct (Nat.lt_ge_cases i r) as [Hlt|Hge].
    + replace (d * s + r - i) with ((r - i) + d * s) in Hm by lia.
      rewrite Nat.Div0.mod_add, Nat.mod_small in Hm by lia. lia.
    + destruct d as [|d]; [simpl in E; lia|].
      replace (S d * s + r - i) with ((s + r - i) + d * s) in Hm by lia.
      rewrite Nat.Div0.mod_add, Nat.mod_small in Hm by lia. lia.
Qed.

Lemma div_block (i s d : nat) : 0 < s -> (d * s + i - i) / s = d.
Proof.
  intros Hs. replace (d * s + i - i) with (d * s) by lia.
  apply Nat.div_mul. lia.
Qed.

Lemma length_assign_row (A F : Type) (cast : A -> F) (a b c d : nat)
    (res : list (option F)) (src : list A) :
  length (assign_row cast a b c d res src) = length res.
Proof. apply length_imap_from. Qed.

Lemma nth_error_assign_row (A F : Type) (cast : A -> F) (start step s_start s_step p : nat)
    (res : list (option F)) (src : list A) :
  nth_error (assign_row cast start step s_start s_step res src) p =
  option_map
    (fun old =>
       if in_slice start step p then
         match nth_error src
                 (s_start +
                  (if slice_len (length src) s_start s_step =? 1
                   then 0 else (p - start) / step) * s_step) with
         | Some v => Some (cast v)
         | None => old
         end
       else old)
    (nth_error res p).
Proof. unfold assign_row. now rewrite nth_error_imap_from. Qed.

Lemma length_loop_row (A F : Type) (cast : A -> F) (offset step stride : nat)
    (idx : list nat) (res : list (option F)) (src : list A) :
  length (loop_row cast offset step stride idx res src) = length res.
Proof.
  unfold loop_row. revert res; induction idx as [|i idx IH]; intros res; simpl.
  - reflexivity.
  - now rewrite IH, length_assign_row.
Qed.

(** Columns outside every slice of the loop keep their cell. *)
Lemma loop_row_other (A F : Type) (cast : A -> F) (offset step stride p : nat)
    (idx : list nat) (res : list (option F)) (src : list A) :
  (forall i, In i idx -> in_slice i step p = false) ->
  nth_error (loop_row cast offset step stride idx res src) p = nth_error res p.
Proof.
  unfold loop_row. revert res; induction idx as [|i idx IH]; intros res Hout; simpl.
  - reflexivity.
  - rewrite IH by (intros j Hj; apply Hout; now right).
    rewrite nth_error_assign_row, (Hout i) by now left.
    now destruct (nth_error res p).
Qed.

(** The column of block [d] at offset [i] receives the cell that the source
    holds [d] strides after [i - offset]. *)
Lemma loop_row_hit (A F : Type) (cast : A -> F) (offset step stride d i : nat)
    (idx : list nat) (res : list (option F)) (src : list A) (v : A) :
  (forall j, In j idx -> j < step) ->
  In i idx ->
  d * step + i < length res ->
  d < slice_len (length src) (i - offset) stride ->
  nth_error src (i - offset + d * stride) = Some v ->
  nth_error (loop_row cast offset step stride idx res src) (d * step + i)
  = Some (Some (cast v)).
Proof.
  unfold loop_row. intros Hlt Hin Hp Hd Hv.
  assert (Hstep : 0 < step) by (specialize (Hlt i Hin); lia).
  assert (Hcell : forall r : list (option F), length r = length res ->
            nth_error (assign_row cast i step (i - offset) stride r src)
                      (d * step + i) = Some (Some (cast v))).
  { intros r Hr. rewrite nth_error_assign_row.
    rewrite in_slice_block by (auto; apply Hlt, Hin).
    rewrite Nat.eqb_refl, div_block by assumption.
    destruct (nth_error r (d * step + i)) as [old|] eqn:E.
    - simpl. destruct (slice_len (length src) (i - offset) stride =? 1) eqn:E1.
      + apply Nat.eqb_eq in E1. assert (d = 0) by lia. subst d.
        simpl in *. now rewrite Nat.add_0_r in *; rewrite Hv.
      + now rewrite Hv.
    - apply nth_error_None in E. lia. }
  revert res Hp Hcell.
  induction idx as [|j idx IH]; intros res Hp Hcell; [contradiction|].
  simpl. destruct (Nat.eq_dec j i) as [->|Hne].
  - destruct (in_dec Nat.eq_dec i idx) as [Hin'|Hnin].
    + apply IH; auto.
      * intros k Hk; apply Hlt; now right.
      * now rewrite length_assign_row.
      * intros r Hr. apply Hcell. now rewrite Hr, length_assign_row.
    + fold (loop_row cast offset step stride idx
              (assign_row cast i step (i - offset) stride res src) src).
      rewrite loop_row_other.
      * now apply Hcell.
      * intros k Hk. rewrite in_slice_block.
        -- apply Nat.eqb_neq. intros ->. contradiction.
        -- apply Hlt; now right.
        -- apply Hlt, Hin.
  - destruct Hin as [->|Hin]; [contradiction|].
    apply IH; auto.
    + intros k Hk; apply Hlt; now right.
    + now rewrite length_assign_row.
    + intros r Hr. apply Hcell. now rewrite Hr, length_assign_row.
Qed.

Lemma wf_ndarray_spec (A : Type) (n : nat) (a : ndarray A) :
  wf_ndarray n a = true <->
  nrows a = n /\ (forall r, In r (rows a) -> length r = ncols a).
Proof.
  unfold wf_ndarray. rewrite andb_true_iff, Nat.eqb_eq, forallb_forall.
  split; intros [Hn Hr]; split; auto; intros r Hin.
  - apply Nat.eqb_eq; auto.
  - apply Nat.eqb_eq; auto.
Qed.

(** Inside a well-formed array every cell exists. *)
Lemma wf_row (A : Type) (n : nat) (a : ndarray A) (s : nat) :
  wf_ndarray n a = true -> s < n ->
  exists r, nth_error (rows a) s = Some r /\ length r = ncols a.
Proof.
  intros Hwf Hs. apply wf_ndarray_spec in Hwf as [Hn Hr].
  unfold nrows in Hn.
  destruct (nth_error (rows a) s) as [r|] eqn:E.
  - exists r; split; auto. apply Hr. eapply nth_error_In; eauto.
  - apply nth_error_None in E. lia.
Qed.

Lemma assign_cols_ok (A F : Type) (cast : A -> F) (start step s_start s_step : nat)
    (res : ndarray (option F)) (src : ndarray A) :
  nrows res = nrows src ->
  broadcastable (slice_len (ncols src) s_start s_step)
                (slice_len (ncols res) start step) = true ->
  assign_cols cast start step s_start s_step res src
  = Ok {| ncols := ncols res;
          rows := map2 (assign_row cast start step s_start s_step)
                       (rows res) (rows src) |}.
Proof.
  intros Hn Hb. unfold assign_cols. rewrite Hb, Hn. unfold broadcastable.
  now rewrite !Nat.eqb_refl.
Qed.

Lemma assign_cols_inv (A F : Type) (cast : A -> F) (start step s_start s_step : nat)
    (res res' : ndarray (option F)) (src : ndarray A) :
  assign_cols cast start step s_start s_step res src = Ok res' ->
  broadcastable (slice_len (ncols src) s_start s_step)
                (slice_len (ncols res) start step) = true /\
  ncols res' = ncols res.
Proof.
  unfold assign_cols.
  destruct (broadcastable (slice_len _ _ _) _); simpl; [|discriminate].
  destruct (broadcastable (nrows src) (nrows res)); [|discriminate].
  now intros [= <-].
Qed.

Lemma assign_loop_ok (A F : Type) (cast : A -> F) (offset step stride : nat)
    (idx : list nat) (res : ndarray (option F)) (src : ndarray A) :
  nrows res = nrows src ->
  (forall i, In i idx ->
     broadcastable (slice_len (ncols src) (i - offset) stride)
                   (slice_len (ncols res) i step) = true) ->
  assign_loop cast offset step stride idx res src
  = Ok {| ncols := ncols res;
          rows := map2 (loop_row cast offset step stride idx)
                       (rows res) (rows src) |}.
Proof.
  revert res; induction idx as [|i idx IH]; intros res Hn Hb; simpl.
  - f_equal. destruct res as [c rs]; simpl in *. f_equal.
    unfold nrows in Hn; simpl in Hn.
    revert Hn. generalize (rows src). induction rs as [|r rs IHr];
      intros [|x m] Hm; simpl in *; try discriminate; auto.
    f_equal. apply IHr. lia.
  - rewrite assign_cols_ok by (assumption || (apply Hb; now left)). simpl.
    rewrite IH; simpl.
    + now rewrite map2_map2_l.
    + unfold nrows in *; simpl. rewrite length_map2. lia.
    + intros j Hj. apply Hb. now right.
Qed.

(** A raising assignment ends the loop. *)
Lemma assign_loop_raises (A F : Type) (cast : A -> F) (offset step stride i : nat)
    (idx : list nat) (res : ndarray (option F)) (src : ndarray A) :
  In i idx ->
  (forall r : ndarray (option F), ncols r = ncols res ->
     broadcastable (slice_len (ncols src) (i - offset) stride)
                   (slice_len (ncols r) i step) = false) ->
  raises (assign_loop cast offset step stride idx res src).
Proof.
  revert res; induction idx as [|j idx IH]; intros res Hin Hbad; [contradiction|].
  simpl. unfold assign_cols at 1.
  destruct (broadcastable (slice_len (ncols src) (j - offset) stride)
                          (slice_len (ncols res) j step)) eqn:E.
  - destruct (broadcastable (nrows src) (nrows res)); simpl;
      [|now exists ValueError].
    destruct Hin as [->|Hin].
    + rewrite Hbad in E by reflexivity. discriminate.
    + apply IH; auto.
  - now exists ValueError.
Qed.

(** The loop keeps the width of the target. *)
Lemma assign_loop_ncols (A F : Type) (cast : A -> F) (offset step stride : nat)
    (idx : list nat) (res res' : ndarray (option F)) (src : ndarray A) :
  assign_loop cast offset step stride idx res src = Ok res' ->
  ncols res' = ncols res.
Proof.
  revert res; induction idx as [|j idx IH]; intros res; simpl.
  - now intros [= ->].
  - unfold assign_cols at 1.
    destruct (_ && _); simpl; [|discriminate].
    intros Hl. now apply IH in Hl.
Qed.

(** ** The layout of the record *)

Section Layout.

Context {F : Type} `{Float64 F}.

Lemma cell_wf (A : Type) (n : nat) (a : ndarray A) (s c : nat) :
  wf_ndarray n a = true -> s < n -> c < ncols a ->
  exists r v, nth_error (rows a) s = Some r /\ length r = ncols a
              /\ nth_error r c = Some v /\ cell a s c = Some v.
Proof.
  intros Hwf Hs Hc. destruct (wf_row a Hwf Hs) as [r [Hr Hl]].
  destruct (nth_error r c) as [v|] eqn:E.
  - exists r, v. unfold cell. rewrite Hr. auto.
  - apply nth_error_None in E. lia.
Qed.

Lemma shaped_step (n_targets k : nat) :
  0 < n_targets ->
  (k * n_targets + k * n_targets + 2 * k * n_targets + n_targets) / n_targets
  = 4 * k + 1.
Proof.
  intros Ht. symmetry. apply Nat.div_unique with (r := 0); nia.
Qed.

Lemma nth_error_map3 (A B C D : Type) (f : A -> B -> C -> D)
    (l : list A) (m : list B) (q : list C) (s : nat) (a : A) (b : B) (c : C) :
  nth_error l s = Some a -> nth_error m s = Some b -> nth_error q s = Some c ->
  nth_error (map3 f l m q) s = Some (f a b c).
Proof.
  revert m q s; induction l as [|x l IH]; intros m q s Ha Hb Hc.
  - now destruct s.
  - destruct m as [|y m]; [now destruct s|].
    destruct q as [|z q]; [now destruct s|].
    destruct s as [|s]; simpl in *.
    + now inversion Ha; inversion Hb; inversion Hc.
    + now apply IH.
Qed.

Lemma length_map3 (A B C D : Type) (f : A -> B -> C -> D)
    (l : list A) (m : list B) (q : list C) :
  length l = length m -> length l = length q ->
  length (map3 f l m q) = length l.
Proof.
  revert m q; induction l as [|x l IH]; intros [|y m] [|z q] Hm Hq;
    simpl in *; try discriminate; auto.
Qed.

Lemma In_map3 (A B C D : Type) (f : A -> B -> C -> D)
    (l : list A) (m : list B) (q : list C) (x : D) :
  In x (map3 f l m q) -> exists a b c, x = f a b c.
Proof.
  revert m q; induction l as [|a l IH]; intros [|b m] [|c q] Hin;
    simpl in *; try contradiction.
  destruct Hin as [<-|Hin]; eauto.
Qed.

Lemma encode_rows_aux (R W T P Z0 : Type) (ws : list W) (ps : list P) (ts : list T)
    (f1 : R -> Z0 -> R) (f2 : R -> W -> R) (f3 : R -> T -> R) (f4 : R -> P -> R)
    (x : R) (z : Z0) :
  length ws = length ts -> length ps = length ts ->
  map2 f4 (map2 f3 (map2 f2 (map2 f1 (repeat x (length ts)) (repeat z (length ts)))
                            ws) ts) ps
  = map3 (fun w t p => f4 (f3 (f2 (f1 x z) w) t) p) ws ts ps.
Proof.
  revert ws ps; induction ts as [|t ts IH]; intros [|w ws] [|p ps] Hw Hp;
    simpl in *; try discriminate; auto.
  f_equal. apply IH; lia.
Qed.

(** With the shapes of the contract no assignment fails, and the record is
    [encode_row] of every sample. *)
Lemma encode_shaped (n n_targets k : nat)
    (weights : ndarray F) (types : ndarray Z) (params : ndarray F) :
  0 < n_targets ->
  shaped n n_targets k (weights, types, params) = true ->
  encode n_targets k weights types params
  = Ok {| ncols := n_targets * (4 * k + 1);
          rows := map3 (encode_row n_targets k)
                       (rows weights) (rows types) (rows params) |}.
Proof.
  intros Ht Hs. unfold shaped in Hs.
  repeat rewrite andb_true_iff in Hs.
  destruct Hs as [[[[[Hw Htp] Hp] Hcw] Hct] Hcp].
  apply Nat.eqb_eq in Hcw, Hct, Hcp.
  pose proof (proj1 (wf_ndarray_spec _ _) Hw) as [Hnw _].
  pose proof (proj1 (wf_ndarray_spec _ _) Htp) as [Hnt _].
  pose proof (proj1 (wf_ndarray_spec _ _) Hp) as [Hnp _].
  unfold encode. rewrite Hcw, Hct, Hcp, shaped_step by assumption.
  replace (2 * k * n_targets / n_targets) with (2 * k)
    by (symmetry; apply Nat.div_mul; lia).
  replace (n_targets + (k * n_targets + k * n_targets + 2 * k * n_targets))
    with (n_targets * (4 * k + 1)) by nia.
  set (step := 4 * k + 1).
  assert (Hblk : forall i, i < step -> slice_len (n_targets * step) i step = n_targets)
    by (intros; now apply slice_len_blocks).
  rewrite assign_cols_ok; simpl ncols.
  2:{ unfold nrows; simpl. now rewrite !repeat_length. }
  2:{ rewrite slice_len_all, Hblk by (unfold step; lia).
      unfold broadcastable. now rewrite Nat.eqb_refl. }
  simpl bind.
  rewrite assign_loop_ok; simpl ncols.
  2:{ unfold nrows; simpl. rewrite length_map2, !repeat_length. unfold nrows in *. lia. }
  2:{ intros i Hi. apply in_seq in Hi. rewrite Hcw, Hblk by (unfold step; lia).
      rewrite (Nat.mul_comm k), slice_len_blocks by lia.
      unfold broadcastable. now rewrite Nat.eqb_refl. }
  simpl bind.
  rewrite assign_loop_ok; simpl ncols.
  2:{ unfold nrows; simpl. rewrite !length_map2, !repeat_length. unfold nrows in *. lia. }
  2:{ intros i Hi. apply in_seq in Hi. rewrite Hct, Hblk by (unfold step; lia).
      rewrite (Nat.mul_comm k), slice_len_blocks by lia.
      unfold broadcastable. now rewrite Nat.eqb_refl. }
  simpl bind.
  rewrite assign_loop_ok; simpl ncols.
  2:{ unfold nrows; simpl. rewrite !length_map2, !repeat_length. unfold nrows in *. lia. }
  2:{ intros i Hi. apply in_seq in Hi. rewrite Hcp, Hblk by (unfold step; lia).
      replace (2 * k * n_targets) with (n_targets * (2 * k)) by lia.
      rewrite slice_len_blocks by lia.
      unfold broadcastable. now rewrite Nat.eqb_refl. }
  simpl bind. f_equal. f_equal. simpl rows.
  unfold nrows. rewrite encode_rows_aux by (unfold nrows in *; lia).
  reflexivity.
Qed.

End Layout.

Section LayoutCells.

Context {F : Type} `{Float64 F}.

Lemma nth_error_lt (A : Type) (l : list A) (p : nat) :
  p < length l -> exists v, nth_error l p = Some v.
Proof.
  intros Hp. destruct (nth_error l p) as [v|] eqn:E; eauto.
  apply nth_error_None in E. lia.
Qed.

Lemma length_encode_row (n_targets k : nat) (w : list F) (t : list Z) (p : list F) :
  length (encode_row n_targets k w t p) = n_targets * (4 * k + 1).
Proof.
  unfold encode_row.
  now rewrite !length_loop_row, length_assign_row, repeat_length.
Qed.

(** The cells of one row of the record. *)
Lemma encode_row_cells (n_targets k d : nat) (w : list F) (t : list Z) (p : list F) :
  length w = k * n_targets -> length t = k * n_targets ->
  length p = 2 * k * n_targets -> d < n_targets ->
  let row := encode_row n_targets k w t p in
  let step := 4 * k + 1 in
  nth_error row (d * step) = Some (Some (of_Z (Z.of_nat k))) /\
  (forall c, c < k -> exists v,
     nth_error w (d * k + c) = Some v /\
     nth_error row (d * step + 1 + c) = Some (Some v)) /\
  (forall c, c < k -> exists v,
     nth_error t (d * k + c) = Some v /\
     nth_error row (d * step + 1 + k + c) = Some (Some (of_Z v))) /\
  (forall m, m < 2 * k -> exists v,
     nth_error p (d * (2 * k) + m) = Some v /\
     nth_error row (d * step + 1 + 2 * k + m) = Some (Some v)).
Proof.
  intros Hw Ht Hp Hd row step.
  assert (Hlen0 : length (assign_row of_Z 0 step 0 1
                            (repeat (@None F) (n_targets * step))
                            (repeat (Z.of_nat k) n_targets))
                  = n_targets * step)
    by now rewrite length_assign_row, repeat_length.
  repeat split.
  - unfold row, encode_row. fold step.
    block_pos d step 0.
    rewrite !loop_row_other by (outside_slices in_slice_block).
    change (assign_row of_Z 0 step 0 1 ?r ?s)
      with (loop_row of_Z 0 step 1 [0] r s).
    apply loop_row_hit.
    + intros j [<-|[]]. unfold step; lia.
    + now left.
    + rewrite repeat_length. unfold step in *. nia.
    + rewrite repeat_length. simpl. now rewrite slice_len_all.
    + simpl. rewrite Nat.mul_1_r. now apply nth_error_repeat_lt.
  - intros c Hc.
    destruct (@nth_error_lt _ w (d * k + c)) as [v Hv]; [nia|].
    exists v; split; [assumption|].
    unfold row, encode_row. fold step.
    block_pos d step (1 + c).
    rewrite !loop_row_other by (outside_slices in_slice_block).
    apply (@loop_row_hit _ _ (fun x : F => x)) with (v := v).
    + intros j Hj. apply in_seq in Hj. unfold step; lia.
    + apply in_seq. lia.
    + rewrite Hlen0. unfold step in *. nia.
    + rewrite Hw, (Nat.mul_comm k), slice_len_blocks; lia.
    + rewrite <- Hv. f_equal. lia.
  - intros c Hc.
    destruct (@nth_error_lt _ t (d * k + c)) as [v Hv]; [nia|].
    exists v; split; [assumption|].
    unfold row, encode_row. fold step.
    block_pos d step (1 + k + c).
    rewrite loop_row_other by (outside_slices in_slice_block).
    apply loop_row_hit.
    + intros j Hj. apply in_seq in Hj. unfold step; lia.
    + apply in_seq. lia.
    + rewrite length_loop_row, Hlen0. unfold step in *. nia.
    + rewrite Ht, (Nat.mul_comm k), slice_len_blocks; lia.
    + rewrite <- Hv. f_equal. lia.
  - intros m Hm.
    destruct (@nth_error_lt _ p (d * (2 * k) + m)) as [v Hv]; [nia|].
    exists v; split; [assumption|].
    unfold row, encode_row. fold step.
    block_pos d step (1 + k + k + m).
    apply (@loop_row_hit _ _ (fun x : F => x)) with (v := v).
    + intros j Hj. apply in_seq in Hj. unfold step; lia.
    + apply in_seq. lia.
    + rewrite !length_loop_row, Hlen0. unfold step in *. nia.
    + rewrite Hp. replace (2 * k * n_targets) with (n_targets * (2 * k)) by lia.
      rewrite slice_len_blocks; lia.
    + rewrite <- Hv. f_equal. lia.
Qed.

(** The record of a shaped prediction has the layout of §4.1. *)
Lemma encode_layout (n n_targets k : nat)
    (weights : ndarray F) (types : ndarray Z) (params : ndarray F) :
  0 < n_targets ->
  shaped n n_targets k (weights, types, params) = true ->
  exists res,
    encode n_targets k weights types params = Ok res /\
    record_layout n n_targets k (4 * k + 1) weights types params res.
Proof.
  intros Ht Hs. eexists; split; [now apply encode_shaped with (n := n)|].
  unfold shaped in Hs. repeat rewrite andb_true_iff in Hs.
  destruct Hs as [[[[[Hw Htp] Hp] Hcw] Hct] Hcp].
  apply Nat.eqb_eq in Hcw, Hct, Hcp.
  pose proof (proj1 (wf_ndarray_spec _ _) Hw) as [Hnw Hrw].
  pose proof (proj1 (wf_ndarray_spec _ _) Htp) as [Hnt Hrt].
  pose proof (proj1 (wf_ndarray_spec _ _) Hp) as [Hnp Hrp].
  unfold nrows in *.
  split; [|split].
  - apply wf_ndarray_spec; split.
    + unfold nrows; simpl. rewrite length_map3; lia.
    + simpl. intros r Hr. apply In_map3 in Hr as [a [b [c ->]]].
      apply length_encode_row.
  - reflexivity.
  - intros s d Hsn Hd.
    destruct (wf_row weights Hw Hsn) as [rw [Erw Lw]].
    destruct (wf_row types Htp Hsn) as [rt [Ert Lt]].
    destruct (wf_row params Hp Hsn) as [rp [Erp Lp]].
    rewrite Hcw in Lw. rewrite Hct in Lt. rewrite Hcp in Lp.
    destruct (@encode_row_cells n_targets k d rw rt rp Lw Lt Lp Hd)
      as [Hsz [Hwc [Htc Hpc]]].
    unfold copied, cell; simpl rows.
    rewrite (nth_error_map3 _ _ _ _ _ Erw Ert Erp), Erw, Ert, Erp.
    split; [assumption|]. split; [|split].
    + intros c Hc. destruct (Hwc c Hc) as [v [Hv Hr]]. eauto.
    + intros c Hc. destruct (Htc c Hc) as [v [Hv Hr]]. eauto.
    + intros c Hc. split.
      * destruct (Hpc (2 * c)) as [v [Hv Hr]]; [lia|].
        exists v. split.
        -- rewrite <- Hv. f_equal. lia.
        -- rewrite <- Hr. f_equal.
      * destruct (Hpc (2 * c + 1)) as [v [Hv Hr]]; [lia|].
        exists v. split.
        -- rewrite <- Hv. f_equal. lia.
        -- rewrite <- Hr. f_equal. lia.
Qed.

End LayoutCells.

(** ** The reconstruction never fails on a shaped prediction with truths *)

Section Reconstruction.

Context {F : Type} `{Float64 F}.

Lemma length_norm_w_row (n_targets k : nat) (final_w : list (list F)) :
  length (norm_w_row n_targets k final_w) = k * n_targets.
Proof.
  unfold norm_w_row.
  generalize 0 at 2. induction n_targets as [|t IH]; intros a; simpl.
  - lia.
  - rewrite length_app, length_map, length_seq, IH. lia.
Qed.

Lemma length_reconstruct_row (n_targets k : nat) (w p y : list F) :
  length (reconstruct_row n_targets k w p y) = k * n_targets.
Proof. apply length_norm_w_row. Qed.

Lemma map2_combine (A B C D : Type) (f : A -> B -> C -> D)
    (l : list A) (m : list B) (q : list C) :
  map2 (fun a bc => f a (fst bc) (snd bc)) l (combine m q) = map3 f l m q.
Proof.
  revert m q; induction l as [|a l IH]; intros [|b m] [|c q]; simpl; auto.
  now rewrite IH.
Qed.

Lemma reconstruct_shaped (n n_targets k : nat)
    (weights : ndarray F) (types : ndarray Z) (params : ndarray F)
    (y : DataFrame F) :
  0 < n_targets -> 0 < n ->
  shaped n n_targets k (weights, types, params) = true ->
  truths_for n n_targets y = true ->
  reconstruct_weights n_targets k weights types params (Some y)
  = Ok {| ncols := k * n_targets;
          rows := map3 (reconstruct_row n_targets k)
                       (rows weights) (rows params) (frame_rows y) |}.
Proof.
  intros Ht Hn Hs Hy. unfold shaped in Hs.
  repeat rewrite andb_true_iff in Hs.
  destruct Hs as [[[[[Hw Htp] Hp] Hcw] Hct] Hcp].
  apply Nat.eqb_eq in Hcw, Hct, Hcp.
  unfold truths_for in Hy. apply andb_true_iff in Hy as [Hyc Hyr].
  apply Nat.leb_le in Hyc.
  pose proof (proj1 (wf_ndarray_spec _ _) Htp) as [Hnt _].
  unfold reconstruct_weights. simpl ncols.
  rewrite Hcp, Hcw.
  replace (2 * k * n_targets) with (k * n_targets * 2) by lia.
  rewrite !slice_len_blocks by lia.
  replace (_ && _) with false.
  2:{ symmetry. destruct k; [reflexivity|]. simpl andb.
      apply Nat.ltb_ge. apply Nat.min_glb; [assumption|]. apply Nat.min_glb; nia. }
  unfold slice_to_len.
  replace (0 <=? Z.of_nat k)%Z with true by (symmetry; apply Z.leb_le; lia).
  rewrite Nat2Z.id.
  replace (Nat.min k (k * n_targets) <? k) with false
    by (symmetry; apply Nat.ltb_ge; apply Nat.min_glb; nia).
  replace (nrows types =? 0) with false
    by (symmetry; apply Nat.eqb_neq; lia).
  now rewrite map2_combine.
Qed.

Lemma reconstruct_keeps_shape (n n_targets k : nat)
    (weights : ndarray F) (types : ndarray Z) (params : ndarray F)
    (y : DataFrame F) :
  shaped n n_targets k (weights, types, params) = true ->
  truths_for n n_targets y = true ->
  shaped n n_targets k
    ({| ncols := k * n_targets;
        rows := map3 (reconstruct_row n_targets k)
                     (rows weights) (rows params) (frame_rows y) |},
     types, params) = true.
Proof.
  intros Hs Hy. unfold shaped in *.
  repeat rewrite andb_true_iff in Hs.
  destruct Hs as [[[[[Hw Htp] Hp] Hcw] Hct] Hcp].
  unfold truths_for in Hy. apply andb_true_iff in Hy as [_ Hyr].
  apply Nat.eqb_eq in Hyr.
  pose proof (proj1 (wf_ndarray_spec _ _) Hw) as [Hnw _].
  pose proof (proj1 (wf_ndarray_spec _ _) Hp) as [Hnp _].
  rewrite Htp, Hp, Hct, Hcp. simpl ncols. rewrite Nat.eqb_refl, !andb_true_r.
  apply wf_ndarray_spec. unfold nrows in *; simpl. split.
  - rewrite length_map3; lia.
  - intros r Hr. apply In_map3 in Hr as [a [b [c ->]]].
    apply length_reconstruct_row.
Qed.

Lemma shaped_per_dim (n n_targets k : nat)
    (weights : ndarray F) (types : ndarray Z) (params : ndarray F) :
  0 < n_targets ->
  shaped n n_targets k (weights, types, params) = true ->
  ncols types = k * n_targets /\ ncols types / n_targets = k.
Proof.
  intros Ht Hs. unfold shaped in Hs.
  repeat rewrite andb_true_iff in Hs.
  destruct Hs as [[[[[Hw Htp] Hp] Hcw] Hct] Hcp].
  apply Nat.eqb_eq in Hct. split; [assumption|].
  rewrite Hct. apply Nat.div_mul. lia.
Qed.

(** From the regressor's answer to the record: with the shapes of the
    contract, and the truths at hand when every component is Gaussian,
    the record is returned and has the layout of §4.1. *)
Lemma encode_dists_layout (self : GenerativeRegressorFull) (n k : nat)
    (weights : ndarray F) (types : ndarray Z) (params : ndarray F)
    (oy : option (DataFrame F)) :
  let n_targets := length (target_column_name self) in
  0 < n_targets ->
  shaped n n_targets k (weights, types, params) = true ->
  k * n_targets <= max_dists self ->
  (any types = false ->
   0 < n /\ exists y, oy = Some y /\ truths_for n n_targets y = true) ->
  exists res w',
    encode_dists self (weights, types, params) oy = Ok res /\
    written_weights n_targets k weights types params oy = Ok w' /\
    record_layout n n_targets k (4 * k + 1) w' types params res.
Proof.
  intros n_targets Ht Hs Hmax Hg.
  destruct (@shaped_per_dim n n_targets k weights types params Ht Hs) as [Hct Hk].
  unfold encode_dists, written_weights. fold n_targets.
  replace (ncols types <=? max_dists self) with true
    by (symmetry; apply Nat.leb_le; lia).
  replace (n_targets =? 0) with false by (symmetry; apply Nat.eqb_neq; lia).
  simpl negb. cbv iota. rewrite Hk.
  destruct (any types) eqn:Eany; simpl negb; cbv iota.
  - simpl bind.
    destruct (@encode_layout _ _ n n_targets k weights types params Ht Hs)
      as [res [Hres Hl]].
    exists res, weights. auto.
  - destruct (Hg eq_refl) as [Hn [y [-> Hy]]].
    rewrite (@reconstruct_shaped n n_targets k weights types params y Ht Hn Hs Hy).
    simpl bind.
    destruct (@encode_layout _ _ n n_targets k _ types params Ht
                (@reconstruct_keeps_shape n n_targets k weights types params y Hs Hy))
      as [res [Hres Hl]].
    eexists res, _. split; [exact Hres|]. split; [reflexivity|exact Hl].
Qed.

End Reconstruction.

(** ** The truths that a frame carries *)

Section Truths.

Context {F : Type} `{Float64 F}.

Lemma positions_bound (label : string) (cols : list string) (i p : nat) :
  In p (positions label cols i) -> i <= p < i + length cols.
Proof.
  revert i; induction cols as [|c cols IH]; intros i Hin; simpl in *.
  - contradiction.
  - destruct (String.eqb label c).
    + destruct Hin as [<-|Hin]; [lia|]. apply IH in Hin. lia.
    + apply IH in Hin. lia.
Qed.

Lemma positions_found (label : string) (cols : list string) (i : nat) :
  has_label cols label = true -> 1 <= length (positions label cols i).
Proof.
  unfold has_label. revert i; induction cols as [|c cols IH]; intros i Hl; simpl in *.
  - discriminate.
  - destruct (String.eqb label c); simpl in *; [lia|]. now apply IH.
Qed.

Lemma length_pick (A : Type) (ps : list nat) (l : list A) :
  (forall p, In p ps -> p < length l) -> length (pick ps l) = length ps.
Proof.
  unfold pick. induction ps as [|p ps IH]; intros Hb; simpl; [reflexivity|].
  rewrite length_app, IH by (intros q Hq; apply Hb; now right).
  destruct (nth_error_lt l (Hb p (or_introl eq_refl))) as [v ->].
  reflexivity.
Qed.

Lemma getitem_truths (df y : DataFrame F) (labels : list string) :
  getitem df labels = Ok y ->
  length labels <= length (columns y) /\
  length (frame_rows y) = length (frame_rows df).
Proof.
  unfold getitem.
  destruct (forallb (has_label (columns df)) labels) eqn:E; [|discriminate].
  intros [= <-]. simpl. split.
  - rewrite length_pick.
    + rewrite forallb_forall in E.
      clear -E. induction labels as [|l labels IH]; simpl; [lia|].
      rewrite length_app.
      pose proof (positions_found l (columns df) 0 (E l (or_introl eq_refl))).
      assert (length labels <=
              length (flat_map (fun l0 => positions l0 (columns df) 0) labels))
        by (apply IH; intros x Hx; apply E; now right).
      lia.
    + intros p Hp. apply in_flat_map in Hp as [l [_ Hp]].
      apply positions_bound in Hp. lia.
  - apply length_map.
Qed.

Lemma drop_rows (df df' : DataFrame F) (labels : list string) :
  drop df labels = Ok df' ->
  length (frame_rows df') = length (frame_rows df).
Proof.
  unfold drop. destruct (forallb _ _); [|discriminate].
  intros [= <-]. simpl. apply length_map.
Qed.

Lemma check_restart_rows (self : GenerativeRegressorFull) (X X' : X_input F)
    (restart : option (ndarray F)) :
  _check_restart self X = Ok (X', restart) -> shape0 X' = shape0 X.
Proof.
  unfold _check_restart.
  destruct (restart_name self) as [name|]; [|now intros [= <- _]].
  destruct X as [df|a]; [|discriminate].
  destruct (getitem df [name]) as [r|e]; [|now intros [= <- _]].
  destruct (drop df [name]) as [df'|e] eqn:E; [|now intros [= <- _]].
  intros [= <- _]. simpl. now apply drop_rows in E.
Qed.

(** What [split_input] returns as [y] are the truth columns of every row. *)
Lemma split_input_truths (self : GenerativeRegressorFull) (X_array : X_input F)
    (X : ndarray F) (restart : option (ndarray F)) (y : DataFrame F) :
  split_input self X_array = Ok (X, restart, Some y) ->
  truths_for (shape0 X_array) (length (target_column_name self)) y = true.
Proof.
  unfold split_input.
  destruct (_check_restart self X_array) as [[X' r]|e] eqn:Er; [|discriminate].
  apply check_restart_rows in Er. simpl bind. simpl fst. simpl snd.
  destruct X' as [df|a]; [|simpl; discriminate].
  destruct (getitem df _) as [y0|e] eqn:Eg; [|discriminate]. simpl bind.
  destruct (drop df _) as [df'|e]; [|discriminate]. simpl.
  intros [= _ _ <-].
  apply getitem_truths in Eg as [Hc Hr]. rewrite length_map in Hc.
  unfold truths_for. apply andb_true_iff; split.
  - now apply Nat.leb_le.
  - apply Nat.eqb_eq. simpl in Er. lia.
Qed.

(** A numpy array hands over no truths. *)
Lemma split_input_array (self : GenerativeRegressorFull) (a X : ndarray F)
    (restart : option (ndarray F)) (oy : option (DataFrame F)) :
  split_input self (Array a) = Ok (X, restart, oy) -> oy = None.
Proof.
  unfold split_input, _check_restart.
  destruct (restart_name self); simpl; [discriminate|].
  now intros [= _ _ <-].
Qed.

End Truths.

(** ** Component slots that the targets do not divide *)

Lemma slice_len_le_start (n a s : nat) : slice_len n a s <= slice_len n 0 s.
Proof.
  unfold slice_len. destruct (a <? n) eqn:Ea; [|lia].
  apply Nat.ltb_lt in Ea.
  replace (0 <? n) with true by (symmetry; apply Nat.ltb_lt; lia).
  apply Nat.Div0.div_le_mono. lia.
Qed.

(** [k] columns apart, more than [k * t] columns give more than [t] positions. *)
Lemma slice_len_excess (t k r : nat) :
  1 <= k -> 0 < r -> t + 1 <= slice_len (k * t + r) 0 k.
Proof.
  intros Hk Hr. unfold slice_len.
  replace (0 <? k * t + r) with true by (symmetry; apply Nat.ltb_lt; lia).
  replace (t + 1) with (((t + 1) * k) / k) by (apply Nat.div_mul; lia).
  apply Nat.Div0.div_le_mono. nia.
Qed.

Lemma assign_loop_value_error (A F : Type) (cast : A -> F) (offset step stride : nat)
    (idx : list nat) (res : ndarray (option F)) (src : ndarray A) (e : exn) :
  assign_loop cast offset step stride idx res src = Raise e -> e = ValueError.
Proof.
  revert res; induction idx as [|j idx IH]; intros res; simpl; [discriminate|].
  unfold assign_cols at 1.
  destruct (_ && _); simpl; [apply IH|].
  now intros [= <-].
Qed.

Section Indivisible.

Context {F : Type} `{Float64 F}.

(** The record cannot be assembled: the strided read of the type codes has
    more columns than the record has blocks. *)
Lemma encode_indivisible (n_targets k : nat)
    (weights : ndarray F) (types : ndarray Z) (params : ndarray F) :
  0 < n_targets -> 1 <= k -> k = ncols types / n_targets ->
  ncols types mod n_targets <> 0 ->
  encode n_targets k weights types params = Raise ValueError.
Proof.
  intros Ht Hk Hkdef Hmod.
  assert (Hraise : raises (encode n_targets k weights types params)).
  { unfold encode.
    set (N := n_targets + (ncols weights + ncols types + ncols params)).
    set (step := (ncols weights + ncols types + ncols params + n_targets) / n_targets).
    destruct (assign_cols of_Z 0 step 0 1 (np_empty (nrows types) N)
                (np_full (nrows types) n_targets (Z.of_nat k))) as [r1|e] eqn:E1;
      [|now exists e].
    apply assign_cols_inv in E1 as [B Hc1]. simpl ncols in B, Hc1.
    rewrite slice_len_all in B. unfold broadcastable in B.
    apply orb_true_iff in B as [B|B]; apply Nat.eqb_eq in B.
    2:{ subst n_targets. rewrite Nat.mod_1_r in Hmod. contradiction. }
    simpl bind.
    match goal with
    | |- raises (bind ?m _) => destruct m as [r2|e] eqn:E2; [|now exists e]
    end.
    apply assign_loop_ncols in E2. rewrite Hc1 in E2. simpl bind.
    match goal with
    | |- raises (bind ?m _) => assert (Hr : raises m)
    end.
    { apply assign_loop_raises with (i := 1 + k).
      - apply in_seq. lia.
      - intros r Hrc. rewrite Hrc, E2, Nat.sub_diag.
        pose proof (slice_len_le_start N (1 + k) step) as Hle.
        rewrite <- B in Hle.
        pose proof (Nat.div_mod_eq (ncols types) n_targets) as Hdm.
        rewrite <- Hkdef in Hdm.
        assert (Hex : n_targets + 1 <= slice_len (ncols types) 0 k).
        { rewrite Hdm, (Nat.mul_comm n_targets).
          apply slice_len_excess; lia. }
        unfold broadcastable. apply orb_false_iff; split; apply Nat.eqb_neq; lia. }
    destruct Hr as [e ->]. now exists e. }
  destruct Hraise as [e He]. rewrite He. f_equal.
  revert He. unfold encode.
  destruct (assign_cols _ _ _ _ _ _ _) as [r1|e1] eqn:E1; simpl.
  2:{ unfold assign_cols in E1. destruct (_ && _); [discriminate|].
      injection E1 as <-. now intros [= <-]. }
  destruct (assign_loop _ _ _ _ _ r1 weights) as [r2|e2] eqn:E2; simpl.
  2:{ apply assign_loop_value_error in E2. now intros [= <-]. }
  destruct (assign_loop _ _ _ _ _ r2 types) as [r3|e3] eqn:E3; simpl.
  2:{ apply assign_loop_value_error in E3. now intros [= <-]. }
  destruct (assign_loop _ _ _ _ _ r3 params) as [r4|e4] eqn:E4; simpl.
  2:{ apply assign_loop_value_error in E4. now intros [= <-]. }
  discriminate.
Qed.

End Indivisible.

(** ** [predict_submission]: the record *)

Section Prediction.

Context {F : Type} `{Float64 F}.

Lemma predict_submission_unfold (self : GenerativeRegressorFull)
    (trained_model : regressor F) (X_array : X_input F) (X : ndarray F)
    (restart : option (ndarray F)) (oy : option (DataFrame F)) (d : dists F) :
  split_input self X_array = Ok (X, restart, oy) ->
  predict trained_model (Array X) restart = d ->
  predict_submission self trained_model X_array = encode_dists self d oy.
Proof.
  intros Hin Hd. unfold predict_submission. rewrite Hin. simpl. now rewrite Hd.
Qed.

(** C2.  A prediction of [n_targets] dimensions with [k] components per
    dimension is returned as a record of [n_targets] blocks of
    [step = 4 * k + 1] columns per row, starting [step] columns apart from
    column 0.  Block [d] holds, from its first column [d * step] on: the
    count [k]; the [k] weights of dimension [d] (the conditional ones when
    every component is Gaussian, else the regressor's); the [k] type codes
    of dimension [d]; the [k] pairs (mean, std) of dimension [d]; each
    cell copied as it stands in the arrays. *)
Theorem predict_submission_record_layout (self : GenerativeRegressorFull)
    (trained_model : regressor F) (X_array : X_input F) (X : ndarray F)
    (restart : option (ndarray F)) (oy : option (DataFrame F))
    (weights : ndarray F) (types : ndarray Z) (params : ndarray F) (k : nat) :
  let n_targets := length (target_column_name self) in
  let n := shape0 X_array in
  split_input self X_array = Ok (X, restart, oy) ->
  predict trained_model (Array X) restart = (weights, types, params) ->
  0 < n_targets ->
  shaped n n_targets k (weights, types, params) = true ->
  k * n_targets <= max_dists self ->
  (any types = false -> 0 < n /\ oy <> None) ->
  exists res w',
    predict_submission self trained_model X_array = Ok res /\
    written_weights n_targets k weights types params oy = Ok w' /\
    record_layout n n_targets k (4 * k + 1) w' types params res.
Proof.
  intros n_targets n Hin Hpred Ht Hs Hmax Hg.
  rewrite (predict_submission_unfold _ _ _ Hin Hpred).
  apply encode_dists_layout; auto.
  intros Hany. destruct (Hg Hany) as [Hn Hy]. split; [assumption|].
  destruct oy as [y|]; [|contradiction].
  exists y. split; [reflexivity|].
  now apply split_input_truths in Hin.
Qed.

(** C9.  When some type code is not zero the record is built from the
    regressor's arrays as they are: the weight cells are the marginal
    weights, and the type codes and parameters are placed unchanged. *)
Theorem nongaussian_weights_pass_through (self : GenerativeRegressorFull)
    (trained_model : regressor F) (X_array : X_input F) (X : ndarray F)
    (restart : option (ndarray F)) (oy : option (DataFrame F))
    (weights : ndarray F) (types : ndarray Z) (params : ndarray F) (n k : nat) :
  let n_targets := length (target_column_name self) in
  split_input self X_array = Ok (X, restart, oy) ->
  predict trained_model (Array X) restart = (weights, types, params) ->
  0 < n_targets ->
  shaped n n_targets k (weights, types, params) = true ->
  k * n_targets <= max_dists self ->
  any types = true ->
  exists res,
    predict_submission self trained_model X_array = Ok res /\
    record_layout n n_targets k (4 * k + 1) weights types params res.
Proof.
  intros n_targets Hin Hpred Ht Hs Hmax Hany.
  rewrite (predict_submission_unfold _ _ _ Hin Hpred).
  destruct (@encode_dists_layout _ _ self n k weights types params oy Ht Hs Hmax)
    as [res [w' [Hres [Hw Hl]]]].
  - rewrite Hany. discriminate.
  - unfold written_weights in Hw. rewrite Hany in Hw. injection Hw as <-.
    exists res. auto.
Qed.

(** C10, as the code has it.  On a numpy array no truth is ever read into
    [y], but the unbound name is not the only way the call ends.  When the
    input is split without error (for an array: no restart name is
    configured; nothing is read as restart or as truths) and the regressor
    answers with type codes that are all zero, the call returns no record:
    it ends in an AssertionError when there are more component slots than
    [max_dists], else in a ZeroDivisionError when there is no target, and
    else in the unbound name [y]. *)
Theorem array_input_all_gaussian_unbound (self : GenerativeRegressorFull)
    (trained_model : regressor F) (a X : ndarray F)
    (restart : option (ndarray F)) (oy : option (DataFrame F))
    (weights : ndarray F) (types : ndarray Z) (params : ndarray F) :
  let outcome := predict_submission self trained_model (Array a) in
  split_input self (Array a) = Ok (X, restart, oy) ->
  predict trained_model (Array X) restart = (weights, types, params) ->
  any types = false ->
  (restart_name self = None /\ restart = None /\ oy = None) /\
  raises outcome /\
  (max_dists self < ncols types -> outcome = Raise AssertionError) /\
  (ncols types <= max_dists self -> length (target_column_name self) = 0 ->
   outcome = Raise ZeroDivisionError) /\
  (ncols types <= max_dists self -> 0 < length (target_column_name self) ->
   outcome = Raise UnboundLocalError).
Proof.
  intros outcome Hin Hpred Hany. unfold outcome.
  rewrite (predict_submission_unfold _ _ _ Hin Hpred).
  assert (Hsplit : restart_name self = None /\ restart = None /\ oy = None).
  { revert Hin. unfold split_input, _check_restart.
    destruct (restart_name self); simpl; [discriminate|].
    now intros [= _ <- <-]. }
  split; [exact Hsplit|]. destruct Hsplit as [_ [_ ->]].
  unfold encode_dists. rewrite Hany. simpl negb.
  destruct (Nat.leb_spec (ncols types) (max_dists self)) as [Hle|Hgt];
    simpl negb; cbv iota.
  - destruct (Nat.eqb_spec (length (target_column_name self)) 0) as [Hz|Hnz].
    + split; [now exists ZeroDivisionError|].
      split; [lia|]. split; [reflexivity | lia].
    + split; [now exists UnboundLocalError|].
      split; [lia|]. split; [contradiction | reflexivity].
  - split; [now exists AssertionError|].
    split; [reflexivity|]. split; lia.
Qed.

(** C5, as the code has it.  Nothing checks that the targets divide the
    component slots and there is no ShapeError.  When the slots are not a
    multiple of the targets but at least as many, the strided copy of the
    type codes does not fit the record: assembling the record stops with
    numpy's ValueError whatever the weights, and the call returns no
    record. *)
Theorem indivisible_slots_raise (self : GenerativeRegressorFull)
    (trained_model : regressor F) (X_array : X_input F) (X : ndarray F)
    (restart : option (ndarray F)) (oy : option (DataFrame F))
    (weights : ndarray F) (types : ndarray Z) (params : ndarray F) :
  let n_targets := length (target_column_name self) in
  split_input self X_array = Ok (X, restart, oy) ->
  predict trained_model (Array X) restart = (weights, types, params) ->
  0 < n_targets ->
  ncols types mod n_targets <> 0 ->
  n_targets <= ncols types ->
  (forall w' : ndarray F,
     encode n_targets (ncols types / n_targets) w' types params = Raise ValueError) /\
  raises (predict_submission self trained_model X_array).
Proof.
  intros n_targets Hin Hpred Ht Hmod Hle.
  assert (Hk : 1 <= ncols types / n_targets)
    by (apply Nat.div_str_pos; lia).
  assert (Henc : forall w' : ndarray F,
            encode n_targets (ncols types / n_targets) w' types params
            = Raise ValueError)
    by (intros w'; now apply encode_indivisible).
  split; [exact Henc|].
  rewrite (predict_submission_unfold _ _ _ Hin Hpred).
  unfold encode_dists. fold n_targets.
  destruct (negb (ncols types <=? max_dists self)); [now exists AssertionError|].
  replace (n_targets =? 0) with false by (symmetry; apply Nat.eqb_neq; lia).
  destruct (if negb (any types) then _ else _) as [w'|e]; simpl.
  - rewrite Henc. now exists ValueError.
  - now exists e.
Qed.

(** C4, as the code has it.  No std is ever checked and there is no
    DegenerateComponentError.  An all-Gaussian prediction of [k] components
    in each of [n_targets >= 1] dimensions, within the bound
    [k * n_targets <= max_dists], for at least one sample of a frame that
    carries the truths, is returned as a record whatever the stds are, and
    every std stands in the record as the regressor gave it. *)
Theorem nonpositive_std_not_checked (self : GenerativeRegressorFull)
    (trained_model : regressor F) (X_array : X_input F) (X : ndarray F)
    (restart : option (ndarray F)) (y : DataFrame F)
    (weights : ndarray F) (types : ndarray Z) (params : ndarray F) (k : nat) :
  let n_targets := length (target_column_name self) in
  let n := shape0 X_array in
  split_input self X_array = Ok (X, restart, Some y) ->
  predict trained_model (Array X) restart = (weights, types, params) ->
  any types = false ->
  0 < n_targets -> 0 < n ->
  shaped n n_targets k (weights, types, params) = true ->
  k * n_targets <= max_dists self ->
  exists res,
    predict_submission self trained_model X_array = Ok res /\
    forall s d c, s < n -> d < n_targets -> c < k ->
      copied (fun v => v) res s (d * (4 * k + 1) + 1 + 2 * k + 2 * c + 1)
             (cell params s (2 * (d * k + c) + 1)).
Proof.
  intros n_targets n Hin Hpred Hany Ht Hn Hs Hmax.
  rewrite (predict_submission_unfold _ _ _ Hin Hpred).
  destruct (@encode_dists_layout _ _ self n k weights types params (Some y) Ht Hs Hmax)
    as [res [w' [Hres [_ [_ [_ Hl]]]]]].
  - intros _. split; [assumption|]. exists y. split; [reflexivity|].
    now apply split_input_truths in Hin.
  - exists res. split; [assumption|].
    intros s d c Hsn Hd Hc.
    destruct (Hl s d Hsn Hd) as [_ [_ [_ Hp]]]. now apply Hp.
Qed.

End Prediction.

(** ** What the reconstruction computes *)

Section ReconstructedCell.

Context {F : Type} `{Float64 F}.

Lemma nth_map_seq (A : Type) (f : nat -> A) (n i : nat) (dflt : A) :
  i < n -> nth i (map f (seq 0 n)) dflt = f i.
Proof.
  intros Hi. rewrite nth_indep with (d' := f 0) by now rewrite length_map, length_seq.
  change (f 0) with (f (0 : nat)). rewrite map_nth, seq_nth by assumption.
  reflexivity.
Qed.

Lemma at2_table (g : nat -> nat -> F) (k n_targets c d : nat) :
  c < k -> d < n_targets ->
  at2 (map (fun c' => map (fun d' => g c' d') (seq 0 n_targets)) (seq 0 k)) c d
  = g c d.
Proof.
  intros Hc Hd. unfold at2.
  rewrite (nth_map_seq (fun c' => map (fun d' => g c' d') (seq 0 n_targets)) [] Hc).
  now rewrite nth_map_seq.
Qed.

Lemma p_excluded_cell (n_targets k j d : nat) (y mus sigmas : list F) :
  j < k -> d < n_targets ->
  at2 (p_excluded_row n_targets (l_probs_row n_targets k y mus sigmas)) j d
  = fsum (firstn d (log_density_row n_targets y mus sigmas)).
Proof.
  intros Hj Hd. unfold p_excluded_row, l_probs_row. rewrite map_map.
  fold (log_density_row n_targets y mus sigmas).
  now rewrite (at2_table
    (fun _ d' => fsum (firstn d' (log_density_row n_targets y mus sigmas))) Hj Hd).
Qed.

Lemma nth_error_norm_w_row (n_targets k c d : nat) (final_w : list (list F)) :
  c < k -> d < n_targets ->
  nth_error (norm_w_row n_targets k final_w) (d * k + c) = Some (at2 final_w c d).
Proof.
  intros Hc Hd. unfold norm_w_row.
  assert (Hgen : forall a n, d < n ->
    nth_error (flat_map (fun d' => map (fun c' => at2 final_w c' d') (seq 0 k))
                        (seq a n)) (d * k + c)
    = Some (at2 final_w c (a + d))).
  { clear Hd. induction d as [|d IH]; intros a n Hn.
    - destruct n as [|n]; [lia|]. simpl.
      rewrite nth_error_app1 by now rewrite length_map, length_seq.
      rewrite nth_error_map, nth_error_nth' with (d := 0) by now rewrite length_seq.
      rewrite seq_nth by assumption. simpl. now rewrite Nat.add_0_r.
    - destruct n as [|n]; [lia|]. simpl flat_map.
      rewrite nth_error_app2 by (rewrite length_map, length_seq; simpl; lia).
      rewrite length_map, length_seq.
      replace (S d * k + c - k) with (d * k + c) by (simpl; lia).
      rewrite IH by lia. f_equal. f_equal. lia. }
  now rewrite Hgen.
Qed.

(** Cell [(d, c)] of the reconstructed row: the weight of component [c]
    over the sum of the weights, each times the exponential of a difference
    of one and the same excluded sum. *)
Lemma reconstruct_row_cell (n_targets k c d : nat) (w p y : list F) :
  c < k -> d < n_targets ->
  let weights_s := firstn k w in
  let excluded :=
    fsum (firstn d (log_density_row n_targets y (slice_step 0 2 p) (slice_step 1 2 p))) in
  nth_error (reconstruct_row n_targets k w p y) (d * k + c)
  = Some (fdiv (nth c weights_s (of_Z 0))
               (fsum (map (fun j => fmul (nth j weights_s (of_Z 0))
                                         (fexp (fsub excluded excluded)))
                          (seq 0 k)))).
Proof.
  intros Hc Hd weights_s excluded. unfold reconstruct_row.
  rewrite nth_error_norm_w_row by assumption. f_equal.
  unfold final_w_row.
  rewrite (at2_table (fun c' d' => fdiv (nth c' (firstn k w) (of_Z 0)) _) Hc Hd).
  f_equal. unfold diffs_row.
  rewrite (at2_table (fun i d' => fsum _) Hc Hd).
  f_equal. apply map_ext_in. intros j Hj. apply in_seq in Hj.
  rewrite !p_excluded_cell by lia. reflexivity.
Qed.

End ReconstructedCell.

(** ** Finite cells: the arithmetic of [xreal] on real numbers *)

Lemma fin_row (l : list xreal) : Forall is_fin l -> l = map Fin (map real_of l).
Proof.
  induction 1 as [|a l [r ->] _ IH]; simpl; [reflexivity|]. now rewrite <- IH.
Qed.

Lemma Forall_firstn (A : Type) (P : A -> Prop) (n : nat) (l : list A) :
  Forall P l -> Forall P (firstn n l).
Proof.
  intros Hl. revert n; induction Hl as [|x l Hx _ IH]; intros [|n]; simpl; auto.
Qed.

Lemma nth_firstn_lt (A : Type) (l : list A) (k c : nat) (dflt : A) :
  c < k -> nth c (firstn k l) dflt = nth c l dflt.
Proof.
  revert k c; induction l as [|x l IH]; intros k c Hc.
  - now destruct k, c.
  - destruct k; [lia|]. destruct c; [reflexivity|]. simpl. apply IH. lia.
Qed.

Lemma fsum_fin (l : list R) : fsum (map Fin l) = Fin (rsum l).
Proof.
  unfold fsum. simpl of_Z.
  assert (Hgen : forall a, fold_left (xlift2 Rplus) (map Fin l) (Fin a)
                           = Fin (a + rsum l)%R).
  { induction l as [|x l IH]; intros a; simpl.
    - f_equal. lra.
    - rewrite IH. f_equal. lra. }
  simpl fadd. rewrite Hgen. f_equal. lra.
Qed.

Lemma fold_nan (l : list xreal) : fold_left (xlift2 Rplus) l NaN = NaN.
Proof. induction l as [|x l IH]; simpl; [reflexivity | exact IH]. Qed.

(** A sum with a cell that is not a number is not a number. *)
Lemma fsum_nan (l : list xreal) : In NaN l -> fsum l = NaN.
Proof.
  unfold fsum. simpl fadd. generalize (of_Z (F := xreal) 0).
  induction l as [|x l IH]; intros a Hin; [contradiction|].
  simpl. destruct Hin as [->|Hin].
  - destruct a; simpl; apply fold_nan.
  - now apply IH.
Qed.

Lemma xdiv_fin (x y : R) : y <> 0%R -> xdiv (Fin x) (Fin y) = Fin (x / y)%R.
Proof. intros Hy. unfold xdiv. now destruct (Req_dec_T y 0). Qed.

Lemma xlogpdf_fin (x m s : R) :
  (0 < s)%R -> logpdf_in_range x m s ->
  xlogpdf (Fin x) (Fin m) (Fin s) = Fin (gauss_logpdf x m s).
Proof.
  intros Hs [Hd Hz]. unfold xlogpdf.
  destruct (Rlt_dec 0 s); [|contradiction].
  destruct (Rle_dec (Rabs (x - m)) float_max); [|contradiction].
  now destruct (Rle_dec (((x - m) / s) ^ 2) float_max).
Qed.

Lemma xlogpdf_nonpositive (x m s : R) :
  (s <= 0)%R -> xlogpdf (Fin x) (Fin m) (Fin s) = NaN.
Proof. intros Hs. unfold xlogpdf. destruct (Rlt_dec 0 s); [lra | reflexivity]. Qed.

Lemma xlogpdf_overflow (x m s : R) :
  ~ logpdf_in_range x m s -> xlogpdf (Fin x) (Fin m) (Fin s) = NaN.
Proof.
  intros Hr. unfold xlogpdf.
  destruct (Rlt_dec 0 s); [|reflexivity].
  destruct (Rle_dec (Rabs (x - m)) float_max); [|reflexivity].
  destruct (Rle_dec (((x - m) / s) ^ 2) float_max); [|reflexivity].
  exfalso. apply Hr. now split.
Qed.

(** *** Powers of ten against the largest float64 *)

Lemma ten_100_pos : (0 < 1e100)%R.
Proof. rewrite Rmult_1_l. apply IZR_lt. vm_compute. reflexivity. Qed.

Lemma ten_100_one : (1 <= 1e100)%R.
Proof. rewrite Rmult_1_l. apply IZR_le. vm_compute. discriminate. Qed.

Lemma ten_100_squared : (1e100 * 1e100 = 1e200)%R.
Proof. rewrite !Rmult_1_l, <- mult_IZR. apply f_equal. vm_compute. reflexivity. Qed.

Lemma ten_300 : (1e100 * 1e200 = 1e300)%R.
Proof. rewrite !Rmult_1_l, <- mult_IZR. apply f_equal. vm_compute. reflexivity. Qed.

Lemma ten_400 : (1e200 * 1e200 = 1e400)%R.
Proof. rewrite !Rmult_1_l, <- mult_IZR. apply f_equal. vm_compute. reflexivity. Qed.

Lemma ten_200_one : (1 <= 1e200)%R.
Proof. rewrite Rmult_1_l. apply IZR_le. vm_compute. discriminate. Qed.

Lemma float_max_200 : (1e200 <= float_max)%R.
Proof.
  unfold float_max. rewrite Rmult_1_l. apply IZR_le. vm_compute. discriminate.
Qed.

Lemma float_max_300 : (1e300 <= float_max)%R.
Proof.
  unfold float_max. rewrite Rmult_1_l. apply IZR_le. vm_compute. discriminate.
Qed.

Lemma float_max_400 : (float_max < 1e400)%R.
Proof.
  unfold float_max. rewrite Rmult_1_l. apply IZR_lt. vm_compute. reflexivity.
Qed.

(** A target within 1e100 stds of the mean, the std at most 1e200: neither
    the difference nor the square of the standardised value overflows. *)
Lemma scored_logpdf_in_range (y m s : R) :
  (0 < s)%R -> (s <= 1e200)%R -> (Rabs (y - m) <= 1e100 * s)%R ->
  logpdf_in_range y m s.
Proof.
  intros Hs Hs2 Hy.
  pose proof float_max_300 as Hm. pose proof float_max_200 as Hb.
  pose proof ten_300 as H0. pose proof ten_100_squared as H0'.
  pose proof ten_100_pos as Hp.
  set (A := 1e100%R) in *. set (B := 1e200%R) in *. set (C := 1e300%R) in *.
  split.
  - assert (A * s <= C)%R by nra. lra.
  - assert (Hz : (Rabs ((y - m) / s) <= A)%R).
    { unfold Rdiv. rewrite Rabs_mult, (Rabs_pos_eq (/ s)).
      - apply Rmult_le_reg_r with (r := s); [assumption|].
        rewrite Rmult_assoc, Rinv_l by lra. lra.
      - left. now apply Rinv_0_lt_compat. }
    rewrite <- (Rabs_pos_eq (((y - m) / s) ^ 2)) by apply pow2_ge_0.
    rewrite <- RPow_abs.
    assert (0 <= Rabs ((y - m) / s))%R by apply Rabs_pos.
    assert (Rabs ((y - m) / s) ^ 2 <= B)%R by nra.
    lra.
Qed.

Lemma flat_map_singletons (A B : Type) (g : A -> list B) (h : A -> B) (l : list A) :
  (forall x, In x l -> g x = [h x]) -> flat_map g l = map h l.
Proof.
  induction l as [|x l IH]; intros Hg; simpl; [reflexivity|].
  rewrite Hg by now left. simpl. f_equal. apply IH. intros; apply Hg; now right.
Qed.

Lemma slice_len_bound (n start step m : nat) :
  m < slice_len n start step -> start + m * step < n.
Proof.
  unfold slice_len. destruct (start <? n) eqn:E; [|lia].
  apply Nat.ltb_lt in E. intros Hm.
  destruct step as [|step]; [simpl in Hm; lia|].
  pose proof (Nat.Div0.mul_div_le (n - start + S step - 1) (S step)). nia.
Qed.

(** [row[start::step]] cell by cell. *)
Lemma slice_step_map (A : Type) (start step : nat) (row : list A) (dflt : A) :
  slice_step start step row
  = map (fun m => nth (start + m * step) row dflt)
        (seq 0 (slice_len (length row) start step)).
Proof.
  unfold slice_step. apply flat_map_singletons. intros m Hm.
  apply in_seq in Hm. destruct Hm as [_ Hm]. simpl in Hm.
  apply slice_len_bound in Hm.
  now rewrite (nth_error_nth' row dflt Hm).
Qed.

Lemma nth_slice_step (A : Type) (start step m : nat) (row : list A) (dflt : A) :
  m < slice_len (length row) start step ->
  nth m (slice_step start step row) dflt = nth (start + m * step) row dflt.
Proof.
  intros Hm. rewrite (slice_step_map start step row dflt).
  now rewrite nth_map_seq.
Qed.

Lemma map_nth_all (A : Type) (l : list A) (dflt : A) :
  map (fun j => nth j l dflt) (seq 0 (length l)) = l.
Proof.
  induction l as [|x l IH]; simpl; [reflexivity|].
  f_equal. rewrite <- seq_shift, map_map. exact IH.
Qed.

Lemma nth_fin (l : list R) (i : nat) : nth i (map Fin l) (Fin 0) = Fin (nth i l 0%R).
Proof. apply (map_nth Fin). Qed.

(** On finite cells the excluded sums cancel: the conditional weight of
    component [c] is its marginal weight over the sum of the marginal
    weights, in every dimension. *)
Lemma reconstruct_row_finite (n_targets k c d : nat) (w p y : list xreal) :
  finite_row n_targets k w p y ->
  marginal_sum k w <> 0%R ->
  c < k -> d < n_targets ->
  nth_error (reconstruct_row n_targets k w p y) (d * k + c)
  = Some (Fin (real_of (nth c w (Fin 0)) / marginal_sum k w)).
Proof.
  intros [Hfw Hfp Hfy Hpos Hrange Lw Lp] Hsum Hc Hd.
  rewrite reconstruct_row_cell by assumption. f_equal.
  (* the log-densities are finite *)
  assert (Hld : exists ls, log_density_row n_targets y (slice_step 0 2 p)
                             (slice_step 1 2 p) = map Fin ls).
  { unfold log_density_row.
    exists (map (fun i => gauss_logpdf (real_of (nth i y (Fin 0)))
                          (real_of (nth i (slice_step 0 2 p) (Fin 0)))
                          (real_of (nth i (slice_step 1 2 p) (Fin 0))))
                (seq 0 n_targets)).
    rewrite map_map. apply map_ext_in. intros i Hi. apply in_seq in Hi.
    simpl of_Z.
    assert (Hlen : i < slice_len (length p) 1 2 /\ i < slice_len (length p) 0 2).
    { rewrite Lp. replace (2 * k * n_targets) with (k * n_targets * 2) by lia.
      rewrite !slice_len_blocks by lia. nia. }
    destruct Hlen as [Hl1 Hl0].
    assert (Hy : is_fin (nth i y (Fin 0))).
    { destruct (Nat.lt_ge_cases i (length y)) as [Hiy|Hiy].
      - rewrite Forall_forall in Hfy. now apply Hfy, nth_In.
      - rewrite nth_overflow by assumption. now exists 0%R. }
    assert (Hm : is_fin (nth i (slice_step 0 2 p) (Fin 0))).
    { rewrite nth_slice_step by assumption.
      rewrite Forall_forall in Hfp. apply Hfp, nth_In.
      apply slice_len_bound in Hl0. lia. }
    assert (Hs : positive (nth i (slice_step 1 2 p) (Fin 0))).
    { rewrite Forall_forall in Hpos. apply Hpos, nth_In.
      rewrite (slice_step_map 1 2 p (Fin 0)), length_map, length_seq. assumption. }
    destruct (Hrange i ltac:(lia)) as [Hsmall Hnear].
    replace (2 * i + 1) with (1 + i * 2) in Hsmall, Hnear by lia.
    replace (2 * i) with (0 + i * 2) in Hnear by lia.
    rewrite <- (nth_slice_step 1 2 p (Fin 0) Hl1) in Hsmall, Hnear.
    rewrite <- (nth_slice_step 0 2 p (Fin 0) Hl0) in Hnear.
    destruct Hy as [yv Ey]. destruct Hm as [mv Em]. destruct Hs as [sv [Es Hsv]].
    rewrite Ey, Em, Es in *. simpl real_of in *.
    apply xlogpdf_fin; [assumption|]. now apply scored_logpdf_in_range. }
  destruct Hld as [ls ->].
  rewrite firstn_map, fsum_fin.
  set (q := rsum (firstn d ls)).
  rewrite (fin_row (@Forall_firstn _ _ k _ Hfw)).
  fold (marginal_sum k w).
  assert (Hk : length (map real_of (firstn k w)) = k).
  { rewrite length_map, length_firstn, Lw. apply Nat.min_l. nia. }
  simpl of_Z. rewrite nth_fin.
  replace (fsum _) with (Fin (rsum (map real_of (firstn k w)))).
  - fold (marginal_sum k w). rewrite xdiv_fin by assumption.
    f_equal. f_equal.
    rewrite map_nth with (f := real_of) (d := Fin 0).
    f_equal. now apply nth_firstn_lt.
  - symmetry.
    rewrite map_ext_in with
      (g := fun j => Fin (nth j (map real_of (firstn k w)) 0%R)).
    + rewrite <- map_map, fsum_fin. f_equal.
      pose proof (map_nth_all (map real_of (firstn k w)) 0%R) as Hall.
      rewrite Hk in Hall. now rewrite Hall.
    + intros j Hj. rewrite nth_fin. simpl.
      f_equal. rewrite Rminus_diag, exp_0. lra.
Qed.

(** A log-density that is not finite in dimension [i] makes every
    conditional weight of the later dimensions a value that is no number. *)
Lemma reconstruct_row_nan (n_targets k c d i : nat) (w p y : list xreal) :
  c < k -> d < n_targets -> i < d ->
  nth_error (log_density_row n_targets y (slice_step 0 2 p) (slice_step 1 2 p)) i
  = Some NaN ->
  nth_error (reconstruct_row n_targets k w p y) (d * k + c) = Some NaN.
Proof.
  intros Hc Hd Hid Hld.
  rewrite (@reconstruct_row_cell xreal _ n_targets k c d w p y Hc Hd). f_equal.
  set (ld := log_density_row n_targets y (slice_step 0 2 p) (slice_step 1 2 p)) in *.
  assert (Hex : fsum (firstn d ld) = NaN).
  { apply fsum_nan. apply nth_error_In with (n := i).
    rewrite nth_error_firstn.
    now replace (i <? d) with true by (symmetry; apply Nat.ltb_lt; lia). }
  rewrite Hex. simpl fsub. simpl fexp. simpl fmul. simpl fdiv.
  rewrite fsum_nan.
  - now destruct (nth c (firstn k w) (Fin 0)).
  - apply in_map_iff. exists c. split.
    + now destruct (nth c (firstn k w) (Fin 0)).
    + apply in_seq. lia.
Qed.

(** ** Conditional weights of a finite all-Gaussian prediction *)

Lemma rsum_scale (l : list R) (s : R) :
  rsum (map (fun x => x / s)%R l) = (rsum l / s)%R.
Proof.
  induction l as [|x l IH]; simpl.
  - unfold Rdiv. now rewrite Rmult_0_l.
  - rewrite IH. unfold Rdiv. now rewrite Rmult_plus_distr_r.
Qed.

Lemma rsum_indicator (m a k : nat) :
  rsum (map (fun c => if c =? m then 1 else 0)%R (seq a k))
  = (if (a <=? m) && (m <? a + k) then 1 else 0)%R.
Proof.
  revert a; induction k as [|k IH]; intros a; simpl.
  - replace (m <? a + 0) with (m <? a) by (f_equal; lia).
    destruct (Nat.leb_spec a m), (Nat.ltb_spec m a); simpl; auto; lia.
  - rewrite IH.
    destruct (Nat.eqb_spec a m) as [->|Hne].
    + replace (S m <=? m) with false by (symmetry; apply Nat.leb_gt; lia).
      replace (m <=? m) with true by (symmetry; apply Nat.leb_le; lia).
      replace (m <? m + S k) with true by (symmetry; apply Nat.ltb_lt; lia).
      simpl. lra.
    + replace (m <? S a + k) with (m <? a + S k) by (f_equal; lia).
      destruct (Nat.leb_spec (S a) m), (Nat.leb_spec a m); simpl; try lia; lra.
Qed.

(** The cells [d * k .. d * k + k - 1] of a row. *)
Lemma block_of_row (A : Type) (g : nat -> A) (l : list A) (k d : nat) :
  (forall c, c < k -> nth_error l (d * k + c) = Some (g c)) ->
  firstn k (skipn (d * k) l) = map g (seq 0 k).
Proof.
  intros Hg. apply nth_error_ext. intros c.
  rewrite nth_error_firstn, nth_error_skipn, nth_error_map, nth_error_seq.
  destruct (c <? k) eqn:E; [|reflexivity].
  apply Nat.ltb_lt in E. now rewrite Hg.
Qed.

Lemma marginal_sum_cells (k : nat) (w : list xreal) :
  k <= length w ->
  rsum (map (fun c => real_of (nth c w (Fin 0))) (seq 0 k)) = marginal_sum k w.
Proof.
  intros Hk. unfold marginal_sum. f_equal.
  assert (Hl : length (firstn k w) = k) by (rewrite length_firstn; lia).
  pose proof (map_nth_all (firstn k w) (Fin 0)) as Hall. rewrite Hl in Hall.
  transitivity (map real_of (map (fun j => nth j (firstn k w) (Fin 0)) (seq 0 k)));
    [|now rewrite Hall].
  rewrite map_map. apply map_ext_in.
  intros c Hc. apply in_seq in Hc. now rewrite nth_firstn_lt by lia.
Qed.

Lemma Forall_nth_error (A : Type) (P : A -> Prop) (l : list A) (s : nat) (x : A) :
  Forall P l -> nth_error l s = Some x -> P x.
Proof.
  intros Hl Hs. rewrite Forall_forall in Hl. eapply Hl, nth_error_In; eauto.
Qed.

(** The rows of sample [s] of a shaped prediction and of its truths. *)
Lemma sample_rows (n n_targets k s : nat)
    (weights : ndarray xreal) (types : ndarray Z) (params : ndarray xreal)
    (y : DataFrame xreal) :
  shaped n n_targets k (weights, types, params) = true ->
  truths_for n n_targets y = true -> s < n ->
  exists w p yr,
    nth_error (rows weights) s = Some w /\ length w = k * n_targets /\
    nth_error (rows params) s = Some p /\ length p = 2 * k * n_targets /\
    nth_error (frame_rows y) s = Some yr.
Proof.
  intros Hs Hy Hsn. unfold shaped in Hs.
  repeat rewrite andb_true_iff in Hs.
  destruct Hs as [[[[[Hw Htp] Hp] Hcw] Hct] Hcp].
  apply Nat.eqb_eq in Hcw, Hcp.
  unfold truths_for in Hy. apply andb_true_iff in Hy as [_ Hyr].
  apply Nat.eqb_eq in Hyr.
  destruct (wf_row weights Hw Hsn) as [w [Ew Lw]].
  destruct (wf_row params Hp Hsn) as [p [Ep Lp]].
  destruct (@nth_error_lt _ (frame_rows y) s) as [yr Eyr]; [lia|].
  exists w, p, yr. rewrite <- Hcw, <- Hcp. auto.
Qed.

(** On finite cells with positive stds, the conditional weight of component
    [c] in dimension [d] is its marginal weight over the sum of the
    marginal weights. *)
Lemma reconstruct_weights_finite (n n_targets k : nat)
    (weights : ndarray xreal) (types : ndarray Z) (params : ndarray xreal)
    (y : DataFrame xreal) :
  0 < n_targets -> 0 < n ->
  shaped n n_targets k (weights, types, params) = true ->
  truths_for n n_targets y = true ->
  finite_cells weights -> finite_cells params -> finite_cells (values y) ->
  positive_stds params ->
  targets_in_range n_targets params y ->
  nonzero_marginals k weights ->
  exists norm_w,
    reconstruct_weights n_targets k weights types params (Some y) = Ok norm_w /\
    forall s, s < n ->
      exists w row,
        nth_error (rows weights) s = Some w /\
        nth_error (rows norm_w) s = Some row /\
        length w = k * n_targets /\
        forall d c, d < n_targets -> c < k ->
          nth_error row (d * k + c)
          = Some (Fin (real_of (nth c w (Fin 0)) / marginal_sum k w)).
Proof.
  intros Ht Hn Hs Hy Hfw Hfp Hfy Hpos Hrange Hnz.
  eexists. split; [now apply reconstruct_shaped with (n := n)|].
  intros s Hsn.
  destruct (@sample_rows n n_targets k s weights types params y Hs Hy Hsn) as [w [p [yr [Ew [Lw [Ep [Lp Eyr]]]]]]].
  exists w, (reconstruct_row n_targets k w p yr).
  split; [assumption|]. split; [|split; [assumption|]].
  - simpl rows. now apply nth_error_map3.
  - intros d c Hd Hc. apply reconstruct_row_finite; auto.
    + constructor; auto.
      * eapply Forall_nth_error; [exact Hfw | exact Ew].
      * eapply Forall_nth_error; [exact Hfp | exact Ep].
      * eapply Forall_nth_error; [exact Hfy | exact Eyr].
      * exact (@Forall_nth_error _ _ _ _ _ Hpos Ep).
      * exact (Hrange s p yr Ep Eyr).
    + exact (@Forall_nth_error _ _ _ _ _ Hnz Ew).
Qed.

Lemma written_gaussian (n_targets k : nat)
    (weights : ndarray xreal) (types : ndarray Z) (params : ndarray xreal)
    (oy : option (DataFrame xreal)) :
  any types = false ->
  written_weights n_targets k weights types params oy
  = reconstruct_weights n_targets k weights types params oy.
Proof. intros Hany. unfold written_weights. now rewrite Hany. Qed.

(** C3, as the code has it.  Positive stds are not enough: a realized
    target far from the mean overflows the log-density, and the weights of
    the later dimensions are then not numbers.  For an all-Gaussian
    prediction of [k] components in each of [n_targets] dimensions, for at
    least one sample and with the truths of every sample, with finite cells
    and positive stds, every target scored within range (no std above
    1e200 and no target further than 1e100 stds from the mean it is scored
    against), and marginal weights between 0 and 1 that do not sum to zero
    (in the data model they sum to 1), the [k] conditional weights that the
    reconstruction gives to every sample and every dimension sum to 1.0
    within 1e-9 (in arithmetic without rounding, to 1). *)
Theorem conditional_weights_sum_to_one (n n_targets k : nat)
    (weights : ndarray xreal) (types : ndarray Z) (params : ndarray xreal)
    (y : DataFrame xreal) :
  0 < n_targets -> 0 < n ->
  shaped n n_targets k (weights, types, params) = true ->
  truths_for n n_targets y = true ->
  any types = false ->
  finite_cells weights -> finite_cells params -> finite_cells (values y) ->
  positive_stds params ->
  targets_in_range n_targets params y ->
  unit_marginals k weights ->
  nonzero_marginals k weights ->
  exists norm_w,
    written_weights n_targets k weights types params (Some y) = Ok norm_w /\
    forall s d, s < n -> d < n_targets ->
      exists r, fsum (dimension_weights k norm_w s d) = Fin r /\
                (Rabs (r - 1) <= 1e-9)%R.
Proof.
  intros Ht Hn Hs Hy Hany Hfw Hfp Hfy Hpos Hrange _ Hnz.
  destruct (@reconstruct_weights_finite n n_targets k weights types params y
              Ht Hn Hs Hy Hfw Hfp Hfy Hpos Hrange Hnz) as [norm_w [Hrec Hcells]].
  exists norm_w. split; [now rewrite written_gaussian|].
  intros s d Hsn Hd.
  destruct (Hcells s Hsn) as [w [row [Ew [Erow [Lw Hrow]]]]].
  assert (Hsum : marginal_sum k w <> 0%R)
    by exact (@Forall_nth_error _ _ _ _ _ Hnz Ew).
  exists (marginal_sum k w / marginal_sum k w)%R. split.
  - unfold dimension_weights. rewrite (nth_error_nth _ _ _ Erow).
    rewrite (@block_of_row _
               (fun c => Fin (real_of (nth c w (Fin 0)) / marginal_sum k w)) row k d)
      by (intros c Hc; now apply Hrow).
    rewrite <- (map_map (fun c => (real_of (nth c w (Fin 0)) / marginal_sum k w)%R) Fin).
    rewrite fsum_fin. f_equal.
    rewrite <- (map_map (fun c => real_of (nth c w (Fin 0)))
                        (fun x => (x / marginal_sum k w)%R)).
    rewrite rsum_scale, marginal_sum_cells by nia. reflexivity.
  - replace (marginal_sum k w / marginal_sum k w - 1)%R with 0%R by (field; assumption).
    rewrite Rabs_R0. lra.
Qed.

Lemma one_hot_row (n_targets k : nat) (w : list xreal) (m : nat) :
  0 < n_targets -> m < k -> length w = k * n_targets ->
  (forall d c, d < n_targets -> c < k ->
     nth_error w (d * k + c) = Some (Fin (if c =? m then 1 else 0))) ->
  Forall is_fin w /\ marginal_sum k w = 1%R.
Proof.
  intros Ht Hm Lw Hw. split.
  - apply Forall_forall. intros x Hx.
    apply In_nth_error in Hx as [i Hi].
    assert (Hlt : i < k * n_targets).
    { rewrite <- Lw. apply nth_error_Some. now rewrite Hi. }
    pose proof (Nat.div_mod_eq i k) as Hdm.
    pose proof (Nat.mod_upper_bound i k) as Hmod.
    assert (Hd : i / k < n_targets) by (apply Nat.Div0.div_lt_upper_bound; lia).
    specialize (Hw (i / k) (i mod k) Hd (Hmod ltac:(lia))).
    replace (i / k * k + i mod k) with i in Hw by lia.
    rewrite Hw in Hi. injection Hi as <-. now eexists.
  - unfold marginal_sum.
    change (firstn k w) with (firstn k (skipn (0 * k) w)).
    rewrite (@block_of_row _ (fun c => Fin (if c =? m then 1 else 0)) w k 0)
      by (intros c Hc; now apply Hw).
    rewrite map_map. simpl real_of.
    rewrite (rsum_indicator m 0 k). simpl.
    now replace (m <? k) with true by (symmetry; apply Nat.ltb_lt; lia).
Qed.

(** C6, as the code has it.  Positive stds are not enough: a realized
    target far from the mean overflows the log-density, and the weights of
    the later dimensions are then not numbers.  When the marginal weights
    of an all-Gaussian prediction of [k] components in each of [n_targets]
    dimensions (at least one sample, the truths of every sample, finite
    cells, positive stds) are one-hot and every target is scored within
    range (no std above 1e200 and no target further than 1e100 stds from
    the mean it is scored against), the conditional weights of every
    dimension are that same one-hot vector. *)
Theorem one_hot_weights_are_kept (n n_targets k : nat)
    (weights : ndarray xreal) (types : ndarray Z) (params : ndarray xreal)
    (y : DataFrame xreal) :
  0 < n_targets -> 0 < n ->
  shaped n n_targets k (weights, types, params) = true ->
  truths_for n n_targets y = true ->
  any types = false ->
  finite_cells params -> finite_cells (values y) ->
  positive_stds params ->
  targets_in_range n_targets params y ->
  one_hot n_targets k weights ->
  exists norm_w,
    written_weights n_targets k weights types params (Some y) = Ok norm_w /\
    forall s d, s < n -> d < n_targets ->
      dimension_weights k norm_w s d = dimension_weights k weights s d /\
      exists m, m < k /\
        dimension_weights k norm_w s d
        = map (fun c => Fin (if c =? m then 1 else 0)) (seq 0 k).
Proof.
  intros Ht Hn Hs Hy Hany Hfp Hfy Hpos Hrange Hone.
  assert (Hrows : forall s w, nth_error (rows weights) s = Some w ->
                              length w = k * n_targets).
  { intros s w Ew. unfold shaped in Hs. repeat rewrite andb_true_iff in Hs.
    destruct Hs as [[[[[Hw _] _] Hcw] _] _]. apply Nat.eqb_eq in Hcw.
    apply wf_ndarray_spec in Hw as [_ Hw]. rewrite <- Hcw.
    eapply Hw, nth_error_In; eauto. }
  assert (Hfw : finite_cells weights).
  { apply Forall_forall. intros w Hw. apply In_nth_error in Hw as [s Ew].
    destruct (Hone s w Ew) as [m [Hm Hcells]].
    exact (proj1 (@one_hot_row n_targets k w m Ht Hm (Hrows s w Ew) Hcells)). }
  assert (Hnz : nonzero_marginals k weights).
  { apply Forall_forall. intros w Hw. apply In_nth_error in Hw as [s Ew].
    destruct (Hone s w Ew) as [m [Hm Hcells]].
    rewrite (proj2 (@one_hot_row n_targets k w m Ht Hm (Hrows s w Ew) Hcells)).
    lra. }
  destruct (@reconstruct_weights_finite n n_targets k weights types params y
              Ht Hn Hs Hy Hfw Hfp Hfy Hpos Hrange Hnz) as [norm_w [Hrec Hcells]].
  exists norm_w. split; [now rewrite written_gaussian|].
  intros s d Hsn Hd.
  destruct (Hcells s Hsn) as [w [row [Ew [Erow [Lw Hrow]]]]].
  destruct (Hone s w Ew) as [m [Hm Hw]].
  destruct (@one_hot_row n_targets k w m Ht Hm Lw Hw) as [_ Hsum].
  assert (Hblock : dimension_weights k norm_w s d
                   = map (fun c => Fin (if c =? m then 1 else 0)) (seq 0 k)).
  { unfold dimension_weights. rewrite (nth_error_nth _ _ _ Erow).
    apply block_of_row. intros c Hc. rewrite (Hrow d c Hd Hc), Hsum.
    f_equal. f_equal. rewrite Rdiv_1_r.
    pose proof (Hw 0 c Ht Hc) as H0. simpl in H0.
    now rewrite (nth_error_nth _ _ _ H0). }
  split; [|now exists m].
  rewrite Hblock. unfold dimension_weights. rewrite (nth_error_nth _ _ _ Ew).
  symmetry. apply block_of_row. intros c Hc. now apply Hw.
Qed.

(** ** Sampling *)

Lemma length_flatten (A : Type) (n : nat) (a : ndarray A) :
  wf_ndarray n a = true -> length (flatten a) = n * ncols a.
Proof.
  intros Hwf. apply wf_ndarray_spec in Hwf as [Hn Hr].
  unfold flatten, nrows in *. subst n.
  induction (rows a) as [|r rs IH]; simpl; [reflexivity|].
  rewrite length_app, IH.
  - rewrite (Hr r) by now left. reflexivity.
  - intros r' Hr'. apply Hr. now right.
Qed.

Lemma length_slice_step (A : Type) (start step : nat) (row : list A) :
  length (slice_step start step row) = slice_len (length row) start step.
Proof.
  destruct row as [|x row].
  - unfold slice_step, slice_len. simpl. now destruct (start <? 0).
  - now rewrite (slice_step_map start step (x :: row) x), length_map, length_seq.
Qed.

Lemma reshape_last_exact (m known : nat) :
  0 < known -> reshape_last (known * m) known = Ok m.
Proof.
  intros Hk. unfold reshape_last.
  replace (known =? 0) with false by (symmetry; apply Nat.eqb_neq; lia).
  rewrite (Nat.mul_comm known m), Nat.Div0.mod_mul, Nat.div_mul by lia.
  reflexivity.
Qed.

Section SamplingFacts.

Context {F G : Type} `{Float64 F} `{RandomState F G}.

(** Whatever the batch, a call that returns hands back one row. *)
Lemma step_single_row (self : GenerativeRegressorFull) (trained_model : regressor F)
    (X_array : X_input F) (rng : G) (out : ndarray F) (rng' : G) :
  step self trained_model X_array rng = Ok (out, rng') -> nrows out = 1.
Proof.
  unfold step.
  destruct (_check_restart self X_array) as [xr|e]; [|discriminate]. simpl bind.
  destruct (predict trained_model (fst xr) (snd xr)) as [[weights types] params].
  destruct (reshape_last _ _) as [n_w|e]; [|discriminate]. simpl bind.
  destruct (reshape_last _ _) as [m_mus|e]; [|discriminate]. simpl bind.
  destruct (reshape_last _ _) as [m_sigmas|e]; [|discriminate]. simpl bind.
  destruct (choice _ _ _) as [sel|e]; [|discriminate]. simpl bind.
  destruct (component_of_first_row _ _ _ _) as [mus|e]; [|discriminate]. simpl bind.
  destruct (component_of_first_row _ _ _ _) as [sigmas|e]; [|discriminate]. simpl bind.
  destruct (multivariate_normal _ _ _) as [drawn|e]; [|discriminate]. simpl bind.
  now intros [= <- _].
Qed.

(** Column [i] of the first row of [params[:, start::2]]. *)
Lemma first_row_slice (start i : nat) (params : ndarray F) (p0 : list F) :
  nth_error (rows params) 0 = Some p0 ->
  i < slice_len (length p0) start 2 ->
  nth i (flatten (cols_step start 2 params)) (of_Z 0)
  = nth (start + i * 2) p0 (of_Z 0).
Proof.
  intros Hp Hi. unfold flatten, cols_step. simpl rows.
  destruct (rows params) as [|r rs]; [discriminate|]. injection Hp as ->.
  simpl. rewrite app_nth1 by now rewrite length_slice_step.
  now apply nth_slice_step.
Qed.

(** On a shaped prediction of [n] samples [step] asks for one index among
    [n * k], with the first [n * k] weights of the flattened array as
    probabilities, and then for one vector at the means and stds that the
    first row gives to that component. *)
Lemma step_shaped (self : GenerativeRegressorFull) (trained_model : regressor F)
    (X_array X' : X_input F) (restart : option (ndarray F)) (rng : G)
    (weights : ndarray F) (types : ndarray Z) (params : ndarray F)
    (p0 : list F) (n k : nat) :
  let n_targets := length (target_column_name self) in
  _check_restart self X_array = Ok (X', restart) ->
  shape0 X' = n ->
  predict trained_model X' restart = (weights, types, params) ->
  0 < n -> 0 < n_targets ->
  shaped n n_targets k (weights, types, params) = true ->
  nth_error (rows params) 0 = Some p0 ->
  step self trained_model X_array rng
  = (sel <- choice rng (n * k) (firstn (n * k) (flatten weights)) ;;
     if fst sel <? k then draw_vector n_targets k p0 sel else Raise IndexError).
Proof.
  intros n_targets Hcr Hn0 Hpred Hn Ht Hs Hp0.
  unfold shaped in Hs. repeat rewrite andb_true_iff in Hs.
  destruct Hs as [[[[[Hw Htp] Hp] Hcw] Hct] Hcp].
  apply Nat.eqb_eq in Hcw, Hct, Hcp.
  pose proof (proj1 (wf_ndarray_spec _ _) Hw) as [Hnw _].
  pose proof (proj1 (wf_ndarray_spec _ _) Hp) as [Hnp Hrp].
  assert (Lp0 : length p0 = k * n_targets * 2).
  { rewrite (Hrp p0) by (eapply nth_error_In; eauto). lia. }
  assert (Hsw : size weights = n_targets * (n * k)).
  { unfold size. rewrite Hnw, Hcw. lia. }
  assert (Hsm : forall start, start < 2 ->
            size (cols_step start 2 params) = n * n_targets * k).
  { intros start Hst. unfold size, nrows. simpl. rewrite length_map.
    fold (nrows params). rewrite Hnp, Hcp.
    replace (2 * k * n_targets) with (k * n_targets * 2) by lia.
    rewrite slice_len_blocks by assumption. lia. }
  unfold step. rewrite Hcr. simpl bind. simpl fst. simpl snd.
  rewrite Hpred, Hn0. fold n_targets.
  rewrite Hsw, !Hsm by lia.
  rewrite !reshape_last_exact by nia. simpl bind.
  rewrite length_firstn, (@length_flatten _ n weights Hw), Hcw.
  replace (Nat.min (n * k) (n * (k * n_targets))) with (n * k) by nia.
  destruct (choice rng (n * k) (firstn (n * k) (flatten weights))) as [[c g1]|e];
    [|reflexivity].
  simpl bind. simpl fst. simpl snd.
  unfold component_of_first_row.
  destruct (c <? k) eqn:Ec; [|reflexivity].
  apply Nat.ltb_lt in Ec. simpl bind.
  unfold draw_vector, component_means, component_stds. simpl fst. simpl snd.
  assert (Hmus : map (fun d => nth (d * k + c) (flatten (cols_step 0 2 params)) (of_Z 0))
                     (seq 0 n_targets)
                 = map (fun d => nth (2 * (d * k + c)) p0 (of_Z 0)) (seq 0 n_targets)).
  { apply map_ext_in. intros d Hd. apply in_seq in Hd.
    rewrite (@first_row_slice 0 (d * k + c) params p0 Hp0).
    - f_equal. lia.
    - rewrite Lp0, slice_len_blocks by lia. nia. }
  assert (Hsig : map (fun d => nth (d * k + c) (flatten (cols_step 1 2 params)) (of_Z 0))
                     (seq 0 n_targets)
                 = map (fun d => nth (2 * (d * k + c) + 1) p0 (of_Z 0)) (seq 0 n_targets)).
  { apply map_ext_in. intros d Hd. apply in_seq in Hd.
    rewrite (@first_row_slice 1 (d * k + c) params p0 Hp0).
    - f_equal. lia.
    - rewrite Lp0, slice_len_blocks by lia. nia. }
  now rewrite Hmus, Hsig.
Qed.

End SamplingFacts.

Section SamplingClaims.

Context {F G : Type} `{Float64 F} `{RandomState F G}.

(** C7, as the code has it.  [step] does not draw one sample per row: for
    a batch of [n] rows every call that returns hands back one single row,
    and on a shaped prediction it does return, once the generator has given
    a component index below [k] and a vector, that vector drawn at the
    means and stds that the first row gives to the component. *)
Theorem step_returns_one_vector (self : GenerativeRegressorFull)
    (trained_model : regressor F) (X_array X' : X_input F)
    (restart : option (ndarray F)) (rng : G)
    (weights : ndarray F) (types : ndarray Z) (params : ndarray F)
    (p0 : list F) (n k : nat) :
  let n_targets := length (target_column_name self) in
  _check_restart self X_array = Ok (X', restart) ->
  shape0 X' = n ->
  predict trained_model X' restart = (weights, types, params) ->
  0 < n -> 0 < n_targets ->
  shaped n n_targets k (weights, types, params) = true ->
  nth_error (rows params) 0 = Some p0 ->
  (forall out rng', step self trained_model X_array rng = Ok (out, rng') ->
                    nrows out = 1) /\
  (forall c g1 v g2,
     choice rng (n * k) (firstn (n * k) (flatten weights)) = Ok (c, g1) ->
     c < k ->
     multivariate_normal g1 (component_means n_targets k p0 c)
       (np_diag (map (fun s => fmul s s) (component_stds n_targets k p0 c)))
     = Ok (v, g2) ->
     step self trained_model X_array rng
     = Ok ({| ncols := length v; rows := [v] |}, g2)).
Proof.
  intros n_targets Hcr Hn0 Hpred Hn Ht Hs Hp0. split.
  - intros out rng'. apply step_single_row.
  - intros c g1 v g2 Hc Hck Hv.
    rewrite (@step_shaped _ _ _ _ self trained_model X_array X' restart rng
               weights types params p0 n k Hcr Hn0 Hpred Hn Ht Hs Hp0).
    rewrite Hc. simpl bind. simpl fst.
    replace (c <? k) with true by (symmetry; now apply Nat.ltb_lt).
    unfold draw_vector. simpl fst. simpl snd. fold n_targets. now rewrite Hv.
Qed.

(** C8, as the code has it.  On a batch of one row, [step] is the sampler
    of §4.3: one index drawn with the marginal weights of the first
    dimension as probabilities, then one vector from the Gaussian with that
    component's means and the squares of its stds on the diagonal; the
    generator handed over by the caller is the only source of randomness,
    so equal inputs and an equal generator give equal results. *)
Theorem step_samples_the_mixture (self : GenerativeRegressorFull)
    (trained_model : regressor F) (X_array X' : X_input F)
    (restart : option (ndarray F)) (rng : G)
    (weights : ndarray F) (types : ndarray Z) (params : ndarray F)
    (w0 p0 : list F) (k : nat) :
  let n_targets := length (target_column_name self) in
  _check_restart self X_array = Ok (X', restart) ->
  shape0 X' = 1 ->
  predict trained_model X' restart = (weights, types, params) ->
  0 < n_targets ->
  shaped 1 n_targets k (weights, types, params) = true ->
  rows weights = [w0] -> rows params = [p0] ->
  (forall g a q c g', choice g a q = Ok (c, g') -> c < a) ->
  step self trained_model X_array rng = sample_spec n_targets k w0 p0 rng.
Proof.
  intros n_targets Hcr Hn0 Hpred Ht Hs Hw0 Hp0 Hrange.
  rewrite (@step_shaped _ _ _ _ self trained_model X_array X' restart rng
             weights types params p0 1 k Hcr Hn0 Hpred Nat.lt_0_1 Ht Hs)
    by now rewrite Hp0.
  unfold sample_spec, flatten. rewrite Hw0. simpl concat.
  rewrite app_nil_r, Nat.mul_1_l. fold n_targets.
  destruct (choice rng k (firstn k w0)) as [[c g1]|e] eqn:Ec; [|reflexivity].
  simpl bind. simpl fst.
  apply Hrange in Ec.
  now replace (c <? k) with true by (symmetry; now apply Nat.ltb_lt).
Qed.

End SamplingClaims.

(** ** The claims on the example inputs *)

Lemma gauss_gap : (gauss_logpdf 0 1 1 < gauss_logpdf 0 0 1)%R.
Proof.
  unfold gauss_logpdf.
  replace (((0 - 1) / 1) ^ 2)%R with 1%R by field.
  replace (((0 - 0) / 1) ^ 2)%R with 0%R by field. lra.
Qed.

Lemma halves_finite : finite_cells Examples.halves2x2.
Proof. fin_cells. Qed.

Lemma params_finite : finite_cells Examples.params2x2.
Proof. fin_cells. Qed.

Lemma truths_finite : finite_cells (values Examples.truths1).
Proof. fin_cells. Qed.

Lemma params_positive : positive_stds Examples.params2x2.
Proof. pos_cells. Qed.

Lemma halves_nonzero : nonzero_marginals 2 Examples.halves2x2.
Proof. repeat constructor. unfold marginal_sum. simpl. lra. Qed.

Lemma truths_near : targets_in_range 2 Examples.params2x2 Examples.truths1.
Proof. near_cells ten_100_one ten_200_one. Qed.

(** At a std of 1, a target within 1 of the mean has a finite log-density. *)
Lemma unit_std_in_range (y m : R) :
  (Rabs (y - m) <= 1)%R -> logpdf_in_range y m 1.
Proof.
  intros Hy. apply scored_logpdf_in_range; [lra| |].
  - exact ten_200_one.
  - generalize ten_100_one. generalize 1e100%R. intros A HA. lra.
Qed.

(** The formula of §4.2 on the example: more than 1/2 for component 0 of
    dimension 1, whose mean is the realized value of dimension 0. *)
Lemma spec_weight_of_example :
  exists spec,
    spec_conditional_weight 2 (Examples.row [1/2; 1/2; 1/2; 1/2]%R)
      (Examples.row [0; 1; 1; 1; 0; 1; 0; 1]%R) (Examples.row [0; 0]%R) 0 1
    = Fin spec /\ (1 / 2 < spec)%R.
Proof.
  unfold spec_conditional_weight, spec_exclusion, fsum. simpl.
  rewrite !xlogpdf_fin
    by (lra || (apply unit_std_in_range; unfold Rabs; destruct (Rcase_abs _); lra)).
  simpl.
  pose proof (exp_pos (0 + gauss_logpdf 0 0 1)) as Ha.
  pose proof (exp_pos (0 + gauss_logpdf 0 1 1)) as Hb.
  assert (Hlt : (exp (0 + gauss_logpdf 0 1 1) < exp (0 + gauss_logpdf 0 0 1))%R).
  { apply exp_increasing. pose proof gauss_gap. lra. }
  set (A := exp (0 + gauss_logpdf 0 0 1)) in *.
  set (B := exp (0 + gauss_logpdf 0 1 1)) in *.
  destruct (Req_dec_T (0 + 1 / 2 * A + 1 / 2 * B) 0) as [Hz|_]; [exfalso; lra|].
  eexists. split; [reflexivity|].
  apply Rmult_lt_reg_r with (r := (0 + 1 / 2 * A + 1 / 2 * B)%R); [lra|].
  replace (1 / 2 * A / (0 + 1 / 2 * A + 1 / 2 * B) * (0 + 1 / 2 * A + 1 / 2 * B))%R
    with (1 / 2 * A)%R by (field; lra).
  lra.
Qed.

(** C1.  The code does not compute the formula of §4.2.  On the example of
    two components per dimension whose means differ in dimension 0, the
    conditional weight that the code writes into the record for component
    0 of dimension 1 is 1/2, the marginal weight over the sum of the
    marginal weights, while
    the formula, with the exclusion likelihood of each component taken at
    that component's own mean and std, gives more than 1/2: the
    log-densities are read from columns [i] of the means and stds for every
    component [j], so the exclusion likelihoods cancel. *)
Theorem conditional_weight_ignores_the_component :
  exists res code spec,
    predict_submission Examples.workflow2 (Examples.constant Examples.gaussian2x2)
                       Examples.frame1 = Ok res /\
    cell res 0 (1 * (4 * 2 + 1) + 1 + 0) = Some (Some (Fin code)) /\
    code = (1 / 2)%R /\
    spec_conditional_weight 2 (Examples.row [1/2; 1/2; 1/2; 1/2]%R)
      (Examples.row [0; 1; 1; 1; 0; 1; 0; 1]%R) (Examples.row [0; 0]%R) 0 1
    = Fin spec /\
    (1 / 2 < spec)%R.
Proof.
  destruct (@reconstruct_weights_finite 1 2 2 Examples.halves2x2 Examples.zero_types
              Examples.params2x2 Examples.truths1)
    as [norm_w [Hrec Hcells]];
    try reflexivity; try lia;
    auto using halves_finite, params_finite, truths_finite, params_positive,
               truths_near, halves_nonzero.
  destruct (Hcells 0 Nat.lt_0_1) as [w [r [Ew [Er [_ Hr]]]]].
  injection Ew as <-.
  specialize (Hr 1 0 ltac:(lia) ltac:(lia)).
  destruct (@encode_dists_layout xreal _ Examples.workflow2 1 2
              Examples.halves2x2 Examples.zero_types Examples.params2x2
              (Some Examples.truths1))
    as [res [w' [Hres [Hw [_ [_ Hl]]]]]];
    try reflexivity; try (simpl; lia).
  { intros _. split; [lia|]. exists Examples.truths1. now split. }
  change (written_weights 2 2 Examples.halves2x2 Examples.zero_types
            Examples.params2x2 (Some Examples.truths1) = Ok w') in Hw.
  rewrite written_gaussian, Hrec in Hw by reflexivity. injection Hw as <-.
  destruct (Hl 0 1 Nat.lt_0_1 ltac:(simpl; lia)) as [_ [Hwc _]].
  destruct (Hwc 0 ltac:(lia)) as [v [Hv Hc]].
  unfold cell in Hv. rewrite Er, Hr in Hv. injection Hv as <-.
  destruct spec_weight_of_example as [spec [Hspec Hgt]].
  exists res. eexists. exists spec.
  split.
  { rewrite <- Hres.
    now apply predict_submission_unfold
      with (X := {| ncols := 1; rows := [Examples.row [3%R]] |}) (restart := None). }
  split; [exact Hc|].
  split; [unfold marginal_sum; simpl; lra|].
  split; assumption.
Qed.

(** In the example with a std of 0 the log-density of dimension 0 is NaN,
    and so is the conditional weight of dimension 1. *)
Lemma degenerate_row_is_nan :
  nth_error (reconstruct_row 2 1 (Examples.row [1; 1]%R) (Examples.row [0; 0; 0; 1]%R)
                             (Examples.row [0; 0]%R)) (1 * 1 + 0)
  = Some NaN.
Proof.
  rewrite (@reconstruct_row_cell xreal _ 2 1 0 1) by lia.
  f_equal. simpl.
  rewrite xlogpdf_nonpositive by lra. reflexivity.
Qed.

(** C4 fails as stated: with a std of 0 the call raises nothing and
    returns a record whose weight of dimension 1 is NaN. *)
Lemma degenerate_std_returns_nan :
  cell Examples.degenerate_params 0 1 = Some (Fin 0) /\
  exists res,
    predict_submission Examples.workflow2 (Examples.constant Examples.degenerate2x1)
                       Examples.frame1 = Ok res /\
    cell res 0 6 = Some (Some NaN).
Proof.
  split; [reflexivity|].
  destruct (@encode_dists_layout xreal _ Examples.workflow2 1 1
              {| ncols := 2; rows := [Examples.row [1; 1]%R] |}
              {| ncols := 2; rows := [[0; 0]%Z] |}
              Examples.degenerate_params (Some Examples.truths1))
    as [res [w' [Hres [Hw [_ [_ Hl]]]]]];
    try reflexivity; try (simpl; lia).
  { intros _. split; [lia|]. exists Examples.truths1. now split. }
  assert (Hcall : predict_submission Examples.workflow2
                    (Examples.constant Examples.degenerate2x1) Examples.frame1
                  = encode_dists Examples.workflow2 Examples.degenerate2x1
                                 (Some Examples.truths1))
    by (now apply predict_submission_unfold
          with (X := {| ncols := 1; rows := [Examples.row [3%R]] |})
               (restart := None)).
  exists res. split; [rewrite Hcall; exact Hres|].
  rewrite written_gaussian in Hw by reflexivity.
  rewrite (@reconstruct_shaped xreal _ 1 2 1) in Hw by (reflexivity || lia).
  injection Hw as <-.
  destruct (Hl 0 1 Nat.lt_0_1 ltac:(simpl; lia)) as [_ [Hwc _]].
  destruct (Hwc 0 Nat.lt_0_1) as [v [Hv Hc]].
  unfold cell in Hv. simpl rows in Hv. simpl nth_error in Hv.
  pose proof degenerate_row_is_nan as Hn. simpl in Hn, Hv. rewrite Hn in Hv.
  injection Hv as <-. exact Hc.
Qed.

(** At a realized target of 1e200, mean 0 and std 1 the square of the
    standardised value is past the largest float64. *)
Lemma far_overflows : ~ logpdf_in_range Examples.far 0 1.
Proof.
  intros [_ Hz]. unfold Examples.far in Hz.
  replace (((1e200 - 0) / 1) ^ 2)%R with (1e200 * 1e200)%R in Hz.
  - rewrite ten_400 in Hz. apply (Rlt_irrefl float_max).
    eapply Rlt_le_trans; [exact float_max_400 | exact Hz].
  - generalize 1e200%R. intros b. field.
Qed.

(** With that target in dimension 0, both conditional weights of dimension 1
    are no numbers, whatever the marginal weights. *)
Lemma far_row_is_nan (w : list xreal) (c : nat) :
  c < 2 ->
  nth_error (reconstruct_row 2 2 w (Examples.row [0; 1; 1; 1; 0; 1; 0; 1]%R)
                             (Examples.row [Examples.far; 0]%R)) (1 * 2 + c)
  = Some NaN.
Proof.
  intros Hc. apply reconstruct_row_nan with (i := 0); try lia.
  simpl. now rewrite (xlogpdf_overflow far_overflows).
Qed.

(** C3 fails as stated: every std is 1, yet with a realized target of
    1e200 the log-density of dimension 0 overflows; the call returns a
    record whose two weights of dimension 1 are no numbers, and neither is
    their sum. *)
Lemma far_target_weights_are_nan :
  any Examples.zero_types = false /\
  positive_stds Examples.params2x2 /\
  exists res norm_w,
    predict_submission Examples.workflow2 (Examples.constant Examples.gaussian2x2)
                       Examples.far_frame = Ok res /\
    written_weights 2 2 Examples.halves2x2 Examples.zero_types Examples.params2x2
                    (Some Examples.far_truths) = Ok norm_w /\
    dimension_weights 2 norm_w 0 1 = [NaN; NaN] /\
    fsum (dimension_weights 2 norm_w 0 1) = NaN /\
    cell res 0 10 = Some (Some NaN) /\ cell res 0 11 = Some (Some NaN).
Proof.
  split; [reflexivity|]. split; [exact params_positive|].
  destruct (@encode_dists_layout xreal _ Examples.workflow2 1 2
              Examples.halves2x2 Examples.zero_types Examples.params2x2
              (Some Examples.far_truths))
    as [res [w' [Hres [Hw [_ [_ Hl]]]]]];
    try reflexivity; try (simpl; lia).
  { intros _. split; [lia|]. exists Examples.far_truths. now split. }
  assert (Hcall : predict_submission Examples.workflow2
                    (Examples.constant Examples.gaussian2x2) Examples.far_frame
                  = encode_dists Examples.workflow2 Examples.gaussian2x2
                                 (Some Examples.far_truths))
    by (now apply predict_submission_unfold
          with (X := {| ncols := 1; rows := [Examples.row [3%R]] |})
               (restart := None)).
  change (written_weights 2 2 Examples.halves2x2 Examples.zero_types
            Examples.params2x2 (Some Examples.far_truths) = Ok w') in Hw.
  exists res, w'. split; [rewrite Hcall; exact Hres|]. split; [exact Hw|].
  rewrite written_gaussian in Hw by reflexivity.
  rewrite (@reconstruct_shaped xreal _ 1 2 2) in Hw by (reflexivity || lia).
  injection Hw as <-.
  assert (Hblock : dimension_weights 2
                     {| ncols := 2 * 2;
                        rows := map3 (reconstruct_row 2 2) (rows Examples.halves2x2)
                                     (rows Examples.params2x2)
                                     (frame_rows Examples.far_truths) |} 0 1
                   = [NaN; NaN]).
  { unfold dimension_weights. simpl rows. simpl nth.
    apply (@block_of_row _ (fun _ => NaN) _ 2 1).
    intros c Hc. now apply far_row_is_nan. }
  split; [exact Hblock|]. split; [exact (f_equal fsum Hblock)|].
  destruct (Hl 0 1 Nat.lt_0_1 ltac:(simpl; lia)) as [_ [Hwc _]].
  split.
  - destruct (Hwc 0 ltac:(lia)) as [v [Hv Hc]].
    change (nth_error (reconstruct_row 2 2 (Examples.row [1/2; 1/2; 1/2; 1/2]%R)
                         (Examples.row [0; 1; 1; 1; 0; 1; 0; 1]%R)
                         (Examples.row [Examples.far; 0]%R)) (1 * 2 + 0)
            = Some v) in Hv.
    rewrite far_row_is_nan in Hv by lia.
    injection Hv as <-. exact Hc.
  - destruct (Hwc 1 ltac:(lia)) as [v [Hv Hc]].
    change (nth_error (reconstruct_row 2 2 (Examples.row [1/2; 1/2; 1/2; 1/2]%R)
                         (Examples.row [0; 1; 1; 1; 0; 1; 0; 1]%R)
                         (Examples.row [Examples.far; 0]%R)) (1 * 2 + 1)
            = Some v) in Hv.
    rewrite far_row_is_nan in Hv by lia.
    injection Hv as <-. exact Hc.
Qed.

(** The one-hot weights of the example. *)
Lemma first_only_is_one_hot : one_hot 2 2 Examples.first_only.
Proof.
  intros s w Hw. destruct s as [|s]; [|destruct s; discriminate].
  injection Hw as <-. exists 0. split; [lia|].
  intros d c Hd Hc.
  destruct d as [|[|d]]; [| |lia]; destruct c as [|[|c]]; try lia; reflexivity.
Qed.

(** C6 fails as stated: every std is 1 and the marginal weights are the
    one-hot vector (1, 0), yet with a realized target of 1e200 the
    conditional weights of dimension 1 are no numbers. *)
Lemma far_target_breaks_one_hot :
  any Examples.zero_types = false /\
  positive_stds Examples.params2x2 /\
  one_hot 2 2 Examples.first_only /\
  exists norm_w,
    written_weights 2 2 Examples.first_only Examples.zero_types Examples.params2x2
                    (Some Examples.far_truths) = Ok norm_w /\
    dimension_weights 2 Examples.first_only 0 1 = [Fin 1; Fin 0] /\
    dimension_weights 2 norm_w 0 1 = [NaN; NaN] /\
    dimension_weights 2 norm_w 0 1 <> dimension_weights 2 Examples.first_only 0 1.
Proof.
  split; [reflexivity|]. split; [exact params_positive|].
  split; [exact first_only_is_one_hot|].
  eexists. split.
  { rewrite written_gaussian by reflexivity.
    apply (@reconstruct_shaped xreal _ 1 2 2); (reflexivity || lia). }
  assert (Hblock : dimension_weights 2
                     {| ncols := 2 * 2;
                        rows := map3 (reconstruct_row 2 2) (rows Examples.first_only)
                                     (rows Examples.params2x2)
                                     (frame_rows Examples.far_truths) |} 0 1
                   = [NaN; NaN]).
  { unfold dimension_weights. simpl rows. simpl nth.
    apply (@block_of_row _ (fun _ => NaN) _ 2 1).
    intros c Hc. now apply far_row_is_nan. }
  split; [reflexivity|]. split; [exact Hblock|].
  rewrite Hblock. discriminate.
Qed.

(** C5 fails as stated: one component slot for two targets is not a
    multiple, yet the call raises nothing and returns a record, two cells of
    which were never written. *)
Lemma lone_slot_returns_a_record :
  ncols Examples.lone_types mod 2 <> 0 /\
  predict_submission Examples.workflow2 (Examples.constant Examples.lone_slot)
                     Examples.array1
  = Ok {| ncols := 6;
          rows := [[Some (Fin 0); Some (Fin 0); None;
                    Some (Fin 0); Some (Fin 1); None]] |}.
Proof. split; [discriminate | reflexivity]. Qed.

(** C10 fails as stated: on a numpy array with type codes that are all
    zero the call does not always end in the unbound name.  With four
    component slots where at most three are allowed it ends in the
    AssertionError of the bound, and for a workflow without targets in the
    ZeroDivisionError of the division by their number. *)
Lemma array_input_ends_before_the_unbound_name :
  any Examples.zero_types = false /\
  predict_submission Examples.workflow_tight (Examples.constant Examples.gaussian2x2)
                     Examples.array1 = Raise AssertionError /\
  predict_submission Cases.workflow0 (Examples.constant Examples.gaussian2x2)
                     Examples.array1 = Raise ZeroDivisionError /\
  predict_submission Examples.workflow_tight (Examples.constant Examples.gaussian2x2)
                     Examples.array1 <> Raise UnboundLocalError /\
  predict_submission Cases.workflow0 (Examples.constant Examples.gaussian2x2)
                     Examples.array1 <> Raise UnboundLocalError.
Proof.
  assert (Ha : predict_submission Examples.workflow_tight
                 (Examples.constant Examples.gaussian2x2) Examples.array1
               = Raise AssertionError) by reflexivity.
  assert (Hz : predict_submission Cases.workflow0
                 (Examples.constant Examples.gaussian2x2) Examples.array1
               = Raise ZeroDivisionError) by reflexivity.
  split; [reflexivity|]. split; [exact Ha|]. split; [exact Hz|].
  rewrite Ha, Hz. split; discriminate.
Qed.

(** C7 fails as stated: on a batch of two rows [step] returns one row. *)
Lemma two_rows_one_vector :
  shape0 Examples.batch2 = 2 /\
  exists out g',
    step Examples.workflow1 (Examples.constant Examples.two_samples)
         Examples.batch2 (Examples.scripted [7%R]) = Ok (out, g') /\
    nrows out = 1 /\ nrows out <> shape0 Examples.batch2.
Proof.
  split; [reflexivity|]. eexists. eexists.
  split; [reflexivity|]. split; [reflexivity | discriminate].
Qed.

(** C8 fails as stated on a batch of two rows: the index is drawn among
    two categories with the weights of both rows as probabilities, where the
    sampler of §4.3 draws among the components of the first dimension. *)
Lemma two_rows_mix_the_weights :
  step Examples.workflow1 (Examples.constant Examples.two_samples)
       Examples.batch2 (Examples.scripted [7%R])
  = Ok ({| ncols := 1; rows := [Examples.row [7%R]] |},
        {| indices := []; vectors := [];
           asked := [(2, Examples.row [1/2; 1/2]%R)] |}) /\
  sample_spec 1 1 (Examples.row [1/2]%R) (Examples.row [0; 1]%R)
              (Examples.scripted [7%R])
  = Ok ({| ncols := 1; rows := [Examples.row [7%R]] |},
        {| indices := []; vectors := [];
           asked := [(1, Examples.row [1/2]%R)] |}) /\
  step Examples.workflow1 (Examples.constant Examples.two_samples)
       Examples.batch2 (Examples.scripted [7%R])
  <> sample_spec 1 1 (Examples.row [1/2]%R) (Examples.row [0; 1]%R)
                 (Examples.scripted [7%R]).
Proof.
  assert (Hstep : step Examples.workflow1 (Examples.constant Examples.two_samples)
                       Examples.batch2 (Examples.scripted [7%R])
                  = Ok ({| ncols := 1; rows := [Examples.row [7%R]] |},
                        {| indices := []; vectors := [];
                           asked := [(2, Examples.row [1/2; 1/2]%R)] |}))
    by reflexivity.
  assert (Hspec : sample_spec 1 1 (Examples.row [1/2]%R) (Examples.row [0; 1]%R)
                              (Examples.scripted [7%R])
                  = Ok ({| ncols := 1; rows := [Examples.row [7%R]] |},
                        {| indices := []; vectors := [];
                           asked := [(1, Examples.row [1/2]%R)] |}))
    by reflexivity.
  split; [exact Hstep|]. split; [exact Hspec|].
  rewrite Hstep, Hspec. intros Heq. discriminate Heq.
Qed.

(** The replaying generator returns indices below the number of categories. *)
Lemma replay_in_range (F : Type) (g : replay F) (a : nat) (q : list F) (c : nat)
    (g' : replay F) :
  choice g a q = Ok (c, g') -> c < a.
Proof.
  simpl. destruct (indices g) as [|i is']; [discriminate|].
  destruct (i <? a) eqn:E; [|discriminate].
  intros [= <- _]. now apply Nat.ltb_lt.
Qed.

(** The theorem [predict_submission_record_layout] on an example. *)
Lemma predict_submission_record_layout_witness :
  exists res w',
    predict_submission Examples.workflow2 (Examples.constant Examples.gaussian2x2)
                       Examples.frame1 = Ok res /\
    written_weights 2 2 Examples.halves2x2 Examples.zero_types Examples.params2x2
                    (Some Examples.truths1) = Ok w' /\
    record_layout 1 2 2 9 w' Examples.zero_types Examples.params2x2 res.
Proof.
  apply (@predict_submission_record_layout xreal _ Examples.workflow2
           (Examples.constant Examples.gaussian2x2) Examples.frame1
           {| ncols := 1; rows := [Examples.row [3%R]] |} None
           (Some Examples.truths1)
           Examples.halves2x2 Examples.zero_types Examples.params2x2 2).
  - reflexivity.
  - reflexivity.
  - simpl; lia.
  - reflexivity.
  - simpl; lia.
  - intros _. split; [simpl; lia | discriminate].
Defined.

(** The theorem [nongaussian_weights_pass_through] on an example. *)
Lemma nongaussian_weights_pass_through_witness :
  exists res,
    predict_submission Examples.workflow2 (Examples.constant Examples.mixed2x2)
                       Examples.array1 = Ok res /\
    record_layout 1 2 2 9 Examples.halves2x2 Examples.mixed_types
                  Examples.params2x2 res.
Proof.
  apply (@nongaussian_weights_pass_through xreal _ Examples.workflow2
           (Examples.constant Examples.mixed2x2) Examples.array1
           {| ncols := 1; rows := [Examples.row [3%R]] |} None None
           Examples.halves2x2 Examples.mixed_types Examples.params2x2 1 2).
  - reflexivity.
  - reflexivity.
  - simpl; lia.
  - reflexivity.
  - simpl; lia.
  - reflexivity.
Defined.

(** The theorem [array_input_all_gaussian_unbound] on an example. *)
Lemma array_input_all_gaussian_unbound_witness :
  let outcome := predict_submission Examples.workflow2
                   (Examples.constant Examples.gaussian2x2) Examples.array1 in
  (restart_name Examples.workflow2 = None /\
   @None (ndarray xreal) = None /\ @None (DataFrame xreal) = None) /\
  raises outcome /\
  (max_dists Examples.workflow2 < ncols Examples.zero_types ->
   outcome = Raise AssertionError) /\
  (ncols Examples.zero_types <= max_dists Examples.workflow2 ->
   length (target_column_name Examples.workflow2) = 0 ->
   outcome = Raise ZeroDivisionError) /\
  (ncols Examples.zero_types <= max_dists Examples.workflow2 ->
   0 < length (target_column_name Examples.workflow2) ->
   outcome = Raise UnboundLocalError).
Proof.
  apply (@array_input_all_gaussian_unbound xreal _ Examples.workflow2
           (Examples.constant Examples.gaussian2x2)
           {| ncols := 3; rows := [Examples.row [3; 0; 0]%R] |}
           {| ncols := 1; rows := [Examples.row [3%R]] |} None None
           Examples.halves2x2 Examples.zero_types Examples.params2x2).
  - reflexivity.
  - reflexivity.
  - reflexivity.
Defined.

(** The theorem [indivisible_slots_raise] on an example. *)
Lemma indivisible_slots_raise_witness :
  (forall w' : ndarray xreal,
     encode 2 (3 / 2) w' Examples.three_types
            {| ncols := 6; rows := [Examples.row [0; 1; 0; 1; 0; 1]%R] |}
     = Raise ValueError) /\
  raises (predict_submission Examples.workflow2
            (Examples.constant Examples.three_slots) Examples.array1).
Proof.
  apply (@indivisible_slots_raise xreal _ Examples.workflow2
           (Examples.constant Examples.three_slots) Examples.array1
           {| ncols := 1; rows := [Examples.row [3%R]] |} None None
           {| ncols := 3; rows := [Examples.row [1; 1; 1]%R] |}
           Examples.three_types
           {| ncols := 6; rows := [Examples.row [0; 1; 0; 1; 0; 1]%R] |}).
  - reflexivity.
  - reflexivity.
  - simpl; lia.
  - simpl. lia.
  - simpl; lia.
Defined.

(** The theorem [nonpositive_std_not_checked] on an example. *)
Lemma nonpositive_std_not_checked_witness :
  exists res,
    predict_submission Examples.workflow2 (Examples.constant Examples.degenerate2x1)
                       Examples.frame1 = Ok res /\
    forall s d c, s < 1 -> d < 2 -> c < 1 ->
      copied (fun v => v) res s (d * (4 * 1 + 1) + 1 + 2 * 1 + 2 * c + 1)
             (cell Examples.degenerate_params s (2 * (d * 1 + c) + 1)).
Proof.
  apply (@nonpositive_std_not_checked xreal _ Examples.workflow2
           (Examples.constant Examples.degenerate2x1) Examples.frame1
           {| ncols := 1; rows := [Examples.row [3%R]] |} None Examples.truths1
           {| ncols := 2; rows := [Examples.row [1; 1]%R] |}
           {| ncols := 2; rows := [[0; 0]%Z] |}
           Examples.degenerate_params 1).
  - reflexivity.
  - reflexivity.
  - reflexivity.
  - simpl; lia.
  - simpl; lia.
  - reflexivity.
  - simpl; lia.
Defined.

(** The theorem [conditional_weights_sum_to_one] on an example. *)
Lemma conditional_weights_sum_to_one_witness :
  exists norm_w,
    written_weights 2 2 Examples.halves2x2 Examples.zero_types Examples.params2x2
                    (Some Examples.truths1) = Ok norm_w /\
    forall s d, s < 1 -> d < 2 ->
      exists r, fsum (dimension_weights 2 norm_w s d) = Fin r /\
                (Rabs (r - 1) <= 1e-9)%R.
Proof.
  apply (@conditional_weights_sum_to_one 1 2 2 Examples.halves2x2 Examples.zero_types
           Examples.params2x2 Examples.truths1).
  - lia.
  - lia.
  - reflexivity.
  - reflexivity.
  - reflexivity.
  - fin_cells.
  - fin_cells.
  - fin_cells.
  - pos_cells.
  - near_cells ten_100_one ten_200_one.
  - simpl. pos_cells.
  - repeat constructor. unfold marginal_sum. simpl. lra.
Defined.

(** The theorem [one_hot_weights_are_kept] on an example. *)
Lemma one_hot_weights_are_kept_witness :
  exists norm_w,
    written_weights 2 2 Examples.first_only Examples.zero_types Examples.params2x2
                    (Some Examples.truths1) = Ok norm_w /\
    forall s d, s < 1 -> d < 2 ->
      dimension_weights 2 norm_w s d = dimension_weights 2 Examples.first_only s d /\
      exists m, m < 2 /\
        dimension_weights 2 norm_w s d
        = map (fun c => Fin (if c =? m then 1 else 0)) (seq 0 2).
Proof.
  apply (@one_hot_weights_are_kept 1 2 2 Examples.first_only Examples.zero_types
           Examples.params2x2 Examples.truths1).
  - lia.
  - lia.
  - reflexivity.
  - reflexivity.
  - reflexivity.
  - fin_cells.
  - fin_cells.
  - pos_cells.
  - near_cells ten_100_one ten_200_one.
  - intros s w Hw. destruct s as [|s]; [|destruct s; discriminate].
    injection Hw as <-. exists 0. split; [lia|].
    intros d c Hd Hc.
    destruct d as [|[|d]]; [| |lia]; destruct c as [|[|c]]; try lia; reflexivity.
Defined.

(** The theorem [step_returns_one_vector] on an example. *)
Lemma step_returns_one_vector_witness :
  (forall out rng',
     step Examples.workflow1 (Examples.constant Examples.two_samples)
          Examples.batch2 (Examples.scripted [7%R]) = Ok (out, rng') ->
     nrows out = 1) /\
  (forall c g1 v g2,
     choice (Examples.scripted [7%R]) (2 * 1)
            (firstn (2 * 1) (flatten (fst (fst Examples.two_samples)))) = Ok (c, g1) ->
     c < 1 ->
     multivariate_normal g1 (component_means 1 1 (Examples.row [0; 1]%R) c)
       (np_diag (map (fun s => fmul s s)
                     (component_stds 1 1 (Examples.row [0; 1]%R) c)))
     = Ok (v, g2) ->
     step Examples.workflow1 (Examples.constant Examples.two_samples)
          Examples.batch2 (Examples.scripted [7%R])
     = Ok ({| ncols := length v; rows := [v] |}, g2)).
Proof.
  apply (@step_returns_one_vector xreal (replay xreal) _ _ Examples.workflow1
           (Examples.constant Examples.two_samples) Examples.batch2 Examples.batch2
           None (Examples.scripted [7%R])
           (fst (fst Examples.two_samples)) (snd (fst Examples.two_samples))
           (snd Examples.two_samples) (Examples.row [0; 1]%R) 2 1).
  - reflexivity.
  - reflexivity.
  - reflexivity.
  - lia.
  - simpl; lia.
  - reflexivity.
  - reflexivity.
Defined.

(** The theorem [step_samples_the_mixture] on an example. *)
Lemma step_samples_the_mixture_witness :
  step Examples.workflow2 (Examples.constant Examples.gaussian2x2)
       Examples.array1 (Examples.scripted [7; 8]%R)
  = sample_spec 2 2 (Examples.row [1/2; 1/2; 1/2; 1/2]%R)
                (Examples.row [0; 1; 1; 1; 0; 1; 0; 1]%R)
                (Examples.scripted [7; 8]%R).
Proof.
  apply (@step_samples_the_mixture xreal (replay xreal) _ _ Examples.workflow2
           (Examples.constant Examples.gaussian2x2) Examples.array1 Examples.array1
           None (Examples.scripted [7; 8]%R)
           Examples.halves2x2 Examples.zero_types Examples.params2x2
           (Examples.row [1/2; 1/2; 1/2; 1/2]%R)
           (Examples.row [0; 1; 1; 1; 0; 1; 0; 1]%R) 2).
  - reflexivity.
  - reflexivity.
  - reflexivity.
  - simpl; lia.
  - reflexivity.
  - reflexivity.
  - reflexivity.
  - intros g a q c g'. apply replay_in_range.
Defined.

(** * Further properties *)

(** ** Columns of a frame *)

Lemma has_label_In (cols : list string) (label : string) :
  has_label cols label = true <-> In label cols.
Proof.
  unfold has_label. rewrite existsb_exists. split.
  - intros [c [Hc He]]. apply String.eqb_eq in He. now subst.
  - intros Hin. exists label. split; [assumption | apply String.eqb_refl].
Qed.

Lemma pick_app (A : Type) (ps qs : list nat) (l : list A) :
  pick (ps ++ qs) l = pick ps l ++ pick qs l.
Proof. unfold pick. apply flat_map_app. Qed.

Lemma pick_flat_map (A B : Type) (f : B -> list nat) (bs : list B) (l : list A) :
  pick (flat_map f bs) l = flat_map (fun b => pick (f b) l) bs.
Proof.
  induction bs as [|b bs IH]; simpl; [reflexivity|].
  now rewrite pick_app, IH.
Qed.

(** The columns picked at the positions that a test on the label keeps. *)
Lemma pick_tested (g : string -> bool) (pre cols : list string) :
  pick (filter (fun p => match nth_error (pre ++ cols) p with
                         | Some c => g c
                         | None => false
                         end)
               (seq (length pre) (length cols)))
       (pre ++ cols)
  = filter g cols.
Proof.
  revert pre; induction cols as [|c cols IH]; intros pre; simpl; [reflexivity|].
  assert (Hhead : nth_error (pre ++ c :: cols) (length pre) = Some c).
  { rewrite nth_error_app2, Nat.sub_diag by lia. reflexivity. }
  assert (Hrest : pick (filter (fun p => match nth_error (pre ++ c :: cols) p with
                                         | Some c0 => g c0
                                         | None => false
                                         end)
                               (seq (S (length pre)) (length cols)))
                       (pre ++ c :: cols)
                  = filter g cols).
  { replace (pre ++ c :: cols) with ((pre ++ [c]) ++ cols)
      by (rewrite <- app_assoc; reflexivity).
    replace (S (length pre)) with (length (pre ++ [c]))
      by (rewrite length_app; simpl; lia).
    apply IH. }
  rewrite Hhead. destruct (g c).
  - unfold pick at 1. simpl flat_map. rewrite Hhead. simpl.
    f_equal. exact Hrest.
  - exact Hrest.
Qed.

Lemma pick_kept (cols labels : list string) :
  pick (kept cols labels) cols = filter (fun c => negb (has_label labels c)) cols.
Proof. exact (pick_tested (fun c => negb (has_label labels c)) [] cols). Qed.

Lemma kept_bound (cols labels : list string) (p : nat) :
  In p (kept cols labels) -> p < length cols.
Proof.
  unfold kept. intros Hp. apply filter_In in Hp as [Hp _].
  apply in_seq in Hp. lia.
Qed.

Lemma length_kept (cols labels : list string) :
  length (kept cols labels)
  = length (filter (fun c => negb (has_label labels c)) cols).
Proof.
  rewrite <- pick_kept, length_pick; [reflexivity|].
  intros p. apply kept_bound.
Qed.

Lemma filter_split_length (A : Type) (f : A -> bool) (l : list A) :
  length (filter f l) + length (filter (fun x => negb (f x)) l) = length l.
Proof.
  induction l as [|x l IH]; simpl; [reflexivity|].
  destruct (f x); simpl; lia.
Qed.

(** Distinct labels, each carried once by distinct columns. *)
Lemma labelled_columns (cols labels : list string) :
  NoDup cols -> NoDup labels ->
  forallb (has_label cols) labels = true ->
  length (filter (has_label labels) cols) = length labels.
Proof.
  intros Hc Hl Hall. rewrite forallb_forall in Hall.
  apply Nat.le_antisymm.
  - apply NoDup_incl_length; [now apply NoDup_filter|].
    intros c Hin. apply filter_In in Hin as [_ Hin]. now apply has_label_In.
  - apply NoDup_incl_length; [assumption|].
    intros l Hin. apply filter_In. split.
    + apply has_label_In. now apply Hall.
    + now apply has_label_In.
Qed.

Lemma positions_pick (label : string) (pre cols : list string) :
  pick (positions label cols (length pre)) (pre ++ cols)
  = filter (String.eqb label) cols.
Proof.
  revert pre; induction cols as [|c cols IH]; intros pre; simpl; [reflexivity|].
  assert (Hrest : pick (positions label cols (S (length pre))) (pre ++ c :: cols)
                  = filter (String.eqb label) cols).
  { replace (pre ++ c :: cols) with ((pre ++ [c]) ++ cols)
      by (rewrite <- app_assoc; reflexivity).
    replace (S (length pre)) with (length (pre ++ [c]))
      by (rewrite length_app; simpl; lia).
    apply IH. }
  destruct (String.eqb label c).
  - unfold pick at 1. simpl flat_map.
    rewrite nth_error_app2, Nat.sub_diag by lia. simpl.
    f_equal. exact Hrest.
  - exact Hrest.
Qed.

Lemma filter_label_once (label : string) (cols : list string) :
  NoDup cols -> In label cols -> filter (String.eqb label) cols = [label].
Proof.
  induction 1 as [|c cols Hnin Hnd IH]; intros Hin; [contradiction|].
  simpl. destruct (String.eqb_spec label c) as [->|Hne].
  - f_equal. clear IH Hin. induction cols as [|x cols IHc]; [reflexivity|].
    simpl. destruct (String.eqb_spec c x) as [->|_].
    + exfalso. apply Hnin. now left.
    + apply IHc.
      * intros Hx. apply Hnin. now right.
      * now inversion Hnd.
  - destruct Hin as [->|Hin]; [contradiction|]. now apply IH.
Qed.

(** With distinct labels, [df[labels]] has the labels as columns, in order. *)
Lemma getitem_columns (cols labels : list string) :
  NoDup cols -> forallb (has_label cols) labels = true ->
  pick (flat_map (fun l => positions l cols 0) labels) cols = labels.
Proof.
  intros Hc Hall. rewrite forallb_forall in Hall.
  rewrite pick_flat_map.
  induction labels as [|l labels IH]; simpl; [reflexivity|].
  pose proof (positions_pick l [] cols) as Hp. simpl in Hp. rewrite Hp.
  rewrite filter_label_once; auto.
  - simpl. f_equal. apply IH. intros x Hx. apply Hall. now right.
  - apply has_label_In, Hall. now left.
Qed.

Lemma NoDup_prefixed (prefix : string) (l : list string) :
  NoDup l -> NoDup (map (String.append prefix) l).
Proof.
  assert (Hinj : forall a b, String.append prefix a = String.append prefix b -> a = b).
  { induction prefix as [|ch prefix IHp]; intros a b Hab; simpl in Hab.
    - assumption.
    - injection Hab as Hab. now apply IHp. }
  induction 1 as [|x l Hnin Hnd IH]; simpl; constructor; auto.
  intros Hin. apply in_map_iff in Hin as [y [Hy Hin]].
  apply Hinj in Hy. now subst.
Qed.

Lemma map2_map_map (A B C D : Type) (f : B -> C -> D) (g : A -> B) (h : A -> C)
    (l : list A) :
  map2 f (map g l) (map h l) = map (fun x => f (g x) (h x)) l.
Proof. induction l as [|x l IH]; simpl; [reflexivity|]. now rewrite IH. Qed.

Section Frames.

Context {F : Type} `{Float64 F}.

(** On a frame [_check_restart] never fails, and hands back a frame with
    the same rows and no new column. *)
Lemma check_restart_frame (self : GenerativeRegressorFull) (df : DataFrame F) :
  exists df2 r,
    _check_restart self (Frame df) = Ok (Frame df2, r) /\
    incl (columns df2) (columns df) /\
    length (frame_rows df2) = length (frame_rows df).
Proof.
  unfold _check_restart.
  destruct (restart_name self) as [name|].
  2:{ exists df, None. repeat split; auto using incl_refl. }
  destruct (getitem df [name]) as [r|e].
  2:{ exists df, None. repeat split; auto using incl_refl. }
  destruct (drop df [name]) as [df'|e] eqn:Ed.
  2:{ exists df, None. repeat split; auto using incl_refl. }
  exists df', (Some (values r)). split; [reflexivity|].
  pose proof (drop_rows _ _ Ed) as Hrows.
  unfold drop in Ed. destruct (forallb _ _); [|discriminate].
  injection Ed as <-. simpl in *. split; [|assumption].
  rewrite pick_kept. apply incl_filter.
Qed.

(** The features and the truths of a frame with distinct labels, every
    truth among them, and rows as wide as the labels. *)
Lemma split_input_frame (self : GenerativeRegressorFull) (df : DataFrame F) :
  let truths := map (String.append "y_") (target_column_name self) in
  restart_name self = None ->
  NoDup (columns df) -> NoDup (target_column_name self) ->
  forallb (has_label (columns df)) truths = true ->
  Forall (fun r => length r = length (columns df)) (frame_rows df) ->
  exists y df',
    getitem df truths = Ok y /\ drop df truths = Ok df' /\
    columns y = truths /\
    split_input self (Frame df) = Ok (values df', None, Some y).
Proof.
  intros truths Hrn Hc Ht Hall Hrows.
  assert (Hnt : NoDup truths) by now apply NoDup_prefixed.
  unfold getitem, drop. rewrite Hall.
  eexists. eexists. split; [reflexivity|]. split; [reflexivity|].
  simpl columns.
  pose proof (@getitem_columns (columns df) truths Hc Hall) as Hy.
  split; [exact Hy|].
  unfold split_input, _check_restart. rewrite Hrn. cbv zeta.
  simpl bind. simpl fst. simpl snd.
  change (map (fun s2 : string => String "y" (String "_" s2))
              (target_column_name self)) with truths.
  unfold getitem, drop. rewrite Hall. simpl bind.
  simpl fst. simpl snd. f_equal. f_equal. f_equal.
  set (ks := kept (columns df) truths).
  set (ps := flat_map (fun l => positions l (columns df) 0) truths).
  assert (Hk : length ks + length truths = length (columns df)).
  { unfold ks. rewrite length_kept.
    rewrite <- (@labelled_columns (columns df) truths Hc Hnt Hall).
    rewrite Nat.add_comm. apply filter_split_length. }
  assert (Hlt : length truths = length (target_column_name self))
    by (unfold truths; apply length_map).
  assert (Hkc : length (pick ks (columns df)) = length ks).
  { apply length_pick. intros p. apply kept_bound. }
  unfold cols_to, hstack, values. simpl ncols. simpl rows.
  assert (Hyp : pick ps (columns df) = truths) by exact Hy.
  rewrite Hkc, Hyp.
  f_equal.
  - unfold slice_to_len.
    replace (0 <=? Z.of_nat (length (columns df))
                   - Z.of_nat (length (target_column_name self)))%Z with true
      by (symmetry; apply Z.leb_le; lia).
    simpl columns. rewrite Hkc. lia.
  - rewrite map2_map_map, map_map. apply map_ext_in. intros r Hr.
    rewrite Forall_forall in Hrows. specialize (Hrows r Hr).
    assert (Hkr : length (pick ks r) = length ks).
    { apply length_pick. intros p Hp. apply kept_bound in Hp. lia. }
    unfold slice_to.
    replace (0 <=? Z.of_nat (length (columns df))
                   - Z.of_nat (length (target_column_name self)))%Z with true
      by (symmetry; apply Z.leb_le; lia).
    replace (Z.to_nat (Z.of_nat (length (columns df))
                       - Z.of_nat (length (target_column_name self))))
      with (length (pick ks r) + 0) by lia.
    rewrite firstn_app_2. simpl. apply app_nil_r.
Qed.

End Frames.

Section FrameInputs.

Context {F : Type} `{Float64 F}.

(** X1.  [_check_restart] hands back a restart array only when a restart
    name is configured and labels a column of the frame.  The frame that
    comes back with it has the other columns in their order, none of them
    labelled with the restart name, and as many rows as before; the restart
    array has one row per sample. *)
Theorem restart_column_is_removed (self : GenerativeRegressorFull) (df : DataFrame F)
    (X' : X_input F) (r : ndarray F) :
  _check_restart self (Frame df) = Ok (X', Some r) ->
  exists name df',
    restart_name self = Some name /\ In name (columns df) /\
    X' = Frame df' /\
    columns df' = filter (fun c => negb (String.eqb c name)) (columns df) /\
    ~ In name (columns df') /\
    length (frame_rows df') = length (frame_rows df) /\
    nrows r = length (frame_rows df).
Proof.
  unfold _check_restart.
  destruct (restart_name self) as [name|]; [|discriminate].
  destruct (getitem df [name]) as [r0|e] eqn:Eg; [|discriminate].
  destruct (drop df [name]) as [df'|e] eqn:Ed; [|discriminate].
  intros [= <- <-]. exists name, df'.
  pose proof (drop_rows _ _ Ed) as Hrows.
  unfold getitem in Eg. unfold drop in Ed.
  destruct (forallb (has_label (columns df)) [name]) eqn:Ef; [|discriminate].
  injection Eg as <-. injection Ed as <-. simpl in *.
  rewrite andb_true_r in Ef. apply has_label_In in Ef.
  assert (Hcols : pick (kept (columns df) [name]) (columns df)
                  = filter (fun c => negb (String.eqb c name)) (columns df)).
  { rewrite pick_kept. apply filter_ext. intros c. unfold has_label. simpl.
    now rewrite orb_false_r. }
  repeat split; auto.
  - rewrite Hcols. intros Hin. apply filter_In in Hin as [_ Hin].
    now rewrite String.eqb_refl in Hin.
  - unfold nrows. simpl. apply length_map.
Qed.

(** X2.  On a frame that lacks the truth column ["y_" + t] of one target
    [t], [predict_submission] raises a KeyError, whatever the regressor and
    whether a restart column is configured or not: the truths are read
    before the regressor is asked. *)
Theorem missing_truth_is_a_key_error (self : GenerativeRegressorFull)
    (trained_model : regressor F) (df : DataFrame F) (t : string) :
  In t (target_column_name self) ->
  ~ In (String.append "y_" t) (columns df) ->
  predict_submission self trained_model (Frame df) = Raise KeyError.
Proof.
  intros Ht Hmiss.
  destruct (check_restart_frame self df) as [df2 [r [Hcr [Hincl _]]]].
  unfold predict_submission, split_input. rewrite Hcr. cbv zeta.
  simpl bind. simpl fst. simpl snd.
  unfold getitem at 1.
  match goal with
  | |- context [forallb (has_label (columns df2)) ?ls] =>
      destruct (forallb (has_label (columns df2)) ls) eqn:Ef
  end.
  - exfalso. rewrite forallb_forall in Ef.
    apply Hmiss, Hincl, has_label_In, Ef.
    apply in_map_iff. now exists t.
  - reflexivity.
Qed.

(** X3.  On a frame with distinct labels that carries every truth column
    (no restart column configured, distinct targets, rows as wide as the
    labels), the features handed to the regressor are the values of the
    columns that are no truth, in the frame's order, and [y] holds the truth
    columns in the order of the targets. *)
Theorem frame_features_are_the_other_columns (self : GenerativeRegressorFull)
    (df : DataFrame F) :
  let truths := map (String.append "y_") (target_column_name self) in
  restart_name self = None ->
  NoDup (columns df) -> NoDup (target_column_name self) ->
  forallb (has_label (columns df)) truths = true ->
  Forall (fun r => length r = length (columns df)) (frame_rows df) ->
  exists y df',
    getitem df truths = Ok y /\ drop df truths = Ok df' /\
    columns y = truths /\
    columns df' = filter (fun c => negb (has_label truths c)) (columns df) /\
    split_input self (Frame df) = Ok (values df', None, Some y).
Proof.
  intros truths Hrn Hc Ht Hall Hrows.
  destruct (@split_input_frame _ self df Hrn Hc Ht Hall Hrows)
    as [y [df' [Hy [Hd [Hcy Hs]]]]].
  exists y, df'. repeat split; auto.
  fold truths in Hd. unfold drop in Hd. rewrite Hall in Hd.
  injection Hd as <-. simpl. apply pick_kept.
Qed.

End FrameInputs.

(** ** Errors and shape of the record *)

Lemma Forall_map2_l (A B : Type) (P : A -> Prop) (f : A -> B -> A)
    (l : list A) (m : list B) :
  (forall a b, P a -> P (f a b)) -> Forall P l -> Forall P (map2 f l m).
Proof.
  intros Hf Hl. revert m; induction Hl as [|a l Ha _ IH]; intros [|b m]; simpl;
    constructor; auto.
Qed.

Lemma assign_cols_width (A F : Type) (cast : A -> F) (a b c d w : nat)
    (res res' : ndarray (option F)) (src : ndarray A) :
  assign_cols cast a b c d res src = Ok res' ->
  ncols res' = ncols res /\
  (Forall (fun r => length r = w) (rows res) ->
   Forall (fun r => length r = w) (rows res')).
Proof.
  unfold assign_cols. destruct (_ && _); [|discriminate].
  intros [= <-]. simpl. split; [reflexivity|].
  intros Hw. destruct (nrows src =? nrows res).
  - apply Forall_map2_l; [|exact Hw]. intros r s Hr. now rewrite length_assign_row.
  - apply Forall_forall. intros r Hr. apply in_map_iff in Hr as [r0 [<- Hr0]].
    rewrite length_assign_row. rewrite Forall_forall in Hw. now apply Hw.
Qed.

Lemma assign_loop_width (A F : Type) (cast : A -> F) (offset step stride w : nat)
    (idx : list nat) (res res' : ndarray (option F)) (src : ndarray A) :
  assign_loop cast offset step stride idx res src = Ok res' ->
  ncols res' = ncols res /\
  (Forall (fun r => length r = w) (rows res) ->
   Forall (fun r => length r = w) (rows res')).
Proof.
  revert res; induction idx as [|i idx IH]; intros res; simpl.
  - intros [= <-]. auto.
  - destruct (assign_cols cast i step (i - offset) stride res src) as [r1|e] eqn:E1;
      [|discriminate].
    simpl. intros Hl. apply IH in Hl as [Hc Hr].
    destruct (@assign_cols_width _ _ _ _ _ _ _ w _ _ _ E1) as [Hc1 Hr1].
    split; [congruence | auto].
Qed.

Section RecordShape.

Context {F : Type} `{Float64 F}.

Lemma encode_raises_value_error (n_targets k : nat)
    (weights : ndarray F) (types : ndarray Z) (params : ndarray F) (e : exn) :
  encode n_targets k weights types params = Raise e -> e = ValueError.
Proof.
  unfold encode.
  destruct (assign_cols _ _ _ _ _ _ _) as [r1|e1] eqn:E1; simpl.
  2:{ unfold assign_cols in E1. destruct (_ && _); [discriminate|].
      injection E1 as <-. now intros [= <-]. }
  destruct (assign_loop _ _ _ _ _ r1 weights) as [r2|e2] eqn:E2; simpl.
  2:{ apply assign_loop_value_error in E2. now intros [= <-]. }
  destruct (assign_loop _ _ _ _ _ r2 types) as [r3|e3] eqn:E3; simpl.
  2:{ apply assign_loop_value_error in E3. now intros [= <-]. }
  destruct (assign_loop _ _ _ _ _ r3 params) as [r4|e4] eqn:E4; simpl.
  2:{ apply assign_loop_value_error in E4. now intros [= <-]. }
  discriminate.
Qed.

Lemma reconstruct_raises (n_targets k : nat)
    (weights : ndarray F) (types : ndarray Z) (params : ndarray F)
    (oy : option (DataFrame F)) (e : exn) :
  reconstruct_weights n_targets k weights types params oy = Raise e ->
  (oy = None /\ e = UnboundLocalError) \/
  (oy <> None /\ (e = IndexError \/ e = ValueError)).
Proof.
  unfold reconstruct_weights. destruct oy as [y|].
  - destruct (_ && _); [intros [= <-]; right; split; [discriminate | now left]|].
    destruct (_ <? _); [intros [= <-]; right; split; [discriminate | now right]|].
    destruct (_ =? _); [intros [= <-]; right; split; [discriminate | now right]|].
    discriminate.
  - intros [= <-]. now left.
Qed.

Lemma encode_width (n_targets k : nat)
    (weights : ndarray F) (types : ndarray Z) (params : ndarray F)
    (res : ndarray (option F)) :
  encode n_targets k weights types params = Ok res ->
  ncols res = n_targets + (ncols weights + ncols types + ncols params) /\
  Forall (fun r => length r = ncols res) (rows res).
Proof.
  unfold encode.
  set (N := n_targets + (ncols weights + ncols types + ncols params)).
  destruct (assign_cols _ _ _ _ _ _ _) as [r1|e1] eqn:E1; [|discriminate]. simpl bind.
  destruct (assign_loop _ _ _ _ _ r1 weights) as [r2|e2] eqn:E2; [|discriminate].
  simpl bind.
  destruct (assign_loop _ _ _ _ _ r2 types) as [r3|e3] eqn:E3; [|discriminate].
  simpl bind.
  destruct (assign_loop _ _ _ _ _ r3 params) as [r4|e4] eqn:E4; [|discriminate].
  simpl bind. intros [= <-].
  destruct (@assign_cols_width _ _ _ _ _ _ _ N _ _ _ E1) as [C1 R1].
  destruct (@assign_loop_width _ _ _ _ _ _ N _ _ _ _ E2) as [C2 R2].
  destruct (@assign_loop_width _ _ _ _ _ _ N _ _ _ _ E3) as [C3 R3].
  destruct (@assign_loop_width _ _ _ _ _ _ N _ _ _ _ E4) as [C4 R4].
  simpl in C1.
  assert (Hc : ncols r4 = N) by congruence.
  split; [exact Hc|]. rewrite Hc.
  apply R4, R3, R2, R1. simpl.
  apply Forall_forall. intros r Hr. apply repeat_spec in Hr. subst r.
  apply repeat_length.
Qed.

(** X4.  Once the input is split and the regressor has answered,
    [predict_submission] fails in this order: with an AssertionError exactly
    when there are more component slots than [max_dists]; with a
    ZeroDivisionError exactly when that bound holds and there is no target;
    with an UnboundLocalError exactly when both are passed, every type code
    is zero and no truths were read (the input was a numpy array). *)
Theorem prediction_errors_in_order (self : GenerativeRegressorFull)
    (trained_model : regressor F) (X_array : X_input F) (X : ndarray F)
    (restart : option (ndarray F)) (oy : option (DataFrame F))
    (weights : ndarray F) (types : ndarray Z) (params : ndarray F) :
  let n_targets := length (target_column_name self) in
  let outcome := predict_submission self trained_model X_array in
  split_input self X_array = Ok (X, restart, oy) ->
  predict trained_model (Array X) restart = (weights, types, params) ->
  (outcome = Raise AssertionError <-> max_dists self < ncols types) /\
  (outcome = Raise ZeroDivisionError <->
   ncols types <= max_dists self /\ n_targets = 0) /\
  (outcome = Raise UnboundLocalError <->
   ncols types <= max_dists self /\ n_targets <> 0 /\
   any types = false /\ oy = None).
Proof.
  intros n_targets outcome Hin Hpred. unfold outcome.
  rewrite (predict_submission_unfold _ _ _ Hin Hpred).
  unfold encode_dists. fold n_targets.
  assert (Henc : forall w e,
             encode n_targets (ncols types / n_targets) w types params = Raise e ->
             e = ValueError).
  { intros w e. apply encode_raises_value_error. }
  destruct (Nat.leb_spec (ncols types) (max_dists self)) as [Hle|Hgt]; simpl negb;
    cbv iota.
  2:{ (split; [|split]); split; intros Hx;
        solve [reflexivity | lia | discriminate]. }
  destruct (Nat.eqb_spec n_targets 0) as [Hz|Hnz].
  { (split; [|split]); split; intros Hx;
      solve [reflexivity | lia | discriminate | auto]. }
  destruct (any types) eqn:Eany; simpl negb; cbv iota; simpl bind.
  - (split; [|split]); split; intros Hx;
      solve [ lia | apply Henc in Hx; discriminate
            | destruct Hx as [_ [_ [? _]]]; discriminate ].
  - destruct (reconstruct_weights n_targets (ncols types / n_targets)
                weights types params oy) as [w'|e] eqn:Er; simpl bind.
    + assert (Hy : oy <> None).
      { intros ->. simpl in Er. discriminate. }
      (split; [|split]); split; intros Hx;
        solve [ lia | apply Henc in Hx; discriminate
              | destruct Hx as [_ [_ [_ ?]]]; contradiction ].
    + apply reconstruct_raises in Er as [[-> ->]|[Hy [->| ->]]];
        (split; [|split]); split; intros Hx;
        solve [ reflexivity | lia | discriminate | auto
              | destruct Hx as [_ [_ [_ ?]]]; contradiction ].
Qed.

(** X5.  A prediction for no sample is never returned as a record: every
    call of [predict_submission] whose regressor answers with arrays of no
    row raises. *)
Theorem empty_batch_returns_no_record (self : GenerativeRegressorFull)
    (trained_model : regressor F) (X_array : X_input F) (X : ndarray F)
    (restart : option (ndarray F)) (oy : option (DataFrame F))
    (weights : ndarray F) (types : ndarray Z) (params : ndarray F) :
  split_input self X_array = Ok (X, restart, oy) ->
  predict trained_model (Array X) restart = (weights, types, params) ->
  nrows types = 0 ->
  raises (predict_submission self trained_model X_array).
Proof.
  intros Hin Hpred Hn.
  rewrite (predict_submission_unfold _ _ _ Hin Hpred).
  unfold encode_dists.
  destruct (negb _); [now exists AssertionError|].
  destruct (_ =? 0); [now exists ZeroDivisionError|].
  assert (Hany : any types = false).
  { unfold any. unfold nrows in Hn. now destruct (rows types). }
  rewrite Hany. simpl negb. cbv iota.
  unfold reconstruct_weights. destruct oy as [y|]; [|now exists UnboundLocalError].
  destruct (_ && _); [now exists IndexError|].
  destruct (_ <? _); [now exists ValueError|].
  rewrite Hn. now exists ValueError.
Qed.

(** X6.  Every record that [predict_submission] returns has
    [n_targets + (written + slots + params)] columns, where [written] is the
    number of weights written (the regressor's columns when some type code
    is not zero, [slots // n_targets * n_targets] conditional weights
    otherwise), and each of its rows has that width. *)
Theorem returned_record_has_one_width (self : GenerativeRegressorFull)
    (trained_model : regressor F) (X_array : X_input F) (X : ndarray F)
    (restart : option (ndarray F)) (oy : option (DataFrame F))
    (weights : ndarray F) (types : ndarray Z) (params : ndarray F)
    (res : ndarray (option F)) :
  let n_targets := length (target_column_name self) in
  let written := if any types then ncols weights
                 else ncols types / n_targets * n_targets in
  split_input self X_array = Ok (X, restart, oy) ->
  predict trained_model (Array X) restart = (weights, types, params) ->
  predict_submission self trained_model X_array = Ok res ->
  ncols res = n_targets + (written + ncols types + ncols params) /\
  Forall (fun r => length r = ncols res) (rows res).
Proof.
  intros n_targets written Hin Hpred.
  rewrite (predict_submission_unfold _ _ _ Hin Hpred).
  unfold encode_dists. fold n_targets.
  destruct (negb _); [discriminate|].
  destruct (_ =? 0); [discriminate|].
  unfold written. destruct (any types); simpl negb; cbv iota; simpl bind.
  - apply encode_width.
  - destruct (reconstruct_weights _ _ _ _ _ _) as [w'|e] eqn:Er; [|discriminate].
    simpl bind. intros Hres. apply encode_width in Hres.
    assert (Hw : ncols w' = ncols types / n_targets * n_targets).
    { unfold reconstruct_weights in Er. destruct oy; [|discriminate].
      destruct (_ && _); [discriminate|].
      destruct (_ <? _); [discriminate|].
      destruct (_ =? _); [discriminate|].
      now injection Er as <-. }
    now rewrite Hw in Hres.
Qed.

End RecordShape.

(** ** Conditional weights, cell by cell *)

Lemma nth_error_map2_inv (A B C : Type) (f : A -> B -> C) (l : list A) (m : list B)
    (s : nat) (c : C) :
  nth_error (map2 f l m) s = Some c ->
  exists a b, nth_error l s = Some a /\ nth_error m s = Some b /\ c = f a b.
Proof.
  revert m s; induction l as [|a l IH]; intros [|b m] [|s]; simpl; try discriminate.
  - intros [= <-]. now exists a, b.
  - apply IH.
Qed.

Lemma nth_error_combine_inv (A B : Type) (l : list A) (m : list B) (s : nat)
    (a : A) (b : B) :
  nth_error (combine l m) s = Some (a, b) ->
  nth_error l s = Some a /\ nth_error m s = Some b.
Proof.
  revert m s; induction l as [|x l IH]; intros [|z m] [|s]; simpl; try discriminate.
  - now intros [= <- <-].
  - apply IH.
Qed.

(** The rows that the reconstruction reads for sample [s]. *)
Lemma reconstruct_weights_row (F : Type) `{Float64 F} (n_targets k : nat)
    (weights : ndarray F) (types : ndarray Z) (params : ndarray F)
    (oy : option (DataFrame F)) (norm_w : ndarray F) (s : nat) (row : list F) :
  reconstruct_weights n_targets k weights types params oy = Ok norm_w ->
  nth_error (rows norm_w) s = Some row ->
  exists w p y yr,
    oy = Some y /\
    nth_error (rows weights) s = Some w /\
    nth_error (rows params) s = Some p /\
    nth_error (frame_rows y) s = Some yr /\
    row = reconstruct_row n_targets k w p yr.
Proof.
  unfold reconstruct_weights. destruct oy as [y|]; [|discriminate].
  destruct (_ && _); [discriminate|].
  destruct (_ <? _); [discriminate|].
  destruct (_ =? _); [discriminate|].
  intros [= <-]. simpl rows. intros Hrow.
  apply nth_error_map2_inv in Hrow as [w [[p yr] [Ew [Epy ->]]]].
  apply nth_error_combine_inv in Epy as [Ep Ey].
  exists w, p, y, yr. auto.
Qed.

Lemma xlogpdf_unusable (x m s : xreal) : ~ positive s -> xlogpdf x m s = NaN.
Proof.
  intros Hs. unfold xlogpdf. destruct x, m, s; try reflexivity.
  destruct (Rlt_dec 0 r1) as [Hp|_]; [|reflexivity].
  exfalso. apply Hs. now exists r1.
Qed.



Lemma slice_len_odd (n i : nat) : 2 * i + 1 < n -> i < slice_len n 1 2.
Proof.
  intros Hi. unfold slice_len.
  replace (1 <? n) with true by (symmetry; apply Nat.ltb_lt; lia).
  apply Nat.div_le_lower_bound; lia.
Qed.

(** X8.  When the std in column [2 * i + 1] of a row of parameters is not
    a positive number, every conditional weight of every dimension after
    [i] is not a number in that row: the log-density read for dimension [i]
    is summed into the excluded likelihood of all later dimensions. *)
Theorem unusable_std_spoils_later_dimensions (n_targets k : nat)
    (weights : ndarray xreal) (types : ndarray Z) (params : ndarray xreal)
    (oy : option (DataFrame xreal)) (norm_w : ndarray xreal)
    (s i d c : nat) (p row : list xreal) :
  reconstruct_weights n_targets k weights types params oy = Ok norm_w ->
  nth_error (rows params) s = Some p ->
  nth_error (rows norm_w) s = Some row ->
  2 * i + 1 < length p ->
  ~ positive (nth (2 * i + 1) p (Fin 0)) ->
  i < d -> d < n_targets -> c < k ->
  nth_error row (d * k + c) = Some NaN.
Proof.
  intros Hrec Ep Erow Hi Hstd Hid Hd Hc.
  destruct (reconstruct_weights_row _ _ _ _ _ _ _ Hrec Erow)
    as [w [p' [y [yr [_ [_ [Ep' [_ ->]]]]]]]].
  rewrite Ep in Ep'. injection Ep' as <-.
  rewrite (@reconstruct_row_cell xreal _ n_targets k c d w p yr Hc Hd). f_equal.
  set (ld := log_density_row n_targets yr (slice_step 0 2 p) (slice_step 1 2 p)).
  assert (Hex : fsum (firstn d ld) = NaN).
  { apply fsum_nan.
    assert (Hld : nth_error ld i = Some NaN).
    { unfold ld, log_density_row.
      rewrite nth_error_map, nth_error_seq.
      replace (i <? n_targets) with true by (symmetry; apply Nat.ltb_lt; lia).
      simpl. f_equal.
      rewrite (@nth_slice_step _ 1 2 i p (Fin 0)) by now apply slice_len_odd.
      apply xlogpdf_unusable.
      now replace (1 + i * 2) with (2 * i + 1) by lia. }
    apply nth_error_In with (n := i).
    rewrite nth_error_firstn.
    now replace (i <? d) with true by (symmetry; apply Nat.ltb_lt; lia). }
  rewrite Hex. simpl fsub. simpl fexp. simpl fmul. simpl fdiv.
  rewrite fsum_nan.
  - now destruct (nth c (firstn k w) (Fin 0)).
  - apply in_map_iff. exists c. split.
    + now destruct (nth c (firstn k w) (Fin 0)).
    + apply in_seq. lia.
Qed.

Lemma map2_map_l (A A' B C : Type) (f : A' -> B -> C) (g : A -> A')
    (l : list A) (m : list B) :
  map2 f (map g l) m = map2 (fun a b => f (g a) b) l m.
Proof.
  revert m; induction l as [|a l IH]; intros [|b m]; simpl; try reflexivity.
  now rewrite IH.
Qed.

Section WeightsRead.

Context {F : Type} `{Float64 F}.

Lemma reconstruct_row_firstn (n_targets k : nat) (w p y : list F) :
  reconstruct_row n_targets k (firstn k w) p y = reconstruct_row n_targets k w p y.
Proof.
  unfold reconstruct_row. now rewrite firstn_firstn, Nat.min_id.
Qed.

Lemma reconstruct_weights_firstn (n_targets k : nat)
    (weights weights' : ndarray F) (types : ndarray Z) (params : ndarray F)
    (oy : option (DataFrame F)) :
  ncols weights = ncols weights' ->
  map (firstn k) (rows weights) = map (firstn k) (rows weights') ->
  reconstruct_weights n_targets k weights types params oy
  = reconstruct_weights n_targets k weights' types params oy.
Proof.
  intros Hc Hr. unfold reconstruct_weights. destruct oy as [y|]; [|reflexivity].
  simpl ncols. rewrite Hc.
  destruct (_ && _); [reflexivity|].
  destruct (_ <? _); [reflexivity|].
  destruct (_ =? _); [reflexivity|].
  f_equal. f_equal.
  set (f := fun (w : list F) (py : list F * list F) =>
              reconstruct_row n_targets k w (fst py) (snd py)).
  transitivity (map2 f (map (firstn k) (rows weights))
                       (combine (rows params) (rows (values y)))).
  - rewrite map2_map_l. unfold f.
    clear. generalize (combine (rows params) (rows (values y))).
    induction (rows weights) as [|w l IH]; intros [|py m]; simpl; try reflexivity.
    now rewrite reconstruct_row_firstn, IH.
  - rewrite Hr, map2_map_l. unfold f.
    clear. generalize (combine (rows params) (rows (values y))).
    induction (rows weights') as [|w l IH]; intros [|py m]; simpl; try reflexivity.
    now rewrite reconstruct_row_firstn, IH.
Qed.

(** X9.  For an all-Gaussian prediction the record depends on the first
    [k = slots // n_targets] weights of each row only: two answers of the
    regressor that agree on them (and on the number of columns) give the
    same outcome, record or exception. *)
Theorem later_weights_are_not_read (self : GenerativeRegressorFull)
    (weights weights' : ndarray F) (types : ndarray Z) (params : ndarray F)
    (oy : option (DataFrame F)) :
  let k := ncols types / length (target_column_name self) in
  any types = false ->
  ncols weights = ncols weights' ->
  map (firstn k) (rows weights) = map (firstn k) (rows weights') ->
  encode_dists self (weights, types, params) oy
  = encode_dists self (weights', types, params) oy.
Proof.
  intros k Hany Hc Hr. unfold encode_dists. rewrite Hany. simpl negb. cbv iota.
  fold k.
  now rewrite (@reconstruct_weights_firstn (length (target_column_name self)) k
                 weights weights' types params oy Hc Hr).
Qed.

End WeightsRead.

(** ** The cells of the record *)

(** X10.  For an all-Gaussian prediction of [k] components in each of
    [n_targets] dimensions, within [max_dists], for at least one sample of
    a frame, with finite cells, positive stds, every target scored within
    range (no std above 1e200 and no target further than 1e100 stds from
    the mean it is scored against) and marginal weights between 0 and 1
    that do not sum to zero, [predict_submission] returns a record whose
    weight cell of component [c] is, in every dimension, the marginal
    weight of [c] over the sum of the marginal weights of the sample (in
    arithmetic without rounding): within that range neither the realized
    targets nor the means and stds change a weight. *)
Theorem record_weights_are_normalised_marginals (self : GenerativeRegressorFull)
    (trained_model : regressor xreal) (X_array : X_input xreal) (X : ndarray xreal)
    (restart : option (ndarray xreal)) (y : DataFrame xreal)
    (weights : ndarray xreal) (types : ndarray Z) (params : ndarray xreal) (k : nat) :
  let n_targets := length (target_column_name self) in
  let n := shape0 X_array in
  split_input self X_array = Ok (X, restart, Some y) ->
  predict trained_model (Array X) restart = (weights, types, params) ->
  any types = false ->
  0 < n_targets -> 0 < n ->
  shaped n n_targets k (weights, types, params) = true ->
  k * n_targets <= max_dists self ->
  finite_cells weights -> finite_cells params -> finite_cells (values y) ->
  positive_stds params ->
  targets_in_range n_targets params y ->
  unit_marginals k weights ->
  nonzero_marginals k weights ->
  exists res,
    predict_submission self trained_model X_array = Ok res /\
    forall s d c, s < n -> d < n_targets -> c < k ->
      exists w,
        nth_error (rows weights) s = Some w /\
        cell res s (d * (4 * k + 1) + 1 + c)
        = Some (Some (Fin (real_of (nth c w (Fin 0)) / marginal_sum k w))).
Proof.
  intros n_targets n Hin Hpred Hany Ht Hn Hs Hmax Hfw Hfp Hfy Hpos Hrange _ Hnz.
  pose proof (split_input_truths _ _ Hin) as Hy. fold n n_targets in Hy.
  rewrite (predict_submission_unfold _ _ _ Hin Hpred).
  destruct (@encode_dists_layout xreal _ self n k weights types params (Some y)
              Ht Hs Hmax) as [res [w' [Hres [Hw [_ [_ Hl]]]]]].
  { intros _. split; [assumption|]. now exists y. }
  destruct (@reconstruct_weights_finite n n_targets k weights types params y
              Ht Hn Hs Hy Hfw Hfp Hfy Hpos Hrange Hnz) as [norm_w [Hrec Hcells]].
  fold n_targets in Hw. rewrite written_gaussian, Hrec in Hw by assumption.
  injection Hw as <-.
  exists res. split; [exact Hres|].
  intros s d c Hsn Hd Hc.
  destruct (Hcells s Hsn) as [w [row [Ew [Erow [_ Hrow]]]]].
  exists w. split; [exact Ew|].
  destruct (Hl s d Hsn Hd) as [_ [Hwc _]].
  destruct (Hwc c Hc) as [v [Hv Hcell]].
  unfold cell in Hv. rewrite Erow, (Hrow d c Hd Hc) in Hv. injection Hv as <-.
  exact Hcell.
Qed.

Section WrittenCells.

Context {F : Type} `{Float64 F}.

(** X11.  The record of a prediction with [k] components in each of
    [n_targets] dimensions has one row per sample and no cell of the
    [np.empty] array is left unwritten. *)
Theorem shaped_record_is_completely_written (self : GenerativeRegressorFull)
    (trained_model : regressor F) (X_array : X_input F) (X : ndarray F)
    (restart : option (ndarray F)) (oy : option (DataFrame F))
    (weights : ndarray F) (types : ndarray Z) (params : ndarray F) (k : nat) :
  let n_targets := length (target_column_name self) in
  let n := shape0 X_array in
  split_input self X_array = Ok (X, restart, oy) ->
  predict trained_model (Array X) restart = (weights, types, params) ->
  0 < n_targets ->
  shaped n n_targets k (weights, types, params) = true ->
  k * n_targets <= max_dists self ->
  (any types = false -> 0 < n /\ oy <> None) ->
  exists res,
    predict_submission self trained_model X_array = Ok res /\
    nrows res = n /\
    forall s col, s < n -> col < ncols res ->
      exists v, cell res s col = Some (Some v).
Proof.
  intros n_targets n Hin Hpred Ht Hs Hmax Hg.
  rewrite (predict_submission_unfold _ _ _ Hin Hpred).
  destruct (@encode_dists_layout _ _ self n k weights types params oy Ht Hs Hmax)
    as [res [w' [Hres [Hw [Hwf [Hnc Hl]]]]]].
  { intros Hany. destruct (Hg Hany) as [Hn Hy]. split; [assumption|].
    destruct oy as [y|]; [|contradiction].
    exists y. split; [reflexivity|]. now apply split_input_truths in Hin. }
  exists res. split; [exact Hres|]. split.
  { now apply wf_ndarray_spec in Hwf as [Hr _]. }
  intros s col Hsn Hcol. rewrite Hnc in Hcol. fold n_targets in Hcol.
  set (step := 4 * k + 1) in *.
  pose proof (Nat.div_mod_eq col step) as Hdm.
  pose proof (Nat.mod_upper_bound col step ltac:(unfold step; lia)) as Hr.
  assert (Hd : col / step < n_targets).
  { apply Nat.Div0.div_lt_upper_bound. lia. }
  destruct (Hl s (col / step) Hsn Hd) as [Hcount [Hwc [Htc Hpc]]].
  set (d := col / step) in *. set (r := col mod step) in *.
  assert (Hpos : col = d * step + r) by lia.
  destruct (Nat.eq_dec r 0) as [Hr0|Hr0].
  { eexists. rewrite Hpos, Hr0, Nat.add_0_r. exact Hcount. }
  destruct (Nat.le_gt_cases r k) as [Hrk|Hrk].
  { destruct (Hwc (r - 1) ltac:(lia)) as [v [_ Hv]].
    exists v. rewrite <- Hv. f_equal. lia. }
  destruct (Nat.le_gt_cases r (2 * k)) as [Hr2|Hr2].
  { destruct (Htc (r - 1 - k) ltac:(lia)) as [v [_ Hv]].
    eexists. rewrite <- Hv. f_equal. lia. }
  set (q := r - 1 - 2 * k).
  pose proof (Nat.div_mod_eq q 2) as Hq.
  pose proof (Nat.mod_upper_bound q 2 ltac:(lia)) as Hq2.
  assert (Hqc : q / 2 < k).
  { apply Nat.Div0.div_lt_upper_bound. unfold q, step in *. lia. }
  destruct (Hpc (q / 2) Hqc) as [[v0 [_ Hv0]] [v1 [_ Hv1]]].
  destruct (Nat.eq_dec (q mod 2) 0) as [Hpar|Hpar].
  - exists v0. rewrite <- Hv0. f_equal. unfold q in *. lia.
  - exists v1. rewrite <- Hv1. f_equal. unfold q in *. lia.
Qed.

End WrittenCells.

(** ** The restart column, and sampling at the edges *)

Section RestartColumn.

Context {F G : Type} `{Float64 F} `{RandomState F G}.

Lemma getitem_absent (df : DataFrame F) (name : string) :
  ~ In name (columns df) -> getitem df [name] = Raise KeyError.
Proof.
  intros Hn. unfold getitem. simpl forallb.
  destruct (has_label (columns df) name) eqn:E; [|reflexivity].
  exfalso. apply Hn. unfold has_label in E.
  apply existsb_exists in E as [c [Hc E]]. apply String.eqb_eq in E. now subst c.
Qed.

Lemma check_restart_absent (self : GenerativeRegressorFull) (df : DataFrame F)
    (name : string) :
  restart_name self = Some name -> ~ In name (columns df) ->
  _check_restart self (Frame df) = Ok (Frame df, None).
Proof.
  intros Hr Hn. unfold _check_restart. rewrite Hr. now rewrite getitem_absent.
Qed.

Lemma check_restart_rows_absent (self : GenerativeRegressorFull) (df : DataFrame F)
    (name : string) (train_is : row_selection) :
  restart_name self = Some name -> ~ In name (columns df) ->
  _check_restart_rows self (Frame df) train_is = Ok (Frame df, None).
Proof.
  intros Hr Hn. unfold _check_restart_rows. rewrite Hr. now rewrite getitem_absent.
Qed.

(** X12.  With a restart name configured, a numpy array as [X_array] ends
    [predict_submission], [step] and [train_submission] alike in an
    IndexError: the array is indexed with the name, and only a KeyError is
    caught. *)
Theorem restart_name_on_an_array_is_an_index_error (self : GenerativeRegressorFull)
    (name : string) (trained_model : regressor F) (module : submission F)
    (a : ndarray F) (y_array : y_input F) (train_is : row_selection) (rng : G) :
  restart_name self = Some name ->
  predict_submission self trained_model (Array a) = Raise IndexError /\
  step self trained_model (Array a) rng = Raise IndexError /\
  train_submission self module (Array a) y_array train_is = Raise IndexError.
Proof.
  intros Hr. repeat split.
  - unfold predict_submission, split_input, _check_restart. now rewrite Hr.
  - unfold step, _check_restart. now rewrite Hr.
  - unfold train_submission, train_features, _check_restart_rows. now rewrite Hr.
Qed.

(** X13.  When the frame has no column labelled with the configured
    restart name, [predict_submission], [step] and [train_submission]
    behave as if no restart name were configured. *)
Theorem absent_restart_column_is_ignored (self : GenerativeRegressorFull)
    (name : string) (trained_model : regressor F) (module : submission F)
    (df : DataFrame F) (y_array : y_input F) (train_is : row_selection) (rng : G) :
  restart_name self = Some name -> ~ In name (columns df) ->
  predict_submission self trained_model (Frame df)
  = predict_submission (without_restart self) trained_model (Frame df) /\
  step self trained_model (Frame df) rng
  = step (without_restart self) trained_model (Frame df) rng /\
  train_submission self module (Frame df) y_array train_is
  = train_submission (without_restart self) module (Frame df) y_array train_is.
Proof.
  intros Hr Hn. repeat split.
  - unfold predict_submission, split_input.
    rewrite (check_restart_absent self df Hr Hn).
    reflexivity.
  - unfold step. rewrite (check_restart_absent self df Hr Hn). reflexivity.
  - unfold train_submission, train_features.
    rewrite (check_restart_rows_absent self df train_is Hr Hn). reflexivity.
Qed.

(** Once [_check_restart] has returned, a batch without rows or a workflow
    without targets stops [step] at a [reshape]. *)
Lemma step_reshape_fails (self : GenerativeRegressorFull)
    (trained_model : regressor F) (X_array X' : X_input F)
    (restart : option (ndarray F)) (rng : G) :
  _check_restart self X_array = Ok (X', restart) ->
  shape0 X_array = 0 \/ length (target_column_name self) = 0 ->
  step self trained_model X_array rng = Raise ValueError.
Proof.
  intros Hcr Hz. unfold step. rewrite Hcr. simpl bind. simpl fst. simpl snd.
  rewrite (check_restart_rows _ _ Hcr).
  destruct (predict trained_model X' restart) as [[weights types] params].
  assert (Hv : forall sz known e, reshape_last sz known = Raise e -> e = ValueError).
  { intros sz known e. unfold reshape_last. destruct (_ || _); [|discriminate].
    now intros [= <-]. }
  destruct (reshape_last (size weights) _) as [n_w|e] eqn:E1.
  2:{ apply Hv in E1. now subst e. }
  simpl bind.
  assert (E2 : reshape_last (size (cols_step 0 2 params))
                 (shape0 X_array * length (target_column_name self))
               = Raise ValueError).
  { destruct Hz as [-> | Hz].
    - reflexivity.
    - rewrite Hz in E1. discriminate. }
  now rewrite E2.
Qed.

(** X14.  [step] on a batch without rows, or for a workflow without
    targets, returns nothing, whatever the regressor answers: it ends in
    the IndexError of [_check_restart] when [X_array] is a numpy array and
    a restart name is configured, and in a ValueError of [reshape] in
    every other case. *)
Theorem step_needs_rows_and_targets (self : GenerativeRegressorFull)
    (trained_model : regressor F) (X_array : X_input F) (rng : G) :
  shape0 X_array = 0 \/ length (target_column_name self) = 0 ->
  step self trained_model X_array rng
  = Raise (match restart_name self, X_array with
           | Some _, Array _ => IndexError
           | _, _ => ValueError
           end).
Proof.
  intros Hz.
  destruct (_check_restart self X_array) as [[X' restart]|e] eqn:Hcr.
  - rewrite (@step_reshape_fails self trained_model X_array X' restart rng Hcr Hz).
    destruct (restart_name self) as [name|] eqn:Hr; [|reflexivity].
    destruct X_array as [df|a]; [reflexivity|].
    unfold _check_restart in Hcr. rewrite Hr in Hcr. discriminate.
  - unfold step. rewrite Hcr. simpl bind.
    unfold _check_restart in Hcr.
    destruct (restart_name self) as [name|]; [|discriminate].
    destruct X_array as [df|a].
    + destruct (getitem df [name]); [|discriminate].
      destruct (drop df [name]); discriminate.
    + now injection Hcr as <-.
Qed.

(** X15.  On a shaped prediction for [n] samples [step] draws its index
    among [n * k] categories; when the generator returns one that is no
    component index, [k] or more, [step] ends in an IndexError. *)
Theorem step_index_past_the_components (self : GenerativeRegressorFull)
    (trained_model : regressor F) (X_array X' : X_input F)
    (restart : option (ndarray F)) (rng g1 : G)
    (weights : ndarray F) (types : ndarray Z) (params : ndarray F)
    (n k c : nat) :
  let n_targets := length (target_column_name self) in
  _check_restart self X_array = Ok (X', restart) ->
  shape0 X' = n ->
  predict trained_model X' restart = (weights, types, params) ->
  0 < n -> 0 < n_targets ->
  shaped n n_targets k (weights, types, params) = true ->
  choice rng (n * k) (firstn (n * k) (flatten weights)) = Ok (c, g1) ->
  k <= c ->
  step self trained_model X_array rng = Raise IndexError.
Proof.
  intros n_targets Hcr Hn0 Hpred Hn Ht Hs Hc Hkc.
  assert (Hp0 : exists p0, nth_error (rows params) 0 = Some p0).
  { unfold shaped in Hs. repeat rewrite andb_true_iff in Hs.
    destruct Hs as [[[[[_ _] Hp] _] _] _].
    destruct (wf_row params Hp Hn) as [p0 [Hp0 _]]. now exists p0. }
  destruct Hp0 as [p0 Hp0].
  rewrite (@step_shaped _ _ _ _ self trained_model X_array X' restart rng
             weights types params p0 n k Hcr Hn0 Hpred Hn Ht Hs Hp0).
  rewrite Hc. simpl bind. simpl fst.
  now replace (c <? k) with false by (symmetry; apply Nat.ltb_ge; lia).
Qed.

End RestartColumn.

(** ** Training *)

Lemma pick_all (A : Type) (pre l : list A) :
  pick (seq (length pre) (length l)) (pre ++ l) = l.
Proof.
  revert pre; induction l as [|x l IH]; intros pre; [reflexivity|].
  simpl seq. unfold pick. simpl flat_map.
  rewrite nth_error_app2, Nat.sub_diag by lia. simpl.
  f_equal.
  pose proof (IH (pre ++ [x])) as IH'.
  rewrite length_app, <- app_assoc in IH'. simpl in IH'.
  rewrite Nat.add_1_r in IH'. exact IH'.
Qed.

Lemma take_rows_length (A : Type) (idx : list nat) (l rs : list A) :
  take_rows (Rows idx) l = Ok rs -> length rs = length idx.
Proof.
  simpl. destruct (forallb _ idx) eqn:E; [|discriminate].
  intros [= <-]. apply length_pick. intros p Hp.
  rewrite forallb_forall in E. now apply Nat.ltb_lt, E.
Qed.

Lemma take_rows_past (A : Type) (idx : list nat) (l : list A) (i : nat) :
  In i idx -> length l <= i -> take_rows (Rows idx) l = Raise IndexError.
Proof.
  intros Hi Hl. simpl. destruct (forallb _ idx) eqn:E; [|reflexivity].
  rewrite forallb_forall in E. apply E, Nat.ltb_lt in Hi. lia.
Qed.

Lemma take_rows_all (A : Type) (l : list A) :
  take_rows (Rows (seq 0 (length l))) l = take_rows All_rows l.
Proof.
  simpl.
  replace (forallb (fun i => i <? length l) (seq 0 (length l))) with true.
  - f_equal. exact (pick_all [] l).
  - symmetry. apply forallb_forall. intros i Hi. apply in_seq in Hi.
    apply Nat.ltb_lt. lia.
Qed.


Section TrainingFacts.

Context {F : Type} `{Float64 F}.

(** With the full slice [_check_restart_rows] is [_check_restart]. *)
Lemma check_restart_rows_all (self : GenerativeRegressorFull) (X_array : X_input F) :
  _check_restart_rows self X_array All_rows = _check_restart self X_array.
Proof.
  unfold _check_restart_rows, _check_restart.
  destruct (restart_name self); [|reflexivity].
  destruct X_array as [df|a]; [|reflexivity].
  destruct (getitem df [s]); [|reflexivity].
  destruct (drop df [s]); reflexivity.
Qed.

(** The rows that training selects from: as many as [X_array] has. *)
Lemma train_rows (self : GenerativeRegressorFull) (X_array X' : X_input F)
    (restart : option (ndarray F)) (train_is : row_selection) :
  _check_restart_rows self X_array train_is = Ok (X', restart) ->
  let truths := map (String.append "y_") (target_column_name self) in
  let X := match X' with
           | Frame df => match drop df truths with
                         | Ok df' => values df'
                         | Raise _ => values df
                         end
           | Array a => a
           end in
  nrows X = shape0 X_array.
Proof.
  intros Hcr truths X.
  assert (Hs : shape0 X' = shape0 X_array).
  { revert Hcr. unfold _check_restart_rows.
    destruct (restart_name self) as [name|]; [|now intros [= <- _]].
    destruct X_array as [df|a]; [|discriminate].
    destruct (getitem df [name]) as [r|e]; [|now intros [= <- _]].
    destruct (drop df [name]) as [df'|e] eqn:E; [|now intros [= <- _]].
    destruct (take_rows train_is (frame_rows r)); [|discriminate].
    intros [= <- _]. simpl. now apply drop_rows in E. }
  rewrite <- Hs. unfold X. destruct X' as [df|a]; [|reflexivity].
  destruct (drop df truths) as [df'|e] eqn:E; [|reflexivity].
  simpl. now apply drop_rows in E.
Qed.

(** X16.  On a frame with distinct labels that carries every truth column
    (no restart column configured), [train_submission] fits on the very
    features that [predict_submission] hands to the regressor. *)
Theorem frame_features_agree_between_training_and_prediction
    (self : GenerativeRegressorFull) (df : DataFrame F) :
  let truths := map (String.append "y_") (target_column_name self) in
  restart_name self = None ->
  NoDup (columns df) -> NoDup (target_column_name self) ->
  forallb (has_label (columns df)) truths = true ->
  Forall (fun r => length r = length (columns df)) (frame_rows df) ->
  exists X y,
    train_features self (Frame df) All_rows = Ok (X, None) /\
    split_input self (Frame df) = Ok (X, None, Some y).
Proof.
  intros truths Hrn Hc Ht Hall Hrows.
  destruct (@split_input_frame _ self df Hrn Hc Ht Hall Hrows)
    as [y [df' [_ [Hd [_ Hs]]]]].
  exists (values df'), y. split; [|exact Hs].
  unfold train_features, _check_restart_rows. rewrite Hrn.
  cbn [bind fst snd]. fold truths. fold truths in Hd. now rewrite Hd.
Qed.



(** X19.  When [train_submission] returns for a list of row indices,
    [y_array] had two dimensions, and [fit] received one row of features,
    one row of targets and, with a restart column, one restart entry per
    index, the targets with all their columns. *)
Theorem selected_rows_reach_fit_together
    (self : GenerativeRegressorFull) (module : submission F)
    (X_array : X_input F) (y_array : y_input F) (idx : list nat)
    (reg : regressor F) :
  train_submission self module X_array y_array (Rows idx) = Ok reg ->
  exists a X y restart,
    y_array = Matrix a /\
    reg = fit module (max_dists self) X y restart /\
    nrows X = length idx /\ nrows y = length idx /\ ncols y = ncols a /\
    (forall r, restart = Some r -> nrows r = length idx).
Proof.
  unfold train_submission.
  destruct (train_features self X_array (Rows idx)) as [[X restart]|e] eqn:Ef;
    [|discriminate].
  simpl bind.
  destruct (train_targets y_array (Rows idx)) as [y|e] eqn:Ey; [|discriminate].
  simpl bind. simpl fst. simpl snd. intros [= <-].
  destruct y_array as [v|a|len]; simpl in Ey; try discriminate.
  2:{ destruct (forallb _ idx); discriminate. }
  exists a, X, y, restart. split; [reflexivity|]. split; [reflexivity|].
  assert (Hy : nrows y = length idx /\ ncols y = ncols a).
  { destruct (forallb (fun i => i <? length (rows a)) idx) eqn:E; [|discriminate].
    simpl in Ey. injection Ey as <-. split; [|reflexivity].
    unfold nrows. simpl. apply length_pick. intros p Hp.
    rewrite forallb_forall in E. now apply Nat.ltb_lt, E. }
  destruct Hy as [Hy1 Hy2].
  assert (Hx : nrows X = length idx /\
               forall r, restart = Some r -> nrows r = length idx).
  { revert Ef. unfold train_features.
    destruct (_check_restart_rows self X_array (Rows idx)) as [[X' r']|e] eqn:Ec;
      [|discriminate].
    cbn [bind fst snd].
    match goal with
    | |- context [take_rows (Rows idx) ?l] =>
        destruct (take_rows (Rows idx) l) as [rs|e] eqn:Et; [|discriminate]
    end.
    cbn [bind]. intros [= <- <-]. split.
    - unfold nrows. simpl. now apply take_rows_length in Et.
    - intros r ->. revert Ec. unfold _check_restart_rows.
      destruct (restart_name self) as [name|]; [|discriminate].
      destruct X_array as [df|a0]; [|discriminate].
      destruct (getitem df [name]) as [r0|e]; [|discriminate].
      destruct (drop df [name]) as [df'|e]; [|discriminate].
      destruct (take_rows (Rows idx) (frame_rows r0)) as [rs0|e] eqn:Er;
        [|discriminate].
      simpl bind. intros [= _ <-]. unfold nrows. simpl.
      now apply take_rows_length in Er. }
  destruct Hx as [Hx1 Hx2]. auto.
Qed.

(** X20.  A row index at or past the number of rows of [X_array] ends
    [train_submission] in an IndexError, whatever the targets are. *)
Theorem row_past_the_batch_is_an_index_error
    (self : GenerativeRegressorFull) (module : submission F)
    (X_array : X_input F) (y_array : y_input F) (idx : list nat) (i : nat) :
  In i idx -> shape0 X_array <= i ->
  train_submission self module X_array y_array (Rows idx) = Raise IndexError.
Proof.
  intros Hi Hn. unfold train_submission.
  assert (Hf : train_features self X_array (Rows idx) = Raise IndexError).
  { unfold train_features.
    destruct (_check_restart_rows self X_array (Rows idx)) as [[X' r']|e] eqn:Ec.
    - cbn [bind fst snd].
      pose proof (train_rows self X_array (Rows idx) Ec) as Hrows.
      cbv zeta in Hrows. unfold nrows in Hrows.
      rewrite (@take_rows_past _ idx _ i Hi) by lia. reflexivity.
    - simpl bind. f_equal. revert Ec. unfold _check_restart_rows.
      destruct (restart_name self) as [name|]; [|discriminate].
      destruct X_array as [df|a0]; [|now intros [= <-]].
      destruct (getitem df [name]) as [r0|e0] eqn:Eg; [|discriminate].
      destruct (drop df [name]) as [df'|e1]; [|discriminate].
      apply getitem_truths in Eg as [_ Hr0].
      rewrite (@take_rows_past _ idx _ i Hi) by (simpl in Hn; lia).
      now intros [= <-]. }
  now rewrite Hf.
Qed.

(** X21.  Training on the list of all row indices in order is training
    with the default [train_is]. *)
Theorem every_row_in_order_is_the_default_slice
    (self : GenerativeRegressorFull) (module : submission F)
    (X_array : X_input F) (a : ndarray F) :
  nrows a = shape0 X_array ->
  train_submission self module X_array (Matrix a) (Rows (seq 0 (shape0 X_array)))
  = train_submission self module X_array (Matrix a) All_rows.
Proof.
  intros Ha. unfold train_submission.
  assert (Hy : train_targets (Matrix a) (Rows (seq 0 (shape0 X_array)))
               = train_targets (Matrix a) All_rows).
  { unfold train_targets. rewrite <- Ha. unfold nrows.
    now rewrite take_rows_all. }
  assert (Hc : _check_restart_rows self X_array (Rows (seq 0 (shape0 X_array)))
               = _check_restart_rows self X_array All_rows).
  { unfold _check_restart_rows.
    destruct (restart_name self) as [name|]; [|reflexivity].
    destruct X_array as [df|a0]; [|reflexivity].
    destruct (getitem df [name]) as [r0|e0] eqn:Eg; [|reflexivity].
    destruct (drop df [name]) as [df'|e1]; [|reflexivity].
    apply getitem_truths in Eg as [_ Hr0]. simpl shape0. rewrite <- Hr0.
    now rewrite take_rows_all. }
  assert (Hf : train_features self X_array (Rows (seq 0 (shape0 X_array)))
               = train_features self X_array All_rows).
  { unfold train_features. rewrite Hc.
    destruct (_check_restart_rows self X_array All_rows) as [[X' r']|e] eqn:Ec;
      [|reflexivity].
    cbn [bind fst snd].
    pose proof (train_rows self X_array All_rows Ec) as Hrows.
    cbv zeta in Hrows. rewrite <- Hrows. unfold nrows.
    now rewrite take_rows_all. }
  now rewrite Hy, Hf.
Qed.

End TrainingFacts.

(** ** The further properties on example inputs *)

Lemma table1_labels : NoDup (columns Cases.table1).
Proof.
  repeat constructor; simpl; intros Hin;
    repeat (destruct Hin as [Hin|Hin]; [discriminate Hin|]); exact Hin.
Defined.

Lemma workflow2_targets : NoDup (target_column_name Examples.workflow2).
Proof.
  repeat constructor; simpl; intros Hin;
    repeat (destruct Hin as [Hin|Hin]; [discriminate Hin|]); exact Hin.
Defined.

(** The theorem [restart_column_is_removed] on an example. *)
Lemma restart_column_is_removed_witness :
  exists name df',
    restart_name Cases.workflow_r = Some name /\ In name (columns Cases.table_r) /\
    Frame Cases.table1 = Frame df' /\
    columns df' = filter (fun c => negb (String.eqb c name)) (columns Cases.table_r) /\
    ~ In name (columns df') /\
    length (frame_rows df') = length (frame_rows Cases.table_r) /\
    nrows {| ncols := 1; rows := [Examples.row [1%R]] |}
    = length (frame_rows Cases.table_r).
Proof.
  apply (@restart_column_is_removed xreal Cases.workflow_r Cases.table_r
           (Frame Cases.table1) {| ncols := 1; rows := [Examples.row [1%R]] |}).
  reflexivity.
Defined.

(** The theorem [missing_truth_is_a_key_error] on an example. *)
Lemma missing_truth_is_a_key_error_witness :
  predict_submission Examples.workflow2 (Examples.constant Examples.gaussian2x2)
                     (Frame Cases.table_a) = Raise KeyError.
Proof.
  apply (@missing_truth_is_a_key_error xreal _ Examples.workflow2
           (Examples.constant Examples.gaussian2x2) Cases.table_a "b"%string).
  - simpl. auto.
  - simpl. intros Hin.
    repeat (destruct Hin as [Hin|Hin]; [discriminate Hin|]). exact Hin.
Defined.

(** The theorem [frame_features_are_the_other_columns] on an example. *)
Lemma frame_features_are_the_other_columns_witness :
  exists y df',
    getitem Cases.table1 ["y_a"; "y_b"]%string = Ok y /\
    drop Cases.table1 ["y_a"; "y_b"]%string = Ok df' /\
    columns y = ["y_a"; "y_b"]%string /\
    columns df' = filter (fun c => negb (has_label ["y_a"; "y_b"]%string c))
                         (columns Cases.table1) /\
    split_input Examples.workflow2 (Frame Cases.table1)
    = Ok (values df', None, Some y).
Proof.
  apply (@frame_features_are_the_other_columns xreal Examples.workflow2 Cases.table1).
  - reflexivity.
  - exact table1_labels.
  - exact workflow2_targets.
  - reflexivity.
  - repeat constructor.
Defined.

(** The theorem [prediction_errors_in_order] on an example. *)
Lemma prediction_errors_in_order_witness :
  let outcome := predict_submission Examples.workflow2
                   (Examples.constant Examples.gaussian2x2) Examples.array1 in
  (outcome = Raise AssertionError <->
   max_dists Examples.workflow2 < ncols Examples.zero_types) /\
  (outcome = Raise ZeroDivisionError <->
   ncols Examples.zero_types <= max_dists Examples.workflow2 /\
   length (target_column_name Examples.workflow2) = 0) /\
  (outcome = Raise UnboundLocalError <->
   ncols Examples.zero_types <= max_dists Examples.workflow2 /\
   length (target_column_name Examples.workflow2) <> 0 /\
   any Examples.zero_types = false /\ @None (DataFrame xreal) = None).
Proof.
  apply (@prediction_errors_in_order xreal _ Examples.workflow2
           (Examples.constant Examples.gaussian2x2) Examples.array1
           {| ncols := 1; rows := [Examples.row [3%R]] |} None None
           Examples.halves2x2 Examples.zero_types Examples.params2x2).
  - reflexivity.
  - reflexivity.
Defined.

(** The theorem [empty_batch_returns_no_record] on an example. *)
Lemma empty_batch_returns_no_record_witness :
  raises (predict_submission Examples.workflow2 (Examples.constant Cases.no_dists)
                             (Frame Cases.no_rows)).
Proof.
  apply (@empty_batch_returns_no_record xreal _ Examples.workflow2
           (Examples.constant Cases.no_dists) (Frame Cases.no_rows)
           {| ncols := 1; rows := [] |} None
           (Some {| columns := ["y_a"; "y_b"]%string; frame_rows := [] |})
           (fst (fst Cases.no_dists)) (snd (fst Cases.no_dists)) (snd Cases.no_dists)).
  - reflexivity.
  - reflexivity.
  - reflexivity.
Defined.

(** The theorem [returned_record_has_one_width] on an example. *)
Lemma returned_record_has_one_width_witness :
  let res := {| ncols := 6;
                rows := [[Some (Fin 0); Some (Fin 0); None;
                          Some (Fin 0); Some (Fin 1); None]] |} in
  ncols res = 2 + (1 + 1 + 2) /\ Forall (fun r => length r = ncols res) (rows res).
Proof.
  apply (@returned_record_has_one_width xreal _ Examples.workflow2
           (Examples.constant Examples.lone_slot) Examples.array1
           {| ncols := 1; rows := [Examples.row [3%R]] |} None None
           (fst (fst Examples.lone_slot)) Examples.lone_types (snd Examples.lone_slot)).
  - reflexivity.
  - reflexivity.
  - reflexivity.
Defined.


(** The theorem [unusable_std_spoils_later_dimensions] on the same example. *)
Lemma unusable_std_spoils_later_dimensions_witness :
  nth_error (reconstruct_row 2 1 (Examples.row [1; 1]%R)
               (Examples.row [0; 0; 0; 1]%R) (Examples.row [0; 0]%R)) (1 * 1 + 0)
  = Some NaN.
Proof.
  apply (@unusable_std_spoils_later_dimensions 2 1 Cases.ones2x1 Cases.zeros2x1
           Examples.degenerate_params (Some Examples.truths1)
           {| ncols := 2;
              rows := [reconstruct_row 2 1 (Examples.row [1; 1]%R)
                         (Examples.row [0; 0; 0; 1]%R) (Examples.row [0; 0]%R)] |}
           0 0 1 0 (Examples.row [0; 0; 0; 1]%R)).
  - reflexivity.
  - reflexivity.
  - reflexivity.
  - simpl. lia.
  - simpl. intros [r [Hr Hpos]]. injection Hr as <-. lra.
  - lia.
  - lia.
  - lia.
Defined.

(** The theorem [later_weights_are_not_read] on an example. *)
Lemma later_weights_are_not_read_witness :
  encode_dists Examples.workflow2
    (Examples.halves2x2, Examples.zero_types, Examples.params2x2)
    (Some Examples.truths1)
  = encode_dists Examples.workflow2
      (Cases.uneven2x2, Examples.zero_types, Examples.params2x2)
      (Some Examples.truths1).
Proof.
  apply (@later_weights_are_not_read xreal _ Examples.workflow2
           Examples.halves2x2 Cases.uneven2x2 Examples.zero_types
           Examples.params2x2 (Some Examples.truths1)).
  - reflexivity.
  - reflexivity.
  - reflexivity.
Defined.

(** The theorem [record_weights_are_normalised_marginals] on an example. *)
Lemma record_weights_are_normalised_marginals_witness :
  exists res,
    predict_submission Examples.workflow2 (Examples.constant Examples.gaussian2x2)
                       Examples.frame1 = Ok res /\
    forall s d c, s < 1 -> d < 2 -> c < 2 ->
      exists w,
        nth_error (rows Examples.halves2x2) s = Some w /\
        cell res s (d * (4 * 2 + 1) + 1 + c)
        = Some (Some (Fin (real_of (nth c w (Fin 0)) / marginal_sum 2 w))).
Proof.
  apply (@record_weights_are_normalised_marginals Examples.workflow2
           (Examples.constant Examples.gaussian2x2) Examples.frame1
           {| ncols := 1; rows := [Examples.row [3%R]] |} None Examples.truths1
           Examples.halves2x2 Examples.zero_types Examples.params2x2 2).
  - reflexivity.
  - reflexivity.
  - reflexivity.
  - simpl; lia.
  - simpl; lia.
  - reflexivity.
  - simpl; lia.
  - fin_cells.
  - fin_cells.
  - fin_cells.
  - pos_cells.
  - near_cells ten_100_one ten_200_one.
  - simpl. pos_cells.
  - repeat constructor. unfold marginal_sum. simpl. lra.
Defined.

(** The theorem [shaped_record_is_completely_written] on an example. *)
Lemma shaped_record_is_completely_written_witness :
  exists res,
    predict_submission Examples.workflow2 (Examples.constant Examples.mixed2x2)
                       Examples.array1 = Ok res /\
    nrows res = 1 /\
    forall s col, s < 1 -> col < ncols res ->
      exists v, cell res s col = Some (Some v).
Proof.
  apply (@shaped_record_is_completely_written xreal _ Examples.workflow2
           (Examples.constant Examples.mixed2x2) Examples.array1
           {| ncols := 1; rows := [Examples.row [3%R]] |} None None
           Examples.halves2x2 Examples.mixed_types Examples.params2x2 2).
  - reflexivity.
  - reflexivity.
  - simpl; lia.
  - reflexivity.
  - simpl; lia.
  - intros Hany. discriminate Hany.
Defined.

(** The theorem [restart_name_on_an_array_is_an_index_error] on an example. *)
Lemma restart_name_on_an_array_is_an_index_error_witness :
  predict_submission Cases.workflow_r (Examples.constant Examples.gaussian2x2)
                     (Array Cases.array2) = Raise IndexError /\
  step Cases.workflow_r (Examples.constant Examples.gaussian2x2)
       (Array Cases.array2) (Examples.scripted [7; 8]%R) = Raise IndexError /\
  train_submission Cases.workflow_r Cases.memorise (Array Cases.array2)
                   (Matrix Cases.targets2) All_rows = Raise IndexError.
Proof.
  apply (@restart_name_on_an_array_is_an_index_error xreal (replay xreal) _ _
           Cases.workflow_r "r"%string (Examples.constant Examples.gaussian2x2)
           Cases.memorise Cases.array2 (Matrix Cases.targets2) All_rows
           (Examples.scripted [7; 8]%R)).
  reflexivity.
Defined.

(** The theorem [absent_restart_column_is_ignored] on an example. *)
Lemma absent_restart_column_is_ignored_witness :
  predict_submission Cases.workflow_r (Examples.constant Examples.gaussian2x2)
                     (Frame Cases.table1)
  = predict_submission (without_restart Cases.workflow_r)
      (Examples.constant Examples.gaussian2x2) (Frame Cases.table1) /\
  step Cases.workflow_r (Examples.constant Examples.gaussian2x2)
       (Frame Cases.table1) (Examples.scripted [7; 8]%R)
  = step (without_restart Cases.workflow_r) (Examples.constant Examples.gaussian2x2)
         (Frame Cases.table1) (Examples.scripted [7; 8]%R) /\
  train_submission Cases.workflow_r Cases.memorise (Frame Cases.table1)
                   (Matrix Cases.targets1) All_rows
  = train_submission (without_restart Cases.workflow_r) Cases.memorise
      (Frame Cases.table1) (Matrix Cases.targets1) All_rows.
Proof.
  apply (@absent_restart_column_is_ignored xreal (replay xreal) _ _
           Cases.workflow_r "r"%string (Examples.constant Examples.gaussian2x2)
           Cases.memorise Cases.table1 (Matrix Cases.targets1) All_rows
           (Examples.scripted [7; 8]%R)).
  - reflexivity.
  - simpl. intros Hin.
    repeat (destruct Hin as [Hin|Hin]; [discriminate Hin|]). exact Hin.
Defined.

(** The theorem [step_needs_rows_and_targets] on an example. *)
Lemma step_needs_rows_and_targets_witness :
  step Cases.workflow0 (Examples.constant Examples.gaussian2x2) Examples.array1
       (Examples.scripted [7; 8]%R) = Raise ValueError.
Proof.
  apply (@step_needs_rows_and_targets xreal (replay xreal) _ _ Cases.workflow0
           (Examples.constant Examples.gaussian2x2) Examples.array1
           (Examples.scripted [7; 8]%R)).
  right. reflexivity.
Defined.

(** The theorem [step_index_past_the_components] on an example. *)
Lemma step_index_past_the_components_witness :
  step Examples.workflow1 (Examples.constant Examples.two_samples) Examples.batch2
       (Cases.scripted_second [7%R]) = Raise IndexError.
Proof.
  apply (@step_index_past_the_components xreal (replay xreal) _ _ Examples.workflow1
           (Examples.constant Examples.two_samples) Examples.batch2 Examples.batch2
           None (Cases.scripted_second [7%R])
           {| indices := []; vectors := [Examples.row [7%R]];
              asked := [(2, Examples.row [1/2; 1/2]%R)] |}
           (fst (fst Examples.two_samples)) (snd (fst Examples.two_samples))
           (snd Examples.two_samples) 2 1 1).
  - reflexivity.
  - reflexivity.
  - reflexivity.
  - lia.
  - simpl; lia.
  - reflexivity.
  - reflexivity.
  - lia.
Defined.

(** The theorem [frame_features_agree_between_training_and_prediction] on
    an example. *)
Lemma frame_features_agree_between_training_and_prediction_witness :
  exists X y,
    train_features Examples.workflow2 (Frame Cases.table1) All_rows = Ok (X, None) /\
    split_input Examples.workflow2 (Frame Cases.table1) = Ok (X, None, Some y).
Proof.
  apply (@frame_features_agree_between_training_and_prediction xreal
           Examples.workflow2 Cases.table1).
  - reflexivity.
  - exact table1_labels.
  - exact workflow2_targets.
  - reflexivity.
  - repeat constructor.
Defined.



(** The theorem [selected_rows_reach_fit_together] on an example. *)
Lemma selected_rows_reach_fit_together_witness :
  exists a X y restart,
    Matrix Cases.targets2 = Matrix a /\
    fit Cases.memorise 4
        {| ncols := 3;
           rows := [Examples.row [4; 1; 1]; Examples.row [3; 0; 0];
                    Examples.row [4; 1; 1]]%R |}
        {| ncols := 2;
           rows := [Examples.row [1; 1]; Examples.row [0; 0];
                    Examples.row [1; 1]]%R |} None
    = fit Cases.memorise (max_dists Examples.workflow2) X y restart /\
    nrows X = length [1; 0; 1] /\ nrows y = length [1; 0; 1] /\
    ncols y = ncols a /\
    (forall r, restart = Some r -> nrows r = length [1; 0; 1]).
Proof.
  apply (@selected_rows_reach_fit_together xreal Examples.workflow2 Cases.memorise
           (Array Cases.array2) (Matrix Cases.targets2) [1; 0; 1]).
  reflexivity.
Defined.

(** The theorem [row_past_the_batch_is_an_index_error] on an example. *)
Lemma row_past_the_batch_is_an_index_error_witness :
  train_submission Examples.workflow2 Cases.memorise (Array Cases.array2)
                   (Matrix Cases.targets2) (Rows [0; 2]) = Raise IndexError.
Proof.
  apply (@row_past_the_batch_is_an_index_error xreal Examples.workflow2
           Cases.memorise (Array Cases.array2) (Matrix Cases.targets2) [0; 2] 2).
  - simpl. auto.
  - cbv. lia.
Defined.

(** The theorem [every_row_in_order_is_the_default_slice] on an example. *)
Lemma every_row_in_order_is_the_default_slice_witness :
  train_submission Examples.workflow2 Cases.memorise (Array Cases.array2)
                   (Matrix Cases.targets2) (Rows (seq 0 2))
  = train_submission Examples.workflow2 Cases.memorise (Array Cases.array2)
                     (Matrix Cases.targets2) All_rows.
Proof.
  apply (@every_row_in_order_is_the_default_slice xreal Examples.workflow2
           Cases.memorise (Array Cases.array2) Cases.targets2).
  reflexivity.
Defined.
